(** * Kongnitive-EdgeMCP: JSON-RPC/MCP dispatcher, tool registry, Lua runtime
      lifecycle, OTA session and log query, embedded from [src/main/*.c].

    Conventions of the embedding.
    - A C [int] is a [Z]; where the source relies on the 32-bit range the
      wrap-around is written out ([wrap32]).
    - A NUL-terminated [char*] is a [string]; a nullable pointer is an
      [option].
    - [snprintf (buf, max_len, "%s", s)] leaves the first [max_len - 1] bytes
      of [s] in the buffer ([snprintf] below).
    - Module-level [static] variables become fields of explicit state records
      that every operation takes and returns.
    - The libraries the firmware links against (cJSON text codec, the Lua
      interpreter, [printf]'s floating-point conversions) are interfaces
      ([Class]es); every statement holds for any implementation of them, and
      small reference implementations make the examples executable. *)

From Stdlib Require Import ZArith String Ascii List Lia Bool Floats Uint63.
From stdpp Require Import base option list gmap strings pretty.

Set Default Proof Using "Type".

(* ===================================================================== *)
(** * Part I: definitions                                                  *)
(* ===================================================================== *)

(** ** esp_err.h *)

Inductive esp_err_t : Set :=
| ESP_OK
| ESP_FAIL
| ESP_ERR_NO_MEM
| ESP_ERR_INVALID_ARG
| ESP_ERR_INVALID_STATE
| ESP_ERR_INVALID_SIZE
| ESP_ERR_NOT_FOUND.

Global Instance esp_err_eq_dec : EqDecision esp_err_t.
Proof. solve_decision. Defined.

Definition esp_err_to_name (e : esp_err_t) : string :=
  match e with
  | ESP_OK => "ESP_OK"
  | ESP_FAIL => "ESP_FAIL"
  | ESP_ERR_NO_MEM => "ESP_ERR_NO_MEM"
  | ESP_ERR_INVALID_ARG => "ESP_ERR_INVALID_ARG"
  | ESP_ERR_INVALID_STATE => "ESP_ERR_INVALID_STATE"
  | ESP_ERR_INVALID_SIZE => "ESP_ERR_INVALID_SIZE"
  | ESP_ERR_NOT_FOUND => "ESP_ERR_NOT_FOUND"
  end.

(** ** C integers and C strings *)

Definition INT_MAX : Z := 2147483647.
Definition INT_MIN : Z := -2147483648.

(** Two's-complement wrap-around of a 32-bit [int]. *)
Definition wrap32 (z : Z) : Z := ((z + 2147483648) mod 4294967296 - 2147483648)%Z.

(** The first [n] bytes of a string. *)
Fixpoint str_take (n : nat) (s : string) : string :=
  match n, s with
  | S n', String c s' => String c (str_take n' s')
  | _, _ => EmptyString
  end.

(** [snprintf (buf, max_len, "%s", s)]: what the buffer holds afterwards. *)
Definition snprintf (max_len : nat) (s : string) : string :=
  str_take (max_len - 1) s.

(** [strncpy (dst, s, n); dst[n] = 0]. *)
Definition strncpy (n : nat) (s : string) : string := str_take n s.

(** [strstr (hay, needle) != NULL]. *)
Fixpoint strstr (hay needle : string) : bool :=
  if String.prefix needle hay then true
  else match hay with
       | EmptyString => false
       | String _ hay' => strstr hay' needle
       end.

(** [s] occurs somewhere inside [t]. *)
Definition str_contains (t s : string) : Prop :=
  exists pre post : string, t = pre +:+ s +:+ post.

(** [printf ("%d")] and [printf ("%lld")]. *)
Definition fmt_d (z : Z) : string := pretty z.

(** *** libc [atoi]

    newlib's [atoi] is [(int) strtol (s, NULL, 10)]: leading white space,
    an optional sign, then decimal digits; on a 32-bit [long] the result
    saturates. *)

Definition digit_of (c : ascii) : option Z :=
  let n := Z.of_N (N_of_ascii c) in
  if ((48 <=? n) && (n <=? 57))%Z then Some (n - 48)%Z else None.

Fixpoint atoi_digits (acc : Z) (s : string) : Z :=
  match s with
  | String c s' =>
      match digit_of c with
      | Some d => atoi_digits (acc * 10 + d) s'
      | None => acc
      end
  | EmptyString => acc
  end.

Fixpoint skip_space (s : string) : string :=
  match s with
  | String c s' => if Ascii.is_space c then skip_space s' else s
  | EmptyString => s
  end.

Definition saturate32 (z : Z) : Z := Z.max INT_MIN (Z.min INT_MAX z).

(** The sign that [strtol] reads after the white space, and what follows. *)
Definition atoi_sign (s : string) : bool * string :=
  match skip_space s with
  | String c s' =>
      if Ascii.eqb c "-" then (true, s')
      else if Ascii.eqb c "+" then (false, s')
      else (false, String c s')
  | EmptyString => (false, EmptyString)
  end.

Definition atoi (s : string) : Z :=
  let '(negative, body) := atoi_sign s in
  saturate32 (if negative then - atoi_digits 0 body else atoi_digits 0 body).


(** ** cJSON value trees (cJSON.h) *)

(** [(double) i] for a C [int] [i]. *)
Definition double_of_int (z : Z) : float :=
  if (z <? 0)%Z then PrimFloat.opp (PrimFloat.of_uint63 (Uint63.of_Z (- z)))
  else PrimFloat.of_uint63 (Uint63.of_Z z).

(** [(int) d] as cJSON computes the integer field of a number: truncated
    towards zero, and saturated at [INT_MAX] and [INT_MIN]. A finite double
    is [m * 2 ^ e] with its sign. *)
Definition int_of_double (d : float) : Z :=
  match Prim2SF d with
  | S754_finite s m e =>
      saturate32 (cond_Zopp s (if (0 <=? e)%Z then Z.pos m * 2 ^ e
                               else Z.pos m / 2 ^ (- e)))
  | S754_infinity s => if s then INT_MIN else INT_MAX
  | _ => 0%Z
  end.

(** A [cJSON] node. A number carries both of cJSON's fields; [cJSON_Raw]
    stands for the node kinds that have no JSON value syntax of their own. *)
#[warnings="-register-all"] Inductive cJSON : Type :=
| cJSON_False
| cJSON_True
| cJSON_NULL
| cJSON_Number (valueint : Z) (valuedouble : float)
| cJSON_String (valuestring : string)
| cJSON_Array (child : list cJSON)
| cJSON_Object (child : list (string * cJSON))
| cJSON_Raw (valuestring : string).

Definition cJSON_CreateObject : cJSON := cJSON_Object [].

(** [cJSON_CreateNumber ((double) i)] for an [int] [i]. *)
Definition cJSON_CreateNumber_int (i : Z) : cJSON :=
  cJSON_Number i (double_of_int i).

(** [cJSON_CreateNumber (d)]. *)
Definition cJSON_CreateNumber (d : float) : cJSON :=
  cJSON_Number (int_of_double d) d.

Definition tolower (c : ascii) : ascii :=
  let n := N_of_ascii c in
  if ((65 <=? n) && (n <=? 90))%N then ascii_of_N (n + 32) else c.

(** cJSON's [case_insensitive_strcmp (a, b) == 0]. *)
Fixpoint case_insensitive_eqb (a b : string) : bool :=
  match a, b with
  | EmptyString, EmptyString => true
  | String x a', String y b' =>
      Ascii.eqb (tolower x) (tolower y) && case_insensitive_eqb a' b'
  | _, _ => false
  end.

Fixpoint get_object_item (items : list (string * cJSON)) (name : string)
  : option cJSON :=
  match items with
  | [] => None
  | (k, v) :: items' =>
      if case_insensitive_eqb name k then Some v else get_object_item items' name
  end.

(** [cJSON_GetObjectItem]: first member whose key matches, ignoring case;
    [NULL] on anything that is not an object. *)
Definition cJSON_GetObjectItem (object : cJSON) (name : string) : option cJSON :=
  match object with
  | cJSON_Object items => get_object_item items name
  | _ => None
  end.

(** [cJSON_AddItemToObject]: append a member. *)
Definition cJSON_AddItemToObject (object : cJSON) (name : string) (item : cJSON)
  : cJSON :=
  match object with
  | cJSON_Object items => cJSON_Object (items ++ [(name, item)])
  | other => other
  end.

(** The text codec of the cJSON library. *)
Class cJSON_codec := {
  cJSON_Parse : string -> option cJSON;
  cJSON_PrintUnformatted : cJSON -> string
}.

(** ** jsonrpc.h / jsonrpc.c *)

Inductive jsonrpc_message_type_t : Set :=
| JSONRPC_REQUEST
| JSONRPC_NOTIFICATION
| JSONRPC_RESPONSE
| JSONRPC_ERROR.

Definition JSONRPC_PARSE_ERROR : Z := -32700.
Definition JSONRPC_INVALID_REQUEST : Z := -32600.
Definition JSONRPC_METHOD_NOT_FOUND : Z := -32601.
Definition JSONRPC_INVALID_PARAMS : Z := -32602.
Definition JSONRPC_INTERNAL_ERROR : Z := -32603.

Record jsonrpc_message_t := {
  msg_type : jsonrpc_message_type_t;
  msg_id : Z;
  msg_has_id : bool;
  msg_method : string;
  msg_params : option cJSON;
  msg_result : option cJSON;
  msg_error_code : Z;
  msg_error_message : string
}.

(** [memset (msg, 0, sizeof ...)]. *)
Definition jsonrpc_message_zero : jsonrpc_message_t :=
  {| msg_type := JSONRPC_REQUEST; msg_id := 0; msg_has_id := false;
     msg_method := ""; msg_params := None; msg_result := None;
     msg_error_code := 0; msg_error_message := "" |}.

(** The identifier fields set by the "Check for ID field" block. *)
Definition jsonrpc_parse_id (root : cJSON) : bool * Z :=
  match cJSON_GetObjectItem root "id" with
  | Some (cJSON_Number valueint _) => (true, valueint)
  | Some (cJSON_String valuestring) => (true, atoi valuestring)
  | Some _ => (true, 0%Z)
  | None => (false, 0%Z)
  end.

(** Classification of a parsed tree whose version member was accepted. *)
Definition jsonrpc_classify (root : cJSON) : esp_err_t * jsonrpc_message_t :=
  let '(has_id, id) := jsonrpc_parse_id root in
  let msg := {| msg_type := JSONRPC_REQUEST; msg_id := id; msg_has_id := has_id;
                msg_method := ""; msg_params := None; msg_result := None;
                msg_error_code := 0; msg_error_message := "" |} in
  match cJSON_GetObjectItem root "method",
        cJSON_GetObjectItem root "result",
        cJSON_GetObjectItem root "error" with
  | Some (cJSON_String m), _, _ =>
      (ESP_OK,
       {| msg_type := if has_id then JSONRPC_REQUEST else JSONRPC_NOTIFICATION;
          msg_id := id; msg_has_id := has_id;
          msg_method := strncpy 63 m;
          msg_params := cJSON_GetObjectItem root "params";
          msg_result := None; msg_error_code := 0; msg_error_message := "" |})
  | _, Some r, _ =>
      (ESP_OK,
       {| msg_type := JSONRPC_RESPONSE; msg_id := id; msg_has_id := has_id;
          msg_method := ""; msg_params := None; msg_result := Some r;
          msg_error_code := 0; msg_error_message := "" |})
  | _, None, Some e =>
      (ESP_OK,
       {| msg_type := JSONRPC_ERROR; msg_id := id; msg_has_id := has_id;
          msg_method := ""; msg_params := None; msg_result := None;
          msg_error_code :=
            match cJSON_GetObjectItem e "code" with
            | Some (cJSON_Number valueint _) => valueint
            | _ => 0%Z
            end;
          msg_error_message :=
            match cJSON_GetObjectItem e "message" with
            | Some (cJSON_String s) => strncpy 127 s
            | _ => ""
            end |})
  | _, None, None => (ESP_ERR_INVALID_ARG, msg)
  end.

(** [jsonrpc_parse_message (json_str, msg)] for a text and a message that
    are not NULL: the status and what [*msg] holds afterwards. With a NULL
    argument the function answers ESP_ERR_INVALID_ARG before its [memset]
    and writes nothing; its one caller, [mcp_server_process_message], tests
    the text first and passes the address of a local. *)
Definition jsonrpc_parse_message {codec : cJSON_codec} (json_str : string)
  : esp_err_t * jsonrpc_message_t :=
  match cJSON_Parse json_str with
  | None => (ESP_ERR_INVALID_ARG, jsonrpc_message_zero)
  | Some root =>
      match cJSON_GetObjectItem root "jsonrpc" with
      | Some (cJSON_String v) =>
          if String.eqb v "2.0" then jsonrpc_classify root
          else (ESP_ERR_INVALID_ARG, jsonrpc_message_zero)
      | _ => (ESP_ERR_INVALID_ARG, jsonrpc_message_zero)
      end
  end.

(** The envelope built by [jsonrpc_create_response] before printing. *)
Definition jsonrpc_response_tree (id : Z) (result : cJSON) : cJSON :=
  cJSON_Object [("jsonrpc", cJSON_String "2.0");
                ("id", cJSON_CreateNumber_int id);
                ("result", result)].

Definition jsonrpc_create_response {codec : cJSON_codec} (id : Z) (result : option cJSON)
  : option string :=
  match result with
  | None => None
  | Some r => Some (cJSON_PrintUnformatted (jsonrpc_response_tree id r))
  end.

(** The envelope built by [jsonrpc_create_error] before printing. *)
Definition jsonrpc_error_tree (id code : Z) (message : option string) : cJSON :=
  cJSON_Object [("jsonrpc", cJSON_String "2.0");
                ("id", if (id =? 0)%Z then cJSON_NULL else cJSON_CreateNumber_int id);
                ("error",
                 cJSON_Object [("code", cJSON_CreateNumber_int code);
                               ("message",
                                cJSON_String (default "Unknown error" message))])].

Definition jsonrpc_create_error {codec : cJSON_codec} (id code : Z) (message : option string)
  : string :=
  cJSON_PrintUnformatted (jsonrpc_error_tree id code message).


(** ** A reference cJSON codec

    An executable printer and parser for the part of JSON the examples use:
    null, true, false, integer literals, strings with the short escapes,
    arrays and objects. Like [cJSON_Parse] it skips leading white space and
    ignores whatever follows the first value. Numbers that are not integers
    in the [int] range are outside this reference codec (printed as null,
    rejected when read); the real library handles them, and nothing below
    depends on how. *)

(** The double-quote character, and JSON text written with an apostrophe in
    place of every double quote. *)
Definition dquote : ascii := "034"%char.

Fixpoint json_text (s : string) : string :=
  match s with
  | EmptyString => EmptyString
  | String c s' => String (if Ascii.eqb c "'" then dquote else c) (json_text s')
  end.

Module RefCodec.

Definition hex_digit (n : N) : ascii :=
  match n with
  | 0 => "0" | 1 => "1" | 2 => "2" | 3 => "3" | 4 => "4" | 5 => "5"
  | 6 => "6" | 7 => "7" | 8 => "8" | 9 => "9" | 10 => "a" | 11 => "b"
  | 12 => "c" | 13 => "d" | 14 => "e" | _ => "f"
  end%N%char.

Definition print_char (c : ascii) : string :=
  match c with
  | "034"%char => json_text "\'"
  | "\"%char => "\\"
  | "008"%char => "\b"
  | "012"%char => "\f"
  | "010"%char => "\n"
  | "013"%char => "\r"
  | "009"%char => "\t"
  | _ =>
      let n := N_of_ascii c in
      if (n <? 32)%N
      then "\u00" +:+ String (hex_digit (n / 16)) (String (hex_digit (n mod 16)) "")
      else String c ""
  end.

Fixpoint print_chars (s : string) : string :=
  match s with
  | EmptyString => ""
  | String c s' => print_char c +:+ print_chars s'
  end.

Definition print_string (s : string) : string :=
  String dquote (print_chars s +:+ String dquote "").

(** A double that is no [int] is printed exactly. A finite double is
    [m * 2 ^ e]; for a negative [e] that is the integer [m * 5 ^ -e] over
    [10 ^ -e], which is written as that integer with the decimal exponent
    [-e]. (cJSON prints up to 17 significant digits, which is enough for
    [strtod] to find the same double again; the exact decimal needs no
    rounding.) NaN and the infinities are printed as null, as cJSON does. *)
Definition print_double (d : float) : string :=
  match Prim2SF d with
  | S754_finite s m e =>
      (if s then "-" else "") +:+
      pretty (N.pos m * 2 ^ Z.to_N e * 5 ^ Z.to_N (- e))%N +:+ "e-" +:+
      pretty (Z.to_N (- e))
  | S754_zero s => if s then "-0" else "0"
  | _ => "null"
  end.

Fixpoint print (v : cJSON) : string :=
  match v with
  | cJSON_False => "false"
  | cJSON_True => "true"
  | cJSON_NULL => "null"
  | cJSON_Number valueint valuedouble =>
      if PrimFloat.eqb valuedouble (double_of_int valueint)
      then fmt_d valueint else print_double valuedouble
  | cJSON_String s => print_string s
  | cJSON_Raw s => s
  | cJSON_Array items =>
      "[" +:+
      (fix elements (l : list cJSON) : string :=
         match l with
         | [] => ""
         | x :: l' =>
             print x +:+ match l' with [] => "" | _ => "," +:+ elements l' end
         end) items +:+ "]"
  | cJSON_Object items =>
      "{" +:+
      (fix members (l : list (string * cJSON)) : string :=
         match l with
         | [] => ""
         | (k, x) :: l' =>
             print_string k +:+ ":" +:+ print x +:+
             match l' with [] => "" | _ => "," +:+ members l' end
         end) items +:+ "}"
  end.

Fixpoint skip_ws (s : string) : string :=
  match s with
  | String c s' => if (N_of_ascii c <=? 32)%N then skip_ws s' else s
  | EmptyString => s
  end.

Definition hex_value (c : ascii) : option N :=
  let n := N_of_ascii c in
  if ((48 <=? n) && (n <=? 57))%N then Some (n - 48)%N
  else if ((97 <=? n) && (n <=? 102))%N then Some (n - 87)%N
  else if ((65 <=? n) && (n <=? 70))%N then Some (n - 55)%N
  else None.

(** The body of a string literal, after the opening quote; [acc] is the
    text read so far, reversed. *)
Fixpoint parse_chars (acc : string) (s : string) : option (string * string) :=
  match s with
  | EmptyString => None
  | String "034" s' => Some (String.rev acc, s')
  | String "\" (String e s') =>
      match e with
      | "034"%char => parse_chars (String dquote acc) s'
      | "\"%char => parse_chars (String "\" acc) s'
      | "/"%char => parse_chars (String "/" acc) s'
      | "b"%char => parse_chars (String "008" acc) s'
      | "f"%char => parse_chars (String "012" acc) s'
      | "n"%char => parse_chars (String "010" acc) s'
      | "r"%char => parse_chars (String "013" acc) s'
      | "t"%char => parse_chars (String "009" acc) s'
      | "u"%char =>
          match s' with
          | String "0" (String "0" (String h (String l s''))) =>
              match hex_value h, hex_value l with
              | Some a, Some b =>
                  if ((0 <? a * 16 + b) && (a * 16 + b <? 128))%N
                  then parse_chars (String (ascii_of_N (a * 16 + b)) acc) s''
                  else None
              | _, _ => None
              end
          | _ => None
          end
      | _ => None
      end
  | String c s' => parse_chars (String c acc) s'
  end.

Fixpoint parse_digits (acc : Z) (s : string) : Z * string :=
  match s with
  | String c s' =>
      match digit_of c with
      | Some d => parse_digits (acc * 10 + d) s'
      | None => (acc, s)
      end
  | EmptyString => (acc, s)
  end.

(** The digits [n] followed by "e-" and the digits of [k], which [s]
    starts with: the number [n / 10 ^ k]. The reference parser reads it
    when [5 ^ k] divides [n], so that the number is [n / 5 ^ k] over
    [2 ^ k], and rounds that to the nearest double. *)
Definition parse_exponent (negative : bool) (n : Z) (s : string)
  : option (cJSON * string) :=
  match s with
  | String c _ =>
      match digit_of c with
      | None => None
      | Some _ =>
          let '(k, rest) := parse_digits 0 s in
          if (n mod 5 ^ k =? 0)%Z
          then Some (cJSON_Number
                       (saturate32 (cond_Zopp negative (n / 10 ^ k)))
                       (SF2Prim (binary_normalize prec emax
                                   (cond_Zopp negative (n / 5 ^ k)) (- k) negative)),
                     rest)
          else None
      end
  | EmptyString => None
  end.

Definition parse_number (negative : bool) (s : string) : option (cJSON * string) :=
  match s with
  | String c _ =>
      match digit_of c with
      | None => None
      | Some _ =>
          let '(n, rest) := parse_digits 0 s in
          let z := if negative then (- n)%Z else n in
          match rest with
          | String "e" (String "-" rest') => parse_exponent negative n rest'
          | String "." _ | String "e" _ | String "E" _ => None
          | _ =>
              if ((INT_MIN <=? z) && (z <=? INT_MAX))%Z
              then Some (cJSON_CreateNumber_int z, rest) else None
          end
      end
  | EmptyString => None
  end.

Fixpoint parse_value (fuel : nat) (s : string) : option (cJSON * string) :=
  match fuel with
  | O => None
  | S fuel' =>
      match skip_ws s with
      | String "n" (String "u" (String "l" (String "l" rest))) => Some (cJSON_NULL, rest)
      | String "t" (String "r" (String "u" (String "e" rest))) => Some (cJSON_True, rest)
      | String "f" (String "a" (String "l" (String "s" (String "e" rest)))) =>
          Some (cJSON_False, rest)
      | String "034" rest =>
          match parse_chars "" rest with
          | Some (text, rest') => Some (cJSON_String text, rest')
          | None => None
          end
      | String "-" rest => parse_number true rest
      | String "[" rest =>
          match skip_ws rest with
          | String "]" rest' => Some (cJSON_Array [], rest')
          | _ => parse_elements fuel' [] rest
          end
      | String "{" rest =>
          match skip_ws rest with
          | String "}" rest' => Some (cJSON_Object [], rest')
          | _ => parse_members fuel' [] rest
          end
      | other => parse_number false other
      end
  end
with parse_elements (fuel : nat) (acc : list cJSON) (s : string)
  : option (cJSON * string) :=
  match fuel with
  | O => None
  | S fuel' =>
      match parse_value fuel' s with
      | Some (v, rest) =>
          match skip_ws rest with
          | String "," rest' => parse_elements fuel' (v :: acc) rest'
          | String "]" rest' => Some (cJSON_Array (rev (v :: acc)), rest')
          | _ => None
          end
      | None => None
      end
  end
with parse_members (fuel : nat) (acc : list (string * cJSON)) (s : string)
  : option (cJSON * string) :=
  match fuel with
  | O => None
  | S fuel' =>
      match skip_ws s with
      | String "034" rest =>
          match parse_chars "" rest with
          | Some (key, rest1) =>
              match skip_ws rest1 with
              | String ":" rest2 =>
                  match parse_value fuel' rest2 with
                  | Some (v, rest3) =>
                      match skip_ws rest3 with
                      | String "," rest4 => parse_members fuel' ((key, v) :: acc) rest4
                      | String "}" rest4 =>
                          Some (cJSON_Object (rev ((key, v) :: acc)), rest4)
                      | _ => None
                      end
                  | None => None
                  end
              | _ => None
              end
          | None => None
          end
      | _ => None
      end
  end.

Definition parse (text : string) : option cJSON :=
  match parse_value (S (String.length text)) text with
  | Some (v, _) => Some v
  | None => None
  end.

Definition codec : cJSON_codec :=
  {| cJSON_Parse := parse; cJSON_PrintUnformatted := print |}.

End RefCodec.


(** ** sdkconfig.h

    Build-time constants that the sources read from the generated
    configuration header. *)
Class sdkconfig := {
  CONFIG_MCP_LOG_BUFFER_SIZE : Z;
  CONFIG_BLINK_GPIO : Z
}.

(** The fallback of [mcp_log.c] for the log buffer size; the LED pin is a
    board choice. *)
Definition default_sdkconfig : sdkconfig :=
  {| CONFIG_MCP_LOG_BUFFER_SIZE := 4096; CONFIG_BLINK_GPIO := 8 |}.

(** ** Bounded output through an [int written] cursor

    [tool_sys_get_logs] fills its result buffer with
    [written += snprintf (result + written, max_len - written, ...)] and with
    [result[written++] = c]. [ob_text] is what the buffer holds as a C
    string, [ob_written] the cursor. A store outside the buffer is undefined
    behaviour; the operations return [None] for it. *)

Record outbuf := { ob_text : string; ob_written : Z }.

(** [(int) x] for a 32-bit [size_t] expression [x]. *)
Definition int_of_size_t (x : Z) : Z := wrap32 (x mod 4294967296).

Definition ob_snprintf (max_len : nat) (s : string) (b : outbuf) : option outbuf :=
  let size := (Z.of_nat max_len - ob_written b)%Z in
  if (size <? 0)%Z then None
  else Some {| ob_text := ob_text b +:+ str_take (Z.to_nat size - 1) s;
               ob_written := ob_written b + Z.of_nat (String.length s) |}.

Definition ob_putc (max_len : nat) (c : ascii) (b : outbuf) : option outbuf :=
  if ((0 <=? ob_written b) && (ob_written b <? Z.of_nat max_len))%Z
  then Some {| ob_text := ob_text b +:+ String c EmptyString;
               ob_written := ob_written b + 1 |}
  else None.

(** ** mcp_log.c *)

Inductive esp_log_level_t : Set :=
| ESP_LOG_NONE
| ESP_LOG_ERROR
| ESP_LOG_WARN
| ESP_LOG_INFO
| ESP_LOG_DEBUG
| ESP_LOG_VERBOSE.

(** The enumerators' integer values. *)
Definition esp_log_level_value (l : esp_log_level_t) : Z :=
  match l with
  | ESP_LOG_NONE => 0
  | ESP_LOG_ERROR => 1
  | ESP_LOG_WARN => 2
  | ESP_LOG_INFO => 3
  | ESP_LOG_DEBUG => 4
  | ESP_LOG_VERBOSE => 5
  end.

Definition LOG_LINE_MAX : nat := 256.

Definition LOG_MAX_LINES {cfg : sdkconfig} : Z := (CONFIG_MCP_LOG_BUFFER_SIZE ÷ 64)%Z.

Record log_entry_t := {
  log_text : string;
  log_level : esp_log_level_t;
  log_timestamp_ms : Z
}.

(** An element of the zero-initialised static ring. *)
Definition log_entry_zero : log_entry_t :=
  {| log_text := ""; log_level := ESP_LOG_NONE; log_timestamp_ms := 0 |}.

(** The statics of [mcp_log.c]; [s_log_mutex] tells whether the semaphore
    handle is non-NULL. *)
Record log_state := {
  s_log_ring : list log_entry_t;
  s_log_head : Z;
  s_log_count : Z;
  s_log_mutex : bool
}.

Definition detect_level_from_prefix (str : string) : esp_log_level_t :=
  match str with
  | String "E" _ => ESP_LOG_ERROR
  | String "W" _ => ESP_LOG_WARN
  | String "I" _ => ESP_LOG_INFO
  | String "D" _ => ESP_LOG_DEBUG
  | String "V" _ => ESP_LOG_VERBOSE
  | _ => ESP_LOG_INFO
  end.

(** "Strip trailing newline": drop the run of line ends that closes [s]. *)
Fixpoint strip_trailing_newlines (s : string) : string :=
  match s with
  | EmptyString => EmptyString
  | String c s' =>
      match strip_trailing_newlines s' with
      | EmptyString =>
          if Ascii.eqb c "010" || Ascii.eqb c "013" then EmptyString
          else String c EmptyString
      | rest => String c rest
      end
  end.

(** The capture half of [log_vprintf_hook], given the formatted text, the
    clock and whether the 10 ms semaphore take succeeded. *)
Definition log_vprintf_hook {cfg : sdkconfig} (formatted : string) (now_ms : Z)
    (mutex_taken : bool) (st : log_state) : log_state :=
  let line := strip_trailing_newlines (snprintf LOG_LINE_MAX formatted) in
  if bool_decide (line = EmptyString) then st
  else if s_log_mutex st && mutex_taken then
    {| s_log_ring :=
         <[Z.to_nat (s_log_head st) :=
             {| log_text := strncpy (LOG_LINE_MAX - 1) line;
                log_level := detect_level_from_prefix line;
                log_timestamp_ms := now_ms |}]> (s_log_ring st);
       s_log_head := ((s_log_head st + 1) `rem` LOG_MAX_LINES)%Z;
       s_log_count := if (s_log_count st <? LOG_MAX_LINES)%Z
                      then (s_log_count st + 1)%Z else s_log_count st;
       s_log_mutex := s_log_mutex st |}
  else st.

Definition parse_level_string (level_str : option string) : esp_log_level_t :=
  match level_str with
  | None => ESP_LOG_INFO
  | Some s =>
      if String.eqb s "error" then ESP_LOG_ERROR
      else if String.eqb s "warn" then ESP_LOG_WARN
      else if String.eqb s "info" then ESP_LOG_INFO
      else if String.eqb s "debug" then ESP_LOG_DEBUG
      else if String.eqb s "verbose" then ESP_LOG_VERBOSE
      else ESP_LOG_INFO
  end.

(** "Parse parameters" of [tool_sys_get_logs]. *)
Definition get_logs_min_level (args : option cJSON) : esp_log_level_t :=
  match args with
  | None => ESP_LOG_INFO
  | Some a =>
      match cJSON_GetObjectItem a "level" with
      | Some (cJSON_String s) => parse_level_string (Some s)
      | _ => ESP_LOG_INFO
      end
  end.

Definition get_logs_max_lines {cfg : sdkconfig} (args : option cJSON) : Z :=
  match args with
  | None => 20%Z
  | Some a =>
      match cJSON_GetObjectItem a "lines" with
      | Some (cJSON_Number valueint _) =>
          let max_lines := valueint in
          let max_lines := if (max_lines <? 1)%Z then 1%Z else max_lines in
          if (max_lines >? LOG_MAX_LINES)%Z then LOG_MAX_LINES else max_lines
      | _ => 20%Z
      end
  end.

Definition get_logs_filter (args : option cJSON) : option string :=
  match args with
  | None => None
  | Some a =>
      match cJSON_GetObjectItem a "filter" with
      | Some (cJSON_String s) => Some s
      | _ => None
      end
  end.

(** [s_log_ring[idx]]. *)
Definition log_ring_at (st : log_state) (idx : Z) : log_entry_t :=
  default log_entry_zero (s_log_ring st !! Z.to_nat idx).

(** The entries both passes visit, in visiting order:
    [s_log_ring[(start + i) % LOG_MAX_LINES]] for [i] from 0 below
    [s_log_count]. *)
Definition log_walk {cfg : sdkconfig} (st : log_state) : list log_entry_t :=
  let start := if (s_log_count st <? LOG_MAX_LINES)%Z then 0%Z else s_log_head st in
  map (fun i : nat => log_ring_at st ((start + Z.of_nat i) `rem` LOG_MAX_LINES)%Z)
      (seq 0 (Z.to_nat (s_log_count st))).

(** An entry passes the two [continue] tests. *)
Definition log_selected (min_level : esp_log_level_t) (filter : option string)
    (e : log_entry_t) : bool :=
  negb (esp_log_level_value (log_level e) >? esp_log_level_value min_level)%Z
  && match filter with
     | Some f => strstr (log_text e) f
     | None => true
     end.

(** "Escape special chars in message": the inner [for] loop. *)
Fixpoint get_logs_escape (max_len : nat) (text : string) (b : outbuf)
  : option outbuf :=
  match text with
  | EmptyString => Some b
  | String c text' =>
      if (ob_written b <? int_of_size_t (Z.of_nat max_len - 20))%Z then
        b' ← (if Ascii.eqb c dquote then
                ob_putc max_len "\" b ≫= ob_putc max_len dquote
              else if Ascii.eqb c "\" then
                ob_putc max_len "\" b ≫= ob_putc max_len "\"
              else if Ascii.eqb c "010" then
                ob_putc max_len "\" b ≫= ob_putc max_len "n"
              else ob_putc max_len c b);
        get_logs_escape max_len text' b'
      else Some b
  end.

(** The text printed by the first [snprintf] of an entry. *)
Definition get_logs_entry_head (e : log_entry_t) : string :=
  json_text "{'t':" +:+ fmt_d (log_timestamp_ms e) +:+ json_text ",'msg':'".

(** What the second pass writes for one entry: the separator unless it is
    the first, the head, the escaped text and the closing. *)
Definition get_logs_entry (max_len : nat) (e : log_entry_t) (first : bool)
    (b : outbuf) : option outbuf :=
  b1 ← (if first then Some b else ob_snprintf max_len "," b);
  b2 ← ob_snprintf max_len (get_logs_entry_head e) b1;
  b3 ← get_logs_escape max_len (log_text e) b2;
  ob_snprintf max_len (json_text "'}") b3.

(** The second pass over the ring, with its [skip], [first] and [break]. *)
Fixpoint get_logs_emit (max_len : nat) (min_level : esp_log_level_t)
    (filter : option string) (entries : list log_entry_t) (skip : Z)
    (first : bool) (b : outbuf) : option outbuf :=
  match entries with
  | [] => Some b
  | e :: rest =>
      if negb (log_selected min_level filter e)
      then get_logs_emit max_len min_level filter rest skip first b
      else if (skip >? 0)%Z
      then get_logs_emit max_len min_level filter rest (skip - 1)%Z first b
      else
        b4 ← get_logs_entry max_len e first b;
        if (ob_written b4 >=? int_of_size_t (Z.of_nat max_len - 100))%Z
        then Some b4
        else get_logs_emit max_len min_level filter rest 0%Z false b4
  end.

(** [tool_sys_get_logs]; [mutex_taken] tells whether the 100 ms semaphore
    take succeeded. [None]: a store fell outside the result buffer. *)
Definition tool_sys_get_logs {cfg : sdkconfig} (mutex_taken : bool) (args : option cJSON)
    (max_len : nat) (st : log_state) : option (esp_err_t * string) :=
  let min_level := get_logs_min_level args in
  let max_lines := get_logs_max_lines args in
  let filter := get_logs_filter args in
  if negb (s_log_mutex st)
  then Some (ESP_ERR_INVALID_STATE, snprintf max_len "Log system not initialized")
  else
    b0 ← ob_snprintf max_len "[" {| ob_text := ""; ob_written := 0 |};
    b1 ← (if mutex_taken then
            let entries := log_walk st in
            let match_count :=
              Z.of_nat (length (List.filter (log_selected min_level filter) entries)) in
            let skip := if (match_count >? max_lines)%Z
                        then (match_count - max_lines)%Z else 0%Z in
            get_logs_emit max_len min_level filter entries skip true b0
          else Some b0);
    b2 ← ob_snprintf max_len "]" b1;
    Some (ESP_OK, str_take (max_len - 1) (ob_text b2)).

(** ** mcp_ota.h / mcp_ota.c *)

Inductive ota_state_t : Set :=
| OTA_STATE_IDLE
| OTA_STATE_DOWNLOADING
| OTA_STATE_WRITING
| OTA_STATE_REBOOTING
| OTA_STATE_ERROR.

Global Instance ota_state_eq_dec : EqDecision ota_state_t.
Proof. solve_decision. Defined.

(** The enumerators' integer values, as ["%d"] prints them. *)
Definition ota_state_value (s : ota_state_t) : Z :=
  match s with
  | OTA_STATE_IDLE => 0
  | OTA_STATE_DOWNLOADING => 1
  | OTA_STATE_WRITING => 2
  | OTA_STATE_REBOOTING => 3
  | OTA_STATE_ERROR => 4
  end.

(** The three statics of the OTA session. *)
Record ota_session := {
  s_ota_state : ota_state_t;
  s_ota_progress_pct : Z;
  s_ota_message : string
}.

Definition ota_session_init : ota_session :=
  {| s_ota_state := OTA_STATE_IDLE; s_ota_progress_pct := 0; s_ota_message := "idle" |}.

Definition OTA_BUF_SIZE : Z := 1024.

(** [snprintf (s_ota_message, sizeof (s_ota_message), ...)]. *)
Definition ota_set_message (text : string) : string := snprintf 128 text.

(** What the HTTP client and the flash driver answer during one run of
    [ota_task]. [ota_reads] lists, for each turn of the [while (1)] loop, the
    value of [esp_http_client_read] and the result of the [esp_ota_write]
    that follows it; when the list is used up the next read returns 0. *)
Record ota_env := {
  ota_client_init_ok : bool;
  ota_http_open : esp_err_t;
  ota_fetch_headers : Z;
  ota_partition_found : bool;
  ota_begin : esp_err_t;
  ota_reads : list (Z * esp_err_t);
  ota_end : esp_err_t;
  ota_set_boot_partition : esp_err_t
}.

(** The download loop: the successive values of the session statics, newest
    last, starting from [cur]. *)
Fixpoint ota_task_loop (content_length : Z) (reads : list (Z * esp_err_t))
    (total_read : Z) (cur : ota_session) : list ota_session :=
  match reads with
  | [] => []
  | (read_len, write_res) :: reads' =>
      if (read_len <? 0)%Z then
        [{| s_ota_state := OTA_STATE_ERROR;
            s_ota_progress_pct := s_ota_progress_pct cur;
            s_ota_message := ota_set_message "HTTP read error" |}]
      else if (read_len =? 0)%Z then []
      else if bool_decide (write_res ≠ ESP_OK) then
        [{| s_ota_state := OTA_STATE_ERROR;
            s_ota_progress_pct := s_ota_progress_pct cur;
            s_ota_message :=
              ota_set_message ("OTA write failed: " +:+ esp_err_to_name write_res) |}]
      else
        let total_read' := wrap32 (total_read + read_len) in
        let next :=
          {| s_ota_state := s_ota_state cur;
             s_ota_progress_pct :=
               if (content_length >? 0)%Z
               then (wrap32 (total_read' * 100) ÷ content_length)%Z
               else s_ota_progress_pct cur;
             s_ota_message :=
               ota_set_message ("Written " +:+ fmt_d total_read' +:+ " bytes") |} in
        next :: ota_task_loop content_length reads' total_read' next
  end.

(** How a run of [ota_task] ends. *)
Inductive ota_task_end : Set :=
| OtaTaskDeleted
| OtaDeviceRestarts.

(** [ota_task (url)]: every value the session statics take, oldest first,
    and how the task ends. *)
Definition ota_task (env : ota_env) (url : string)
  : list ota_session * ota_task_end :=
  let failed pct text :=
    {| s_ota_state := OTA_STATE_ERROR; s_ota_progress_pct := pct;
       s_ota_message := ota_set_message text |} in
  let s0 := {| s_ota_state := OTA_STATE_DOWNLOADING; s_ota_progress_pct := 0;
               s_ota_message := ota_set_message ("Connecting to " +:+ url) |} in
  if negb (ota_client_init_ok env) then
    ([s0; failed 0%Z "HTTP client init failed"], OtaTaskDeleted)
  else if bool_decide (ota_http_open env ≠ ESP_OK) then
    ([s0; failed 0%Z ("HTTP open failed: " +:+ esp_err_to_name (ota_http_open env))],
     OtaTaskDeleted)
  else
    let content_length :=
      if (ota_fetch_headers env <=? 0)%Z then 0%Z else ota_fetch_headers env in
    if negb (ota_partition_found env) then
      ([s0; failed 0%Z "No OTA partition available"], OtaTaskDeleted)
    else if bool_decide (ota_begin env ≠ ESP_OK) then
      ([s0; failed 0%Z ("OTA begin failed: " +:+ esp_err_to_name (ota_begin env))],
       OtaTaskDeleted)
    else
      let s1 := {| s_ota_state := OTA_STATE_WRITING; s_ota_progress_pct := 0;
                   s_ota_message := s_ota_message s0 |} in
      let steps := ota_task_loop content_length (ota_reads env) 0 s1 in
      let cur := List.last steps s1 in
      if bool_decide (s_ota_state cur = OTA_STATE_ERROR) then
        (s0 :: s1 :: steps, OtaTaskDeleted)
      else if bool_decide (ota_end env ≠ ESP_OK) then
        (s0 :: s1 :: steps ++
           [failed (s_ota_progress_pct cur)
                   ("OTA end failed: " +:+ esp_err_to_name (ota_end env))],
         OtaTaskDeleted)
      else if bool_decide (ota_set_boot_partition env ≠ ESP_OK) then
        (s0 :: s1 :: steps ++
           [failed (s_ota_progress_pct cur)
                   ("Set boot partition failed: " +:+
                    esp_err_to_name (ota_set_boot_partition env))],
         OtaTaskDeleted)
      else
        (s0 :: s1 :: steps ++
           [{| s_ota_state := OTA_STATE_REBOOTING; s_ota_progress_pct := 100;
               s_ota_message := ota_set_message "OTA complete, rebooting in 2s..." |}],
         OtaDeviceRestarts).

(** The outcome of [tool_sys_ota_push]: status, result text and, when a task
    was created, the URL handed to [ota_task]. The session statics are not
    written by this function. [strdup_ok] and [xTaskCreate_ok] tell whether
    the two allocations succeed. *)
Definition tool_sys_ota_push (strdup_ok xTaskCreate_ok : bool) (args : cJSON)
    (max_len : nat) (st : ota_session) : esp_err_t * string * option string :=
  if bool_decide (s_ota_state st = OTA_STATE_DOWNLOADING)
     || bool_decide (s_ota_state st = OTA_STATE_WRITING)
  then (ESP_ERR_INVALID_STATE,
        snprintf max_len
          ("OTA already in progress (state: " +:+ fmt_d (ota_state_value (s_ota_state st))
           +:+ ", progress: " +:+ fmt_d (s_ota_progress_pct st) +:+ "%)"),
        None)
  else
    match cJSON_GetObjectItem args "url" with
    | Some (cJSON_String url) =>
        if (String.length url =? 0)%nat
        then (ESP_ERR_INVALID_ARG, snprintf max_len "Missing or empty 'url' parameter", None)
        else if negb strdup_ok then (ESP_ERR_NO_MEM, snprintf max_len "Out of memory", None)
        else if negb xTaskCreate_ok
        then (ESP_FAIL, snprintf max_len "Failed to create OTA task", None)
        else (ESP_OK, snprintf max_len ("OTA update started from: " +:+ url), Some url)
    | _ => (ESP_ERR_INVALID_ARG, snprintf max_len "Missing or empty 'url' parameter", None)
    end.

(** [tool_sys_ota_status]; the partition label and the firmware version come
    from the boot loader's records. *)
Definition ota_state_str (s : ota_state_t) : string :=
  match s with
  | OTA_STATE_IDLE => "idle"
  | OTA_STATE_DOWNLOADING => "downloading"
  | OTA_STATE_WRITING => "writing"
  | OTA_STATE_REBOOTING => "rebooting"
  | OTA_STATE_ERROR => "error"
  end.

Definition tool_sys_ota_status (running_label app_version : option string)
    (max_len : nat) (st : ota_session) : esp_err_t * string :=
  (ESP_OK,
   snprintf max_len
     (json_text "{'state':'" +:+ ota_state_str (s_ota_state st)
      +:+ json_text "','progress_pct':" +:+ fmt_d (s_ota_progress_pct st)
      +:+ json_text ",'message':'" +:+ s_ota_message st
      +:+ json_text "','partition':'" +:+ default "unknown" running_label
      +:+ json_text "','app_version':'" +:+ default "unknown" app_version
      +:+ json_text "'}")).


(** ** The Lua interpreter (lua.h, lauxlib.h)

    The interpreter is a library of its own. [luaL_dostring] answers the
    status and the state the chunk leaves behind, or [None] when the chunk
    never returns; indices are the C API's (-1 is the top of the stack). *)
Class lua_lib := {
  lua_State : Type;
  luaL_dostring : lua_State -> string -> option (Z * lua_State);
  lua_gettop : lua_State -> Z;
  lua_tostring : lua_State -> Z -> option string;
  luaL_tolstring : lua_State -> Z -> option string * lua_State;
  lua_pop : lua_State -> Z -> lua_State
}.

Definition LUA_OK : Z := 0.

(** ** lua_runtime.c: script storage on SPIFFS *)

Fixpoint str_drop (n : nat) (s : string) : string :=
  match n, s with
  | S n', String _ s' => str_drop n' s'
  | _, _ => s
  end.

Definition SPIFFS_BASE_PATH : string := "/spiffs".

(** [snprintf (path, sizeof (path), SPIFFS_BASE_PATH "/%s", name)] with
    [char path[280]]. *)
Definition script_path (name : string) : string :=
  snprintf 280 (SPIFFS_BASE_PATH +:+ "/" +:+ name).

(** [fread (buf + total, 1, n, f)]: the bytes delivered and what is left of
    the file. *)
Definition fread (n : nat) (f : string) : string * string :=
  (str_take n f, str_drop n f).

(** The read loop of [lua_runtime_get_script]; [buf] holds [total] bytes. *)
Fixpoint get_script_read (fuel max_len : nat) (buf f : string) : string :=
  match fuel with
  | O => buf
  | S fuel' =>
      if (String.length buf <? max_len - 1)%nat then
        let '(got, f') := fread (max_len - 1 - String.length buf) f in
        if (String.length got =? 0)%nat then buf
        else get_script_read fuel' max_len (buf +:+ got) f'
      else buf
  end.

(** The file system maps a path to the bytes stored under it. *)
Definition lua_runtime_get_script (fs : gmap string string) (name : string)
    (max_len : nat) : esp_err_t * string :=
  match fs !! script_path name with
  | None => (ESP_ERR_NOT_FOUND, snprintf max_len ("Script not found: " +:+ name))
  | Some f => (ESP_OK, get_script_read max_len max_len "" f)
  end.

(** [fopen_ok] tells whether [fopen] for writing succeeds. *)
Definition lua_runtime_push_script (fopen_ok : bool) (fs : gmap string string)
    (name content : string) (append : bool) : esp_err_t * gmap string string :=
  if fopen_ok then
    let before := if append then default "" (fs !! script_path name) else "" in
    (ESP_OK, <[script_path name := before +:+ content]> fs)
  else (ESP_FAIL, fs).

(** One line of [lua_runtime_list_scripts]. *)
Definition list_scripts_line (entry : string * string) : string :=
  str_drop (String.length SPIFFS_BASE_PATH + 1) (fst entry) +:+ " (" +:+
  fmt_d (Z.of_nat (String.length (snd entry))) +:+ " bytes)" +:+ String "010" "".

Fixpoint list_scripts_loop (max_len : nat) (entries : list (string * string))
    (b : outbuf) : option outbuf :=
  match entries with
  | [] => Some b
  | entry :: rest =>
      if (ob_written b <? wrap32 (Z.of_nat max_len) - 1)%Z
      then ob_snprintf max_len (list_scripts_line entry) b
             ≫= list_scripts_loop max_len rest
      else Some b
  end.

Definition lua_runtime_list_scripts (opendir_ok : bool) (fs : gmap string string)
    (max_len : nat) : option (esp_err_t * string) :=
  if opendir_ok then
    b ← list_scripts_loop max_len (map_to_list fs) {| ob_text := ""; ob_written := 0 |};
    Some (ESP_OK,
          if (ob_written b =? 0)%Z then snprintf max_len "(no scripts)" else ob_text b)
  else Some (ESP_FAIL, snprintf max_len "Failed to open SPIFFS directory").

(** ** lua_runtime.c: the VM and its background task

    FreeRTOS is not among the sources. What the model takes from its
    documentation is the kernel's view of the [lua_task] instances: a task
    created by [xTaskCreate] is scheduled; after [vTaskDelete] it is deleted
    but may still occupy the other core until the deleting context has been
    blocked for a tick in [vTaskDelay], which is when the cross-core yield
    and the idle task's clean-up have been served. That a deleted task is
    gone after such a delay is thus a property of the kernel that the
    results below rest on, not one they establish. A task in either state
    counts as inside the VM: [lua_task] runs the interpreter from its first
    to its last instruction.

    The operations are modelled for one calling context at a time; the
    sources have no lock around them, and [two_restarts] below shows what
    two callers at once can do. *)

Definition TaskHandle_t : Set := nat.

Inductive task_status : Set :=
| TaskScheduled
| TaskDeleted.

Global Instance task_status_eq_dec : EqDecision task_status.
Proof. solve_decision. Defined.

(** The statics [L], [lua_task_handle], [lua_task_running] and the kernel's
    task list. *)
Record lua_runtime {lua : lua_lib} := {
  L : option lua_State;
  lua_task_handle : option TaskHandle_t;
  lua_task_running : bool;
  kernel_tasks : list (TaskHandle_t * task_status);
  kernel_next_handle : TaskHandle_t
}.

(** An execution context that can be inside the interpreter. *)
Inductive context : Set :=
| CallerContext
| LuaTaskContext (h : TaskHandle_t).

(** A lifecycle operation is a state transformer that also logs, after each
    of its steps, which contexts are inside the VM at that moment. *)
Definition rtM {lua : lua_lib} (A : Type) : Type :=
  lua_runtime -> A * lua_runtime * list (list context).

Global Instance rtM_ret {lua : lua_lib} : MRet rtM :=
  fun A (a : A) s => (a, s, []).

Global Instance rtM_bind {lua : lua_lib} : MBind rtM :=
  fun A B (f : A -> rtM B) (m : rtM A) s =>
    let '(a, s1, t1) := m s in
    let '(b, s2, t2) := f a s1 in
    (b, s2, t1 ++ t2).

Section runtime.
Context {lua : lua_lib}.

Definition rt_get : rtM lua_runtime := fun s => (s, s, []).

Definition rt_put (s' : lua_runtime) : rtM unit := fun _ => (tt, s', []).

(** The background contexts inside the VM. *)
Definition vm_users (s : lua_runtime) : list context :=
  map (fun t => LuaTaskContext (fst t)) (kernel_tasks s).

(** Log the present moment; [caller_in_vm] tells whether the step just
    taken had the calling context inside the interpreter. *)
Definition rt_moment (caller_in_vm : bool) : rtM unit :=
  fun s => (tt, s, [(if caller_in_vm then [CallerContext] else []) ++ vm_users s]).

Definition set_L (vm : option lua_State) : rtM unit :=
  s ← rt_get;
  rt_put {| L := vm; lua_task_handle := lua_task_handle s;
            lua_task_running := lua_task_running s;
            kernel_tasks := kernel_tasks s;
            kernel_next_handle := kernel_next_handle s |}.

Definition set_lua_task_handle (h : option TaskHandle_t) : rtM unit :=
  s ← rt_get;
  rt_put {| L := L s; lua_task_handle := h;
            lua_task_running := lua_task_running s;
            kernel_tasks := kernel_tasks s;
            kernel_next_handle := kernel_next_handle s |}.

Definition set_lua_task_running (r : bool) : rtM unit :=
  s ← rt_get;
  rt_put {| L := L s; lua_task_handle := lua_task_handle s;
            lua_task_running := r;
            kernel_tasks := kernel_tasks s;
            kernel_next_handle := kernel_next_handle s |}.

Definition set_kernel_tasks (ts : list (TaskHandle_t * task_status)) : rtM unit :=
  s ← rt_get;
  rt_put {| L := L s; lua_task_handle := lua_task_handle s;
            lua_task_running := lua_task_running s;
            kernel_tasks := ts;
            kernel_next_handle := kernel_next_handle s |}.

(** [vTaskDelete (h)]. *)
Definition vTaskDelete (h : TaskHandle_t) : rtM unit :=
  s ← rt_get;
  set_kernel_tasks
    (map (fun t => if decide (fst t = h) then (fst t, TaskDeleted) else t)
         (kernel_tasks s));;
  rt_moment false.

(** [vTaskDelay (pdMS_TO_TICKS (ms))] in the context that deleted a task:
    a delay that blocks the caller retires the deleted tasks; a delay of no
    time does not block. *)
Definition vTaskDelay (ms : Z) : rtM unit :=
  s ← rt_get;
  (if (0 <? ms)%Z
   then set_kernel_tasks
          (List.filter (fun t => bool_decide (snd t = TaskScheduled)) (kernel_tasks s))
   else mret tt);;
  rt_moment false.

(** [xTaskCreate (lua_task, ..., &lua_task_handle) == pdPASS]; [ok] tells
    whether the kernel can allocate the task. *)
Definition xTaskCreate_lua_task (ok : bool) : rtM bool :=
  if ok then
    s ← rt_get;
    rt_put {| L := L s; lua_task_handle := Some (kernel_next_handle s);
              lua_task_running := lua_task_running s;
              kernel_tasks := kernel_tasks s ++ [(kernel_next_handle s, TaskScheduled)];
              kernel_next_handle := S (kernel_next_handle s) |};;
    rt_moment false;;
    mret true
  else mret false.

(** [lua_task]: its first statement, and what it does once [main.lua] has
    returned or failed. *)
Definition lua_task_entered : rtM unit := set_lua_task_running true.

Definition lua_task_finished (self : TaskHandle_t) : rtM unit :=
  set_lua_task_running false;;
  set_lua_task_handle None;;
  s ← rt_get;
  set_kernel_tasks
    (List.filter (fun t => bool_decide (fst t ≠ self)) (kernel_tasks s)).

(** [destroy_vm (L)]: [lua_close] walks the whole state. *)
Definition destroy_vm : rtM unit := rt_moment true.

(** [L = create_vm ()]; [fresh_vm] is the state that [luaL_newstate],
    [luaL_openlibs] and [register_libs] produce, [None] when the
    allocation fails. *)
Definition create_vm (fresh_vm : option lua_State) : rtM unit :=
  set_L fresh_vm;;
  rt_moment true.

Definition lua_runtime_start (xTaskCreate_ok : bool) : rtM esp_err_t :=
  s ← rt_get;
  match lua_task_handle s with
  | Some _ => mret ESP_ERR_INVALID_STATE
  | None =>
      created ← xTaskCreate_lua_task xTaskCreate_ok;
      mret (if created : bool then ESP_OK else ESP_FAIL)
  end.

(** "Stop running task": the block shared by restart and exec; answers
    whether a task handle was set. *)
Definition stop_running_task (settle_ms : Z) : rtM bool :=
  s ← rt_get;
  match lua_task_handle s with
  | Some h =>
      vTaskDelete h;;
      set_lua_task_handle None;;
      set_lua_task_running false;;
      vTaskDelay settle_ms;;
      mret true
  | None => mret false
  end.

Definition lua_runtime_restart (fresh_vm : option lua_State)
    (xTaskCreate_ok : bool) : rtM esp_err_t :=
  stop_running_task 100;;
  destroy_vm;;
  create_vm fresh_vm;;
  s ← rt_get;
  match L s with
  | None => mret ESP_FAIL
  | Some _ => lua_runtime_start xTaskCreate_ok
  end.

(** [lua_runtime_exec (code, result, max_len)]; [result] is what the
    buffer holds on entry. [None]: the snippet never returns. *)
Definition lua_runtime_exec (xTaskCreate_ok : bool) (code : option string)
    (result : string) (max_len : nat) : rtM (option (esp_err_t * string)) :=
  s ← rt_get;
  match L s, code with
  | Some vm, Some code =>
      was_running ← stop_running_task 50;
      rt_moment true;;
      match luaL_dostring vm code with
      | None => mret None
      | Some (ret, vm1) =>
          if bool_decide (ret ≠ LUA_OK) then
            let err := lua_tostring vm1 (-1) in
            let text := snprintf max_len ("error: " +:+ default "unknown" err) in
            set_L (Some (lua_pop vm1 1));;
            (if was_running : bool
             then lua_runtime_start xTaskCreate_ok;; mret tt else mret tt);;
            mret (Some (ESP_FAIL, text))
          else
            text ← (if (lua_gettop vm1 >? 0)%Z then
                      let '(str, vm2) := luaL_tolstring vm1 (-1) in
                      set_L (Some (lua_pop vm2 2));;
                      mret (snprintf max_len (default "nil" str))
                    else
                      set_L (Some vm1);;
                      mret (snprintf max_len "ok"));
            (if was_running : bool
             then lua_runtime_start xTaskCreate_ok;; mret tt else mret tt);;
            mret (Some (ESP_OK, text))
      end
  | _, _ => mret (Some (ESP_ERR_INVALID_ARG, result))
  end.


End runtime.


(** ** printf's floating-point conversions (libc) *)
Class libc_printf := {
  fmt_g17 : float -> string;   (* "%.17g" *)
  fmt_f1 : float -> string     (* "%.1f" *)
}.

Definition nl : string := String "010" EmptyString.

(** ** mcp_tools.c: rendering a cJSON tree as a Lua literal *)

(** The cursor and the remaining room that the C functions update through
    pointers: [sb_out] is what has been stored before the cursor. *)
Record strbuf := { sb_out : string; sb_remaining : nat }.

(** [strbuf_append] and [strbuf_appendf], given the text that the format
    produces: [None] is the C function's [false]. *)
Definition strbuf_append (text : string) (b : strbuf) : option strbuf :=
  let n := String.length text in
  if (sb_remaining b <=? n)%nat then None
  else Some {| sb_out := sb_out b +:+ text; sb_remaining := sb_remaining b - n |}.

Definition hex_upper (n : N) : ascii :=
  match n with
  | 0 => "0" | 1 => "1" | 2 => "2" | 3 => "3" | 4 => "4" | 5 => "5"
  | 6 => "6" | 7 => "7" | 8 => "8" | 9 => "9" | 10 => "A" | 11 => "B"
  | 12 => "C" | 13 => "D" | 14 => "E" | _ => "F"
  end%N%char.

(** ["%02X"] of an [unsigned char]. *)
Definition fmt_02X (c : ascii) : string :=
  let n := N_of_ascii c in
  String (hex_upper (n / 16)) (String (hex_upper (n mod 16)) EmptyString).

(** What one turn of the [switch] in [strbuf_append_lua_string] appends. *)
Definition lua_escape_char (c : ascii) : string :=
  if Ascii.eqb c "\" then "\\"
  else if Ascii.eqb c dquote then String "\" (String dquote EmptyString)
  else if Ascii.eqb c "010" then "\n"
  else if Ascii.eqb c "013" then "\r"
  else if Ascii.eqb c "009" then "\t"
  else if (N_of_ascii c <? 32)%N then "\x" +:+ fmt_02X c
  else String c EmptyString.

Fixpoint strbuf_append_lua_chars (value : string) (b : strbuf) : option strbuf :=
  match value with
  | EmptyString => Some b
  | String c value' =>
      strbuf_append (lua_escape_char c) b ≫= strbuf_append_lua_chars value'
  end.

Definition strbuf_append_lua_string (value : string) (b : strbuf) : option strbuf :=
  b1 ← strbuf_append (String dquote EmptyString) b;
  b2 ← strbuf_append_lua_chars value b1;
  strbuf_append (String dquote EmptyString) b2.

(** The body shared by the two [cJSON_ArrayForEach] loops: the separator
    before every item but the first, then the item. *)
Section for_each.
Context {A : Type} (item_out : A -> strbuf -> option strbuf).

Fixpoint strbuf_for_each (l : list A) (first : bool) (b : strbuf) : option strbuf :=
  match l with
  | [] => Some b
  | item :: l' =>
      b ← (if first then Some b else strbuf_append ", " b);
      b ← item_out item b;
      strbuf_for_each l' false b
  end.
End for_each.

Fixpoint serialize_cjson_to_lua {libc : libc_printf} (value : cJSON) (b : strbuf)
  : option strbuf :=
  match value with
  | cJSON_NULL => strbuf_append "nil" b
  | cJSON_True => strbuf_append "true" b
  | cJSON_False => strbuf_append "false" b
  | cJSON_Number valueint valuedouble =>
      if PrimFloat.eqb (double_of_int valueint) valuedouble
      then strbuf_append (fmt_d valueint) b
      else strbuf_append (fmt_g17 valuedouble) b
  | cJSON_String valuestring => strbuf_append_lua_string valuestring b
  | cJSON_Array items =>
      b ← strbuf_append "{" b;
      b ← strbuf_for_each serialize_cjson_to_lua items true b;
      strbuf_append "}" b
  | cJSON_Object items =>
      b ← strbuf_append "{" b;
      b ← strbuf_for_each
            (fun (member : string * cJSON) (b : strbuf) =>
               b ← strbuf_append "[" b;
               b ← strbuf_append_lua_string member.1 b;
               b ← strbuf_append "] = " b;
               serialize_cjson_to_lua member.2 b)
            items true b;
      strbuf_append "}" b
  | cJSON_Raw _ => None
  end.

Definition build_bindings_lua_script {libc : libc_printf} (interface_name provider : string)
    (opts : option cJSON) (out_len : nat) : option string :=
  b ← strbuf_append ("return {" +:+ nl +:+ "    [") {| sb_out := ""; sb_remaining := out_len |};
  b ← strbuf_append_lua_string interface_name b;
  b ← strbuf_append ("] = {" +:+ nl +:+ "        provider = ") b;
  b ← strbuf_append_lua_string provider b;
  b ← strbuf_append ("," +:+ nl +:+ "        opts = ") b;
  b ← match opts with
      | Some o => serialize_cjson_to_lua o b
      | None => strbuf_append "{}" b
      end;
  b ← strbuf_append (nl +:+ "    }" +:+ nl +:+ "}" +:+ nl) b;
  Some (sb_out b).

(** ** The device: the statics that a request handler threads

    The ring of [mcp_log.c] is not among them. Once [mcp_log_init] has
    installed [log_vprintf_hook], every ESP_LOGx of every task (the servers,
    the scripting task, the OTA task, the drivers) reaches the ring at any
    time, the handlers' own log lines included; what [sys_get_logs] finds
    there is therefore a reading of the environment ([env_log]), and the log
    lines a handler emits are outside the state recorded here. The ring
    itself is modelled by [log_vprintf_hook], [mcp_log_init] and
    [tool_sys_get_logs] on [log_state]. *)

(** What a call that may not come back does. *)
Inductive outcome (A : Type) : Type :=
| Returns (a : A)
| Restarts      (* [esp_restart ()]: the device reboots inside the call *)
| Hangs         (* a Lua chunk never returns *)
| Undefined.    (* a store outside a buffer *)

Arguments Returns {A} a.
Arguments Restarts {A}.
Arguments Hangs {A}.
Arguments Undefined {A}.

Global Instance outcome_ret : MRet outcome := fun A a => Returns a.

Global Instance outcome_bind : MBind outcome :=
  fun A B (f : A -> outcome B) (m : outcome A) =>
    match m with
    | Returns a => f a
    | Restarts => Restarts
    | Hangs => Hangs
    | Undefined => Undefined
    end.

(** Readings of the hardware and of the system libraries during one call. *)
Record hardware := {
  hw_free_heap : Z;
  hw_min_free_heap : Z;
  hw_timer_us : Z;
  hw_wifi_ap : option (string * Z);   (* SSID and RSSI when associated *)
  hw_gpio_level : Z;                  (* [gpio_get_level (LED_GPIO)] *)
  hw_running_partition : option string;
  hw_app_version : option string
}.

Record device {lua : lua_lib} := {
  dev_initialized : bool;             (* mcp_protocol.c: [initialized] *)
  dev_led_initialized : bool;         (* mcp_tools.c: [led_initialized] *)
  dev_led_level : Z;                  (* last [gpio_set_level (LED_GPIO, _)] *)
  dev_ota : ota_session;
  dev_ota_tasks : list string;        (* URLs of the [ota_task]s created *)
  dev_fs : gmap string string;
  dev_lua : lua_runtime
}.

(** What the environment decides during one call. *)
Record env {lua : lua_lib} := {
  env_hw : hardware;
  env_result_text : string;           (* [char result_text[2048]] on entry *)
  env_log : log_state;                (* the ring as [sys_get_logs] finds it *)
  env_log_mutex_taken : bool;
  env_strdup_ok : bool;
  env_xTaskCreate_ok : bool;
  env_fopen_ok : bool;
  env_opendir_ok : bool;
  env_fresh_vm : option lua_State;
  env_rollback_possible : bool
}.

Section tools.
Context {codec : cJSON_codec} {lua : lua_lib} {libc : libc_printf} {cfg : sdkconfig}.

Definition handler_result : Type := outcome (esp_err_t * string * device).

Definition mcp_tool_handler_t : Type :=
  env -> cJSON -> nat -> device -> handler_result.

Record mcp_tool_t := {
  name : string;
  description : string;
  input_schema_json : string;
  handler : mcp_tool_handler_t
}.

Definition set_dev_initialized (v : bool) (d : device) : device :=
  {| dev_initialized := v; dev_led_initialized := dev_led_initialized d;
     dev_led_level := dev_led_level d; dev_ota := dev_ota d;
     dev_ota_tasks := dev_ota_tasks d; dev_fs := dev_fs d; dev_lua := dev_lua d |}.

Definition set_dev_led_level (v : Z) (d : device) : device :=
  {| dev_initialized := dev_initialized d; dev_led_initialized := dev_led_initialized d;
     dev_led_level := v; dev_ota := dev_ota d;
     dev_ota_tasks := dev_ota_tasks d; dev_fs := dev_fs d; dev_lua := dev_lua d |}.

Definition set_dev_ota_tasks (v : list string) (d : device) : device :=
  {| dev_initialized := dev_initialized d; dev_led_initialized := dev_led_initialized d;
     dev_led_level := dev_led_level d; dev_ota := dev_ota d;
     dev_ota_tasks := v; dev_fs := dev_fs d; dev_lua := dev_lua d |}.

Definition set_dev_fs (v : gmap string string) (d : device) : device :=
  {| dev_initialized := dev_initialized d; dev_led_initialized := dev_led_initialized d;
     dev_led_level := dev_led_level d; dev_ota := dev_ota d;
     dev_ota_tasks := dev_ota_tasks d; dev_fs := v; dev_lua := dev_lua d |}.

Definition set_dev_lua (v : lua_runtime) (d : device) : device :=
  {| dev_initialized := dev_initialized d; dev_led_initialized := dev_led_initialized d;
     dev_led_level := dev_led_level d; dev_ota := dev_ota d;
     dev_ota_tasks := dev_ota_tasks d; dev_fs := dev_fs d; dev_lua := v |}.

(** Run a lifecycle operation on the device's runtime. *)
Definition run_rt {A : Type} (m : rtM A) (d : device) : A * device :=
  let '(a, rt, _) := m (dev_lua d) in (a, set_dev_lua rt d).

Definition PROJECT_SYSTEM_PROMPT : string :=
  "You are controlling an ESP32 MCP server with a Lua runtime." +:+ nl +:+
  "Goal: modify device behavior by editing Lua scripts in /spiffs, not by changing firmware unless required." +:+ nl +:+
  "Core loop: sys_get_logs -> lua_get_script -> edit -> lua_push_script -> lua_restart -> verify logs." +:+ nl +:+
  "For DI display switching, prefer lua_bind_dependency to update bindings.lua." +:+ nl +:+
  "Default display interface is 'display' with providers like 'mock_display'." +:+ nl +:+
  "Useful tools: get_status, sys_get_logs, lua_list_scripts, lua_get_script, lua_push_script, lua_bind_dependency, lua_restart, lua_exec." +:+ nl +:+
  "Safety: keep script changes small, verify each step, and rollback by restoring previous script content if needed.".

Definition LED_GPIO : Z := CONFIG_BLINK_GPIO.

Definition tool_control_led : mcp_tool_handler_t := fun e args max_len d =>
  if negb (dev_led_initialized d) then
    Returns (ESP_ERR_INVALID_STATE,
             snprintf max_len ("LED not initialized (GPIO " +:+ fmt_d LED_GPIO
                               +:+ " not available)"), d)
  else
    match cJSON_GetObjectItem args "state" with
    | Some (cJSON_String state) =>
        if String.eqb state "on" then
          Returns (ESP_OK,
                   snprintf max_len ("LED turned on (GPIO " +:+ fmt_d LED_GPIO +:+ ")"),
                   set_dev_led_level 1 d)
        else if String.eqb state "off" then
          Returns (ESP_OK,
                   snprintf max_len ("LED turned off (GPIO " +:+ fmt_d LED_GPIO +:+ ")"),
                   set_dev_led_level 0 d)
        else if String.eqb state "toggle" then
          let current := hw_gpio_level (env_hw e) in
          let level := if (current =? 0)%Z then 1%Z else 0%Z in
          Returns (ESP_OK,
                   snprintf max_len
                     ("LED toggled to " +:+ (if (current =? 0)%Z then "on" else "off")
                      +:+ " (GPIO " +:+ fmt_d LED_GPIO +:+ ")"),
                   set_dev_led_level level d)
        else
          Returns (ESP_ERR_INVALID_ARG,
                   snprintf max_len ("Invalid state: '" +:+ state
                                     +:+ "'. Must be 'on', 'off', or 'toggle'"), d)
    | _ =>
        Returns (ESP_ERR_INVALID_ARG,
                 snprintf max_len
                   "Missing or invalid 'state' parameter. Must be 'on', 'off', or 'toggle'",
                 d)
    end.

Definition tool_get_status : mcp_tool_handler_t := fun e args max_len d =>
  let hw := env_hw e in
  let uptime_sec := (hw_timer_us hw ÷ 1000000)%Z in
  let kb (bytes : Z) := fmt_f1 (PrimFloat.div (double_of_int bytes) 1024%float) in
  let led_state := if dev_led_initialized d then hw_gpio_level hw else (-1)%Z in
  let written :=
    ob_snprintf max_len
      ("ESP32 System Status:" +:+ nl +:+
       "-------------------" +:+ nl +:+
       "Free Heap: " +:+ fmt_d (hw_free_heap hw) +:+ " bytes ("
         +:+ kb (hw_free_heap hw) +:+ " KB)" +:+ nl +:+
       "Min Free Heap: " +:+ fmt_d (hw_min_free_heap hw) +:+ " bytes ("
         +:+ kb (hw_min_free_heap hw) +:+ " KB)" +:+ nl +:+
       "Uptime: " +:+ fmt_d uptime_sec +:+ " seconds ("
         +:+ fmt_f1 (PrimFloat.div (double_of_int uptime_sec) 3600%float)
         +:+ " hours)" +:+ nl)
      {| ob_text := ""; ob_written := 0 |} in
  let written :=
    written ≫=
    ob_snprintf max_len
      match hw_wifi_ap hw with
      | Some (ssid, rssi) =>
          "WiFi SSID: " +:+ ssid +:+ nl +:+ "WiFi RSSI: " +:+ fmt_d rssi +:+ " dBm" +:+ nl
      | None => "WiFi: Not connected" +:+ nl
      end in
  let written :=
    written ≫=
    ob_snprintf max_len
      (if dev_led_initialized d
       then "LED State: " +:+ (if (led_state =? 0)%Z then "OFF" else "ON")
            +:+ " (GPIO " +:+ fmt_d LED_GPIO +:+ ")" +:+ nl
       else "LED: Not initialized" +:+ nl) in
  match written ≫=
        ob_snprintf max_len
          "Project Prompt: call get_system_prompt for agent workflow and usage guidance"
  with
  | Some b => Returns (ESP_OK, ob_text b, d)
  | None => Undefined
  end.

Definition tool_get_system_prompt : mcp_tool_handler_t := fun e args max_len d =>
  Returns (ESP_OK, snprintf max_len PROJECT_SYSTEM_PROMPT, d).

(** The registry entries of [mcp_log.c] and [mcp_ota.c] on the device. *)
Definition run_tool_sys_get_logs : mcp_tool_handler_t := fun e args max_len d =>
  match tool_sys_get_logs (env_log_mutex_taken e) (Some args) max_len (env_log e) with
  | Some (ret, text) => Returns (ret, text, d)
  | None => Undefined
  end.

Definition run_tool_sys_ota_push : mcp_tool_handler_t := fun e args max_len d =>
  let '(ret, text, task) :=
    tool_sys_ota_push (env_strdup_ok e) (env_xTaskCreate_ok e) args max_len (dev_ota d) in
  Returns (ret, text,
           match task with
           | Some url => set_dev_ota_tasks (dev_ota_tasks d ++ [url]) d
           | None => d
           end).

Definition run_tool_sys_ota_status : mcp_tool_handler_t := fun e args max_len d =>
  let '(ret, text) :=
    tool_sys_ota_status (hw_running_partition (env_hw e)) (hw_app_version (env_hw e))
                        max_len (dev_ota d) in
  Returns (ret, text, d).

(** [esp_ota_mark_app_invalid_rollback_and_reboot] reboots when there is an
    image to roll back to, and returns an error otherwise. *)
Definition tool_sys_ota_rollback : mcp_tool_handler_t := fun e args max_len d =>
  if env_rollback_possible e then Restarts
  else Returns (ESP_OK,
                snprintf max_len "Rolling back to previous firmware and rebooting...", d).

(** [vTaskDelay (pdMS_TO_TICKS (500)); esp_restart ();]. *)
Definition tool_sys_reboot : mcp_tool_handler_t := fun e args max_len d => Restarts.

Definition tool_lua_push_script : mcp_tool_handler_t := fun e args max_len d =>
  match cJSON_GetObjectItem args "name", cJSON_GetObjectItem args "content" with
  | Some (cJSON_String script), Some (cJSON_String content) =>
      let append := match cJSON_GetObjectItem args "append" with
                    | Some cJSON_True => true
                    | _ => false
                    end in
      let '(ret, fs) :=
        lua_runtime_push_script (env_fopen_ok e) (dev_fs d) script content append in
      if bool_decide (ret = ESP_OK) then
        Returns (ret,
                 snprintf max_len
                   ("Script '" +:+ script +:+ "' "
                    +:+ (if append then "appended" else "written") +:+ " ("
                    +:+ fmt_d (wrap32 (Z.of_nat (String.length content))) +:+ " bytes)"),
                 set_dev_fs fs d)
      else
        Returns (ret, snprintf max_len ("Failed to write script '" +:+ script +:+ "'"),
                 set_dev_fs fs d)
  | _, _ =>
      Returns (ESP_ERR_INVALID_ARG,
               snprintf max_len "Missing required parameters: name, content", d)
  end.

Definition tool_lua_get_script : mcp_tool_handler_t := fun e args max_len d =>
  match cJSON_GetObjectItem args "name" with
  | Some (cJSON_String script) =>
      let '(ret, text) := lua_runtime_get_script (dev_fs d) script max_len in
      Returns (ret, text, d)
  | _ =>
      Returns (ESP_ERR_INVALID_ARG, snprintf max_len "Missing required parameter: name", d)
  end.

Definition tool_lua_list_scripts : mcp_tool_handler_t := fun e args max_len d =>
  match lua_runtime_list_scripts (env_opendir_ok e) (dev_fs d) max_len with
  | Some (ret, text) => Returns (ret, text, d)
  | None => Undefined
  end.

Definition tool_lua_exec : mcp_tool_handler_t := fun e args max_len d =>
  match cJSON_GetObjectItem args "code" with
  | Some (cJSON_String code) =>
      match run_rt (lua_runtime_exec (env_xTaskCreate_ok e) (Some code)
                                     (env_result_text e) max_len) d with
      | (Some (ret, text), d') => Returns (ret, text, d')
      | (None, _) => Hangs
      end
  | _ =>
      Returns (ESP_ERR_INVALID_ARG, snprintf max_len "Missing required parameter: code", d)
  end.

Definition tool_lua_restart : mcp_tool_handler_t := fun e args max_len d =>
  let '(ret, d') :=
    run_rt (lua_runtime_restart (env_fresh_vm e) (env_xTaskCreate_ok e)) d in
  if bool_decide (ret = ESP_OK)
  then Returns (ret, snprintf max_len "Lua VM restarted, main.lua re-executing", d')
  else Returns (ret, snprintf max_len "Failed to restart Lua VM", d').

Definition tool_lua_bind_dependency : mcp_tool_handler_t := fun e args max_len d =>
  let fail ret text := Returns (ret, snprintf max_len text, d) in
  match args with
  | cJSON_Object _ =>
      match cJSON_GetObjectItem args "provider" with
      | Some (cJSON_String (String c p as provider)) =>
          let interface_item := cJSON_GetObjectItem args "interface" in
          match interface_item with
          | Some (cJSON_String EmptyString) | Some cJSON_False | Some cJSON_True
          | Some cJSON_NULL | Some (cJSON_Number _ _) | Some (cJSON_Array _)
          | Some (cJSON_Object _) | Some (cJSON_Raw _) =>
              fail ESP_ERR_INVALID_ARG
                   "Invalid parameter: interface must be non-empty string"
          | _ =>
              let interface_name :=
                match interface_item with
                | Some (cJSON_String i) => i
                | _ => "display"
                end in
              let opts_item := cJSON_GetObjectItem args "opts" in
              match opts_item with
              | Some (cJSON_Object _) | None =>
                  let restart_item := cJSON_GetObjectItem args "restart" in
                  match restart_item with
                  | Some cJSON_True | Some cJSON_False | None =>
                      let restart := match restart_item with
                                     | Some cJSON_False => false
                                     | _ => true
                                     end in
                      match build_bindings_lua_script interface_name provider
                                                      opts_item 2048 with
                      | None =>
                          fail ESP_ERR_INVALID_SIZE
                               "Failed to generate bindings.lua (payload too large or unsupported type)"
                      | Some bindings_script =>
                          let '(ret, fs) :=
                            lua_runtime_push_script (env_fopen_ok e) (dev_fs d)
                                                    "bindings.lua" bindings_script false in
                          let d1 := set_dev_fs fs d in
                          if bool_decide (ret ≠ ESP_OK) then
                            Returns (ret, snprintf max_len "Failed to write bindings.lua", d1)
                          else
                            let '(ret, d2) :=
                              if restart
                              then run_rt (lua_runtime_restart (env_fresh_vm e)
                                                               (env_xTaskCreate_ok e)) d1
                              else (ESP_OK, d1) in
                            if bool_decide (ret ≠ ESP_OK) then
                              Returns (ret,
                                       snprintf max_len
                                         ("bindings.lua updated: " +:+ interface_name
                                          +:+ " -> " +:+ provider
                                          +:+ ", but lua_restart failed"), d2)
                            else
                              Returns (ESP_OK,
                                       snprintf max_len
                                         ("Binding updated: " +:+ interface_name
                                          +:+ " -> " +:+ provider +:+ " (restart="
                                          +:+ (if restart then "true" else "false")
                                          +:+ ")"), d2)
                      end
                  | _ => fail ESP_ERR_INVALID_ARG
                              "Invalid parameter: restart must be boolean"
                  end
              | _ => fail ESP_ERR_INVALID_ARG "Invalid parameter: opts must be object"
              end
          end
      | _ => fail ESP_ERR_INVALID_ARG "Missing required parameter: provider"
      end
  | _ => fail ESP_ERR_INVALID_ARG "Missing arguments object"
  end.

End tools.


Section registry.
Context {codec : cJSON_codec} {lua : lua_lib} {libc : libc_printf} {cfg : sdkconfig}.

Definition empty_schema : string := json_text "{'type':'object','properties':{}}".

(** [tool_registry], without its sentinel. *)
Definition tool_registry : list mcp_tool_t :=
  [ {| name := "control_led";
       description := "Control the onboard LED";
       input_schema_json :=
         json_text ("{'type':'object',"
           +:+ "'properties':{'state':{'type':'string','enum':['on','off','toggle'],'description':'LED state'}},"
           +:+ "'required':['state']}");
       handler := tool_control_led |};
    {| name := "get_status";
       description := "Get system status information including memory, WiFi, and uptime";
       input_schema_json := empty_schema;
       handler := tool_get_status |};
    {| name := "get_system_prompt";
       description := "Get the overall project prompt for AI agents (what this project does and recommended tool workflow)";
       input_schema_json := empty_schema;
       handler := tool_get_system_prompt |};
    {| name := "sys_get_logs";
       description := "Retrieve recent runtime logs from the device";
       input_schema_json :=
         json_text ("{'type':'object',"
           +:+ "'properties':{"
           +:+ "'level':{'type':'string','enum':['error','warn','info','debug','verbose'],'description':'Minimum log level filter','default':'info'},"
           +:+ "'lines':{'type':'integer','description':'Max number of log lines to return','default':20},"
           +:+ "'filter':{'type':'string','description':'Substring filter for log messages'}"
           +:+ "}}");
       handler := run_tool_sys_get_logs |};
    {| name := "sys_ota_push";
       description := "Start OTA firmware update from HTTP URL";
       input_schema_json :=
         json_text ("{'type':'object',"
           +:+ "'properties':{"
           +:+ "'url':{'type':'string','description':'HTTP URL to firmware binary'}"
           +:+ "},"
           +:+ "'required':['url']}");
       handler := run_tool_sys_ota_push |};
    {| name := "sys_ota_status";
       description := "Get current OTA update state and progress";
       input_schema_json := empty_schema;
       handler := run_tool_sys_ota_status |};
    {| name := "sys_ota_rollback";
       description := "Rollback to previous firmware version and reboot";
       input_schema_json := empty_schema;
       handler := tool_sys_ota_rollback |};
    {| name := "sys_reboot";
       description := "Reboot the device";
       input_schema_json := empty_schema;
       handler := tool_sys_reboot |};
    {| name := "lua_push_script";
       description := "Write or update a Lua script on the device. Use append=true for large scripts sent in chunks.";
       input_schema_json :=
         json_text ("{'type':'object',"
           +:+ "'properties':{"
           +:+ "'name':{'type':'string','description':'Script filename (e.g. main.lua)'},"
           +:+ "'content':{'type':'string','description':'Lua source code'},"
           +:+ "'append':{'type':'boolean','description':'Append to existing file instead of overwrite','default':false}"
           +:+ "},"
           +:+ "'required':['name','content']}");
       handler := tool_lua_push_script |};
    {| name := "lua_get_script";
       description := "Read a Lua script's source code from the device";
       input_schema_json :=
         json_text ("{'type':'object',"
           +:+ "'properties':{"
           +:+ "'name':{'type':'string','description':'Script filename (e.g. main.lua)'}"
           +:+ "},"
           +:+ "'required':['name']}");
       handler := tool_lua_get_script |};
    {| name := "lua_list_scripts";
       description := "List all Lua scripts stored on the device";
       input_schema_json := empty_schema;
       handler := tool_lua_list_scripts |};
    {| name := "lua_exec";
       description := "Execute a Lua code snippet directly in the VM and return the result";
       input_schema_json :=
         json_text ("{'type':'object',"
           +:+ "'properties':{"
           +:+ "'code':{'type':'string','description':'Lua code to execute'}"
           +:+ "},"
           +:+ "'required':['code']}");
       handler := tool_lua_exec |};
    {| name := "lua_bind_dependency";
       description := "Bind a DI interface to a provider by updating bindings.lua and optionally restart Lua VM";
       input_schema_json :=
         json_text ("{'type':'object',"
           +:+ "'properties':{"
           +:+ "'provider':{'type':'string','description':'Provider name (e.g. ssd1306 or mock_display)'},"
           +:+ "'interface':{'type':'string','description':'Interface name, default is display','default':'display'},"
           +:+ "'opts':{'type':'object','description':'Provider options table written into bindings.lua'},"
           +:+ "'restart':{'type':'boolean','description':'Restart Lua VM after updating bindings','default':true}"
           +:+ "},"
           +:+ "'required':['provider']}");
       handler := tool_lua_bind_dependency |};
    {| name := "lua_restart";
       description := "Restart the Lua VM, re-executing main.lua with any recent script changes";
       input_schema_json := empty_schema;
       handler := tool_lua_restart |} ].

Fixpoint tools_find (registry : list mcp_tool_t) (tool_name : string)
  : option mcp_tool_t :=
  match registry with
  | [] => None
  | tool :: registry' =>
      if String.eqb (name tool) tool_name then Some tool
      else tools_find registry' tool_name
  end.

Definition mcp_tools_find (tool_name : string) : option mcp_tool_t :=
  tools_find tool_registry tool_name.

Definition mcp_tools_get_list : cJSON :=
  cJSON_Array
    (map (fun tool =>
            cJSON_Object
              [("name", cJSON_String (name tool));
               ("description", cJSON_String (description tool));
               ("inputSchema",
                default cJSON_CreateObject (cJSON_Parse (input_schema_json tool)))])
         tool_registry).

(** The status, the result text, [*is_error] and the device afterwards. *)
Definition mcp_tools_execute (e : env) (tool_name : string) (arguments : cJSON)
    (max_len : nat) (d : device) : outcome (esp_err_t * string * bool * device) :=
  match mcp_tools_find tool_name with
  | None =>
      Returns (ESP_ERR_NOT_FOUND,
               snprintf max_len ("Tool not found: " +:+ tool_name), true, d)
  | Some tool =>
      '(ret, result_text, d') ← handler tool e arguments max_len d;
      if bool_decide (ret ≠ ESP_OK) then
        Returns (ret,
                 if (String.length result_text =? 0)%nat
                 then snprintf max_len
                        ("Tool execution failed: " +:+ esp_err_to_name ret)
                 else result_text,
                 true, d')
      else Returns (ret, result_text, false, d')
  end.

(** ** mcp_protocol.c *)

Definition MCP_PROTOCOL_VERSION : string := "2024-11-05".
Definition MCP_SERVER_NAME : string := "esp32-mcp-server".
Definition MCP_SERVER_VERSION : string := "1.0.0".

(** A method handler answers its status, [*result] and the device. *)
Definition method_result : Type := outcome (esp_err_t * option cJSON * device).

Definition mcp_handle_initialize (e : env) (params : option cJSON) (d : device)
  : method_result :=
  match params with
  | None => Returns (ESP_ERR_INVALID_ARG, None, d)
  | Some _ =>
      Returns (ESP_OK,
               Some (cJSON_Object
                       [("protocolVersion", cJSON_String MCP_PROTOCOL_VERSION);
                        ("capabilities",
                         cJSON_Object [("tools", cJSON_CreateObject)]);
                        ("serverInfo",
                         cJSON_Object
                           [("name", cJSON_String MCP_SERVER_NAME);
                            ("version", cJSON_String MCP_SERVER_VERSION)])]),
               set_dev_initialized true d)
  end.

Definition mcp_handle_tools_list (e : env) (params : option cJSON) (d : device)
  : method_result :=
  Returns (ESP_OK, Some (cJSON_Object [("tools", mcp_tools_get_list)]), d).

(** [sizeof (result_text)] in [mcp_handle_tools_call]. *)
Definition MCP_MAX_TOOL_RESULT_SIZE : nat := 2048.

(** The result object that [mcp_handle_tools_call] builds. *)
Definition tools_call_result (result_text : string) (failed : bool) : cJSON :=
  cJSON_Object
    ([("content",
       cJSON_Array [cJSON_Object [("type", cJSON_String "text");
                                  ("text", cJSON_String result_text)]])]
     ++ (if failed then [("isError", cJSON_True)] else [])).

Definition mcp_handle_tools_call (e : env) (params : option cJSON) (d : device)
  : method_result :=
  match params with
  | None => Returns (ESP_ERR_INVALID_ARG, None, d)
  | Some p =>
      match cJSON_GetObjectItem p "name" with
      | Some (cJSON_String tool_name) =>
          let arguments :=
            match cJSON_GetObjectItem p "arguments" with
            | Some a => a
            | None => cJSON_CreateObject
            end in
          '(ret, result_text, is_error, d') ←
            mcp_tools_execute e tool_name arguments MCP_MAX_TOOL_RESULT_SIZE d;
          Returns (ESP_OK,
                   Some (tools_call_result result_text
                           (is_error || bool_decide (ret ≠ ESP_OK))),
                   d')
      | _ => Returns (ESP_ERR_INVALID_ARG, None, d)
      end
  end.

Definition mcp_handle_ping (e : env) (params : option cJSON) (d : device)
  : method_result :=
  Returns (ESP_OK, Some cJSON_CreateObject, d).

(** ** mcp_server.c *)

(** [method_table], without its sentinel. *)
Definition method_table
  : list (string * (env -> option cJSON -> device -> method_result)) :=
  [("initialize", mcp_handle_initialize);
   ("tools/list", mcp_handle_tools_list);
   ("tools/call", mcp_handle_tools_call);
   ("ping", mcp_handle_ping)].

Fixpoint dispatch_in
    (table : list (string * (env -> option cJSON -> device -> method_result)))
    (e : env) (method : string) (params : option cJSON) (d : device)
  : method_result :=
  match table with
  | [] => Returns (ESP_ERR_NOT_FOUND, None, d)
  | (m, h) :: table' =>
      if String.eqb m method then h e params d
      else dispatch_in table' e method params d
  end.

Definition mcp_dispatch_method (e : env) (method : string) (params : option cJSON)
    (d : device) : method_result :=
  dispatch_in method_table e method params d.

(** [mcp_server_process_message]: the response text ([None] for [NULL])
    and the device afterwards. *)
Definition mcp_server_process_message (e : env) (json_str : option string)
    (d : device) : outcome (option string * device) :=
  match json_str with
  | None =>
      Returns (Some (jsonrpc_create_error 0 JSONRPC_INVALID_REQUEST (Some "Null message")),
               d)
  | Some text =>
      let '(err, msg) := jsonrpc_parse_message text in
      if bool_decide (err ≠ ESP_OK) then
        Returns (Some (jsonrpc_create_error 0 JSONRPC_PARSE_ERROR
                         (Some "Invalid JSON or JSON-RPC format")), d)
      else
        match msg_type msg with
        | JSONRPC_REQUEST =>
            '(err, result, d') ←
              mcp_dispatch_method e (msg_method msg) (msg_params msg) d;
            match err, result with
            | ESP_OK, Some r => Returns (jsonrpc_create_response (msg_id msg) (Some r), d')
            | ESP_ERR_NOT_FOUND, _ =>
                Returns (Some (jsonrpc_create_error (msg_id msg) JSONRPC_METHOD_NOT_FOUND
                                 (Some "Method not found")), d')
            | ESP_ERR_INVALID_ARG, _ =>
                Returns (Some (jsonrpc_create_error (msg_id msg) JSONRPC_INVALID_PARAMS
                                 (Some "Invalid parameters")), d')
            | _, _ =>
                Returns (Some (jsonrpc_create_error (msg_id msg) JSONRPC_INTERNAL_ERROR
                                 (Some "Internal error")), d')
            end
        | JSONRPC_NOTIFICATION => Returns (None, d)
        | _ =>
            Returns (Some (jsonrpc_create_error 0 JSONRPC_INVALID_REQUEST
                             (Some "Invalid message type")), d)
        end
  end.

End registry.


(** ** Values used by the examples *)



Definition sample_result : cJSON :=
  cJSON_Object [("content",
                 cJSON_Array [cJSON_Object [("type", cJSON_String "text");
                                            ("text", cJSON_String "ok")]]);
                ("count", cJSON_CreateNumber_int (-3));
                ("ratio", cJSON_CreateNumber 1.5);
                ("uptime", cJSON_CreateNumber (-1e10));
                ("flags", cJSON_Array [cJSON_True; cJSON_False; cJSON_NULL])].


Definition reboot_request : string :=
  json_text "{'jsonrpc':'2.0','id':1,'method':'tools/call','params':{'name':'sys_reboot'}}".

Definition nonexistent_request : string :=
  json_text "{'jsonrpc':'2.0','id':5,'method':'tools/call','params':{'name':'nonexistent'}}".


(** The values of a toy [return] statement, separated by a comma and an
    optional blank; the last value comes first, as it ends up on top of the
    stack. [cur] is the value being read, reversed. *)
Fixpoint toy_return_values (cur : string) (s : string) (values : list string)
  : list string :=
  match s with
  | EmptyString => String.rev cur :: values
  | String "," (String " " s') => toy_return_values "" s' (String.rev cur :: values)
  | String "," s' => toy_return_values "" s' (String.rev cur :: values)
  | String c s' => toy_return_values (String c cur) s' values
  end.

(** A toy interpreter for the examples. Its state is the value stack, top
    first, every value already rendered as text. Like [lua_pcall] with
    LUA_MULTRET, the chunk [return X, Y] pushes [X] and then [Y] on the
    stack it finds; [error X] raises [X]; [while true do end] never returns;
    any other chunk leaves the stack as it is. *)
Definition toy_lua : lua_lib :=
  {| lua_State := list string;
     luaL_dostring := fun st code =>
       if String.prefix "return " code
       then Some (LUA_OK, toy_return_values "" (str_drop 7 code) [] ++ st)
       else if String.prefix "error " code then Some (1%Z, str_drop 6 code :: st)
       else if String.eqb code "while true do end" then None
       else Some (LUA_OK, st);
     lua_gettop := fun st => Z.of_nat (length st);
     lua_tostring := fun st _ => head st;
     luaL_tolstring := fun st _ =>
       (head st, match st with x :: _ => x :: st | [] => st end);
     lua_pop := fun st n => drop (Z.to_nat n) st |}.

(** The toy interpreter's state with [values] on the stack. *)
Definition toy_state (values : list string) : lua_State (lua_lib := toy_lua) := values.

(** Stand-ins for the two floating-point conversions. *)
Definition toy_printf : libc_printf :=
  {| fmt_g17 := fun _ => "0.5"; fmt_f1 := fun _ => "0.0" |}.

Definition sample_hardware : hardware :=
  {| hw_free_heap := 200000; hw_min_free_heap := 150000; hw_timer_us := 7200000000;
     hw_wifi_ap := Some ("lab", (-60)%Z); hw_gpio_level := 0;
     hw_running_partition := Some "ota_0"; hw_app_version := Some "1.0.0" |}.

Definition sample_log : log_state :=
  {| s_log_ring :=
       [ {| log_text := "I (100) main: boot"; log_level := ESP_LOG_INFO;
            log_timestamp_ms := 100 |};
         {| log_text := "W (200) wifi: weak"; log_level := ESP_LOG_WARN;
            log_timestamp_ms := 200 |} ]
       ++ replicate 62 log_entry_zero;
     s_log_head := 2; s_log_count := 2; s_log_mutex := true |}.

Definition sample_env : env (lua := toy_lua) :=
  {| env_hw := sample_hardware; env_result_text := "";
     env_log := sample_log;
     env_log_mutex_taken := true; env_strdup_ok := true; env_xTaskCreate_ok := true;
     env_fopen_ok := true; env_opendir_ok := true; env_fresh_vm := Some (toy_state []);
     env_rollback_possible := true |}.

(** A device after start-up: [main.lua] is running in task 1. *)
Definition sample_runtime : lua_runtime (lua := toy_lua) :=
  {| L := Some (toy_state []); lua_task_handle := Some 1; lua_task_running := true;
     kernel_tasks := [(1, TaskScheduled)]; kernel_next_handle := 2 |}.

Definition sample_device : device (lua := toy_lua) :=
  {| dev_initialized := false; dev_led_initialized := true; dev_led_level := 0;
     dev_ota := ota_session_init; dev_ota_tasks := [];
     dev_fs := ∅; dev_lua := sample_runtime |}.


Definition sample_ota_args : cJSON :=
  cJSON_Object [("url", cJSON_String "http://10.0.0.2/fw.bin")].

Definition sample_ota_env : ota_env :=
  {| ota_client_init_ok := true; ota_http_open := ESP_OK; ota_fetch_headers := 2048;
     ota_partition_found := true; ota_begin := ESP_OK;
     ota_reads := [(1024%Z, ESP_OK); (1024%Z, ESP_OK); (0%Z, ESP_OK)];
     ota_end := ESP_OK; ota_set_boot_partition := ESP_OK |}.


(** ** Lua literals: the rendering rules

    The specification's words for a string are "backslash, quote and
    control characters escaped (non-printable bytes as hex escapes)". Read
    as written, every byte outside the printable range 0x20 .. 0x7E is
    escaped: *)

Definition is_printable (c : ascii) : bool :=
  ((32 <=? N_of_ascii c) && (N_of_ascii c <=? 126))%N.

Definition spec_lua_literal_char (c : ascii) : string :=
  match N_of_ascii c with
  | 92 => "\\"
  | 34 => String "\" (String dquote EmptyString)
  | 10 => "\n"
  | 13 => "\r"
  | 9 => "\t"
  | _ => if is_printable c then String c EmptyString else "\x" +:+ fmt_02X c
  end%N.

(** The rules as amended, a buffer-free account of the serializer to compare
    with [serialize_cjson_to_lua]: null is [nil]; the booleans pass through;
    a number whose value equals its integer field is printed as that
    integer, any other number with 17 significant digits; a string is
    quoted, with backslash, quote and the bytes below 0x20 escaped, the ones
    without a short escape as a hex escape, and every other byte copied; an
    array is a brace list of its elements; an object a brace list of
    bracketed string keys with their values. A node of any other kind has
    no literal. *)

Definition lua_literal_char (c : ascii) : string :=
  match N_of_ascii c with
  | 92 => "\\"
  | 34 => String "\" (String dquote EmptyString)
  | 10 => "\n"
  | 13 => "\r"
  | 9 => "\t"
  | n => if (n <? 32)%N then "\x" +:+ fmt_02X c else String c EmptyString
  end%N.

Fixpoint lua_literal_chars (s : string) : string :=
  match s with
  | EmptyString => EmptyString
  | String c s' => lua_literal_char c +:+ lua_literal_chars s'
  end.

Definition lua_quoted (s : string) : string :=
  String dquote (lua_literal_chars s +:+ String dquote EmptyString).

(** The parts of a brace list, separated by a comma and a blank. *)
Fixpoint lua_join (parts : list string) : string :=
  match parts with
  | [] => EmptyString
  | [t] => t
  | t :: parts' => t +:+ ", " +:+ lua_join parts'
  end.

Fixpoint lua_literal {libc : libc_printf} (v : cJSON) : option string :=
  match v with
  | cJSON_NULL => Some "nil"
  | cJSON_True => Some "true"
  | cJSON_False => Some "false"
  | cJSON_Number valueint valuedouble =>
      Some (if PrimFloat.eqb (double_of_int valueint) valuedouble
            then fmt_d valueint else fmt_g17 valuedouble)
  | cJSON_String s => Some (lua_quoted s)
  | cJSON_Array items =>
      parts ← mapM lua_literal items;
      Some ("{" +:+ lua_join parts +:+ "}")
  | cJSON_Object items =>
      parts ← mapM (fun member : string * cJSON =>
                      t ← lua_literal member.2;
                      Some ("[" +:+ lua_quoted member.1 +:+ "] = " +:+ t))
                   items;
      Some ("{" +:+ lua_join parts +:+ "}")
  | cJSON_Raw _ => None
  end.

Definition sample_opts : cJSON :=
  cJSON_Object [("addr", cJSON_CreateNumber_int 60);
                ("name", cJSON_String ("a" +:+ String dquote "b\c" +:+ nl +:+ String "001" "z"));
                ("pins", cJSON_Array [cJSON_CreateNumber_int 5; cJSON_NULL; cJSON_True]);
                ("scale", cJSON_Number 1 1.5%float)].


(** What a loop over [parts] adds to the buffer: nothing for no part, and a
    leading separator when an earlier item has been written. *)
Definition lua_join_from (first : bool) (parts : list string) : string :=
  match parts with
  | [] => EmptyString
  | _ => (if first then EmptyString else ", ") +:+ lua_join parts
  end.


(** Every character of [s] satisfies [ok]. *)
Fixpoint str_forall (ok : ascii -> bool) (s : string) : bool :=
  match s with
  | EmptyString => true
  | String c s' => ok c && str_forall ok s'
  end.

(** A character that ["%d"] can print: a decimal digit or the minus sign. *)
Definition is_decimal_char (c : ascii) : bool :=
  bool_decide (is_Some (digit_of c)) || Ascii.eqb c "-".


(** The statics and the kernel agree: the handle, when set, names the one
    scheduled [lua_task], and no other instance exists. *)
Definition rt_consistent {lua : lua_lib} (s : lua_runtime) : Prop :=
  match lua_task_handle s with
  | Some h => kernel_tasks s = [(h, TaskScheduled)] /\ h < kernel_next_handle s
  | None => kernel_tasks s = []
  end.


(** ** The shape of a log listing

    The grammar that the text of [tool_sys_get_logs] is compared with. *)

(** The inside of a JSON string literal (RFC 8259) of ASCII text: a
    character from 0x20 to 0x7E other than the quote and the backslash
    stands for itself, and a backslash is followed by one of the quote, the
    backslash, the slash and the letters b, f, n, r and t. Control
    characters, DEL and bytes from 0x80 on (which would have to form UTF-8
    sequences) are not accepted. *)
Definition json_unescaped (c : ascii) : bool :=
  ((32 <=? N_of_ascii c) && (N_of_ascii c <=? 126))%N
  && negb (Ascii.eqb c dquote) && negb (Ascii.eqb c "\").

Definition json_escape_letter (c : ascii) : bool :=
  Ascii.eqb c dquote || Ascii.eqb c "\" || Ascii.eqb c "/" || Ascii.eqb c "b"
  || Ascii.eqb c "f" || Ascii.eqb c "n" || Ascii.eqb c "r" || Ascii.eqb c "t".

Fixpoint json_string_body (s : string) : bool :=
  match s with
  | EmptyString => true
  | String c s' =>
      if Ascii.eqb c "\" then
        match s' with
        | String e s'' => json_escape_letter e && json_string_body s''
        | EmptyString => false
        end
      else json_unescaped c && json_string_body s'
  end.

(** What the listing makes of the bytes of a message: quote, backslash and
    line feed get a backslash, every other byte stays. *)
Definition log_escape_char (c : ascii) : string :=
  if Ascii.eqb c dquote then String "\" (String dquote EmptyString)
  else if Ascii.eqb c "\" then "\\"
  else if Ascii.eqb c "010" then "\n"
  else String c EmptyString.

Fixpoint log_escape (text : string) : string :=
  match text with
  | EmptyString => EmptyString
  | String c text' => log_escape_char c +:+ log_escape text'
  end.

(** A byte of a message that the listing turns into JSON: printable ASCII
    or a line feed. *)
Definition log_printable (c : ascii) : bool :=
  ((32 <=? N_of_ascii c) && (N_of_ascii c <=? 126))%N || Ascii.eqb c "010".

(** [item] is the object printed for the entry [e]: its timestamp and, as a
    closed string, the first bytes of its text, escaped. *)
Definition json_log_entry (e : log_entry_t) (item : string) : Prop :=
  exists k : nat,
    item = json_text "{'t':" +:+ fmt_d (log_timestamp_ms e) +:+ json_text ",'msg':'"
           +:+ log_escape (str_take k (log_text e)) +:+ json_text "'}".

(** The items of an array, separated by commas. *)
Fixpoint json_join (items : list string) : string :=
  match items with
  | [] => ""
  | [item] => item
  | item :: items' => item +:+ "," +:+ json_join items'
  end.

Definition json_array (items : list string) : string := "[" +:+ json_join items +:+ "]".

(** [int64_t timestamp_ms]. *)
Definition int64_range (z : Z) : Prop :=
  (-9223372036854775808 <= z <= 9223372036854775807)%Z.

(** What the declarations of the statics and the writer keep true: the ring
    has [LOG_MAX_LINES] elements, [s_log_head] indexes it, [s_log_count]
    counts at most all of them, and a timestamp is an [int64_t]. *)
Definition log_state_wf {cfg : sdkconfig} (st : log_state) : Prop :=
  length (s_log_ring st) = Z.to_nat LOG_MAX_LINES /\
  (0 <= s_log_head st < LOG_MAX_LINES)%Z /\
  (0 <= s_log_count st <= LOG_MAX_LINES)%Z /\
  Forall (fun e => int64_range (log_timestamp_ms e)) (s_log_ring st).

(** The cursor stands at the end of the text: nothing was cut so far. *)
Definition ob_good (b : outbuf) : Prop :=
  ob_written b = Z.of_nat (String.length (ob_text b)).

(** [b] with [s] written whole at the cursor. *)
Definition ob_push (s : string) (b : outbuf) : outbuf :=
  {| ob_text := ob_text b +:+ s;
     ob_written := ob_written b + Z.of_nat (String.length s) |}.

(** A log line with a tab in it. *)
Definition tab_log : log_state :=
  {| s_log_ring := [ {| log_text := String "a" (String "009" "b");
                        log_level := ESP_LOG_INFO; log_timestamp_ms := 5 |} ];
     s_log_head := 1; s_log_count := 1; s_log_mutex := true |}.

(** The statics before [mcp_log_init] has run, or after it failed to create
    the semaphore. *)
Definition uninitialised_log : log_state :=
  {| s_log_ring := replicate 64 log_entry_zero;
     s_log_head := 0; s_log_count := 0; s_log_mutex := false |}.


(** Arguments that ask for more lines than the ring has and for a level
    that does not exist. *)
Definition sample_logs_args : cJSON :=
  cJSON_Object [("lines", cJSON_CreateNumber_int 500); ("level", cJSON_String "loud")].


(** ** The text of bindings.lua

    What [build_bindings_lua_script] is meant to leave in its buffer, for
    the literal [opts_literal] of the options. *)
Definition bindings_lua_text (interface_name provider opts_literal : string) : string :=
  ("return {" +:+ nl +:+ "    [") +:+ lua_quoted interface_name
  +:+ ("] = {" +:+ nl +:+ "        provider = ") +:+ lua_quoted provider
  +:+ ("," +:+ nl +:+ "        opts = ") +:+ opts_literal
  +:+ (nl +:+ "    }" +:+ nl +:+ "}" +:+ nl).


(** A device whose interpreter could not be created, and a call whose result
    buffer still holds an earlier text. *)
Definition device_without_vm : device (lua := toy_lua) :=
  {| dev_initialized := true; dev_led_initialized := true; dev_led_level := 0;
     dev_ota := ota_session_init; dev_ota_tasks := [];
     dev_fs := ∅;
     dev_lua := {| L := None; lua_task_handle := None; lua_task_running := false;
                   kernel_tasks := []; kernel_next_handle := 2 |} |}.

Definition env_stale_buffer : env (lua := toy_lua) :=
  {| env_hw := sample_hardware; env_result_text := "left over from an earlier call";
     env_log := sample_log;
     env_log_mutex_taken := true; env_strdup_ok := true; env_xTaskCreate_ok := true;
     env_fopen_ok := true; env_opendir_ok := true; env_fresh_vm := None;
     env_rollback_possible := false |}.


(** ** mcp_log.c: initialisation, and the ring before it wraps *)

(** The statics of [mcp_log.c] as the loader leaves them. *)
Definition log_statics_zero {cfg : sdkconfig} : log_state :=
  {| s_log_ring := replicate (Z.to_nat LOG_MAX_LINES) log_entry_zero;
     s_log_head := 0; s_log_count := 0; s_log_mutex := false |}.

(** ESP_LOGx of [esp_log.h], which is not among the sources. When the level
    is enabled for the tag, the macro has the logging library format a line
    (severity letter, timestamp, tag, the message, a line feed, and colour
    codes when they are configured) and hand it to the vprintf function that
    is installed. [esp_log_write level tag message] is that line, [None]
    when the level is disabled for the tag. *)
Class esp_log_lib := {
  esp_log_write : esp_log_level_t -> string -> string -> option string
}.

Definition ESP_LOGI {elog : esp_log_lib} (tag message : string) : option string :=
  esp_log_write ESP_LOG_INFO tag message.

(** A logging library without colours, at uptime 0, with every level
    enabled. *)
Definition toy_esp_log : esp_log_lib :=
  {| esp_log_write := fun level tag message =>
       Some ((match level with
              | ESP_LOG_ERROR => "E"
              | ESP_LOG_WARN => "W"
              | ESP_LOG_INFO => "I"
              | ESP_LOG_DEBUG => "D"
              | _ => "V"
              end) +:+ " (0) " +:+ tag +:+ ": " +:+ message +:+ nl) |}.

(** The message of [mcp_log_init]. *)
Definition log_init_message {cfg : sdkconfig} : string :=
  "Log capture initialized (ring buffer: " +:+ fmt_d LOG_MAX_LINES +:+ " entries)".

(** [mcp_log_init]; [create_ok] tells whether [xSemaphoreCreateMutex]
    returns a handle. Without one the function returns before the hook is
    installed. With one it installs [log_vprintf_hook] and then logs its
    message, which is therefore the first line that the hook receives;
    [now_ms] and [mutex_taken] are the clock and the outcome of the
    semaphore take of that first capture. *)
Definition mcp_log_init {cfg : sdkconfig} {elog : esp_log_lib} (create_ok : bool)
    (now_ms : Z) (mutex_taken : bool) (st : log_state) : esp_err_t * log_state :=
  let st1 := {| s_log_ring := s_log_ring st; s_log_head := s_log_head st;
                s_log_count := s_log_count st; s_log_mutex := create_ok |} in
  if create_ok then
    (ESP_OK,
     match ESP_LOGI "mcp_log" log_init_message with
     | Some formatted => log_vprintf_hook formatted now_ms mutex_taken st1
     | None => st1
     end)
  else (ESP_ERR_NO_MEM, st1).

(** Until the ring is full, the next write index is the number of entries
    stored. *)
Definition log_ring_linear {cfg : sdkconfig} (st : log_state) : Prop :=
  (s_log_count st < LOG_MAX_LINES)%Z -> s_log_head st = s_log_count st.


(** A line end, as the stripping loop of [log_vprintf_hook] tests it. *)
Definition is_line_end (c : ascii) : bool := Ascii.eqb c "010" || Ascii.eqb c "013".


(** What [lua_runtime_list_scripts] is meant to print: one line per file, in
    directory order. *)
Definition list_scripts_text (entries : list (string * string)) : string :=
  foldr (fun entry rest => list_scripts_line entry +:+ rest) "" entries.


(** ** lua_runtime.c: the default scripts

    The four texts that the firmware carries and writes to an empty store. *)
Definition default_di_container_lua : string :=
"local M = { providers = {}, bindings = {}, singletons = {} }

function M.reset()
    M.providers = {}
    M.bindings = {}
    M.singletons = {}
end

function M.provide(name, factory)
    assert(type(name) == 'string' and name ~= '', 'bad provider name')
    assert(type(factory) == 'function', 'factory must be function')
    M.providers[name] = factory
end

function M.bind(iface, provider, opts)
    assert(type(iface) == 'string' and iface ~= '', 'bad interface')
    assert(type(provider) == 'string' and provider ~= '', 'bad provider')
    M.bindings[iface] = { provider = provider, opts = opts or {} }
    M.singletons[iface] = nil
end

function M.resolve(iface)
    if M.singletons[iface] then
        return M.singletons[iface]
    end
    local b = assert(M.bindings[iface], 'no binding: ' .. iface)
    local f = assert(M.providers[b.provider], 'no provider: ' .. b.provider)
    local obj = f(b.opts, M)
    M.singletons[iface] = obj
    return obj
end

return M
".

Definition default_provider_ssd1306_lua : string :=
"local P = {}

local function cmd(addr, value)
    i2c.write(addr, 0x00, value)
end

local function set_pos(addr, col, page)
    cmd(addr, 0xB0 | (page & 0x07))
    cmd(addr, col & 0x0F)
    cmd(addr, 0x10 | ((col >> 4) & 0x0F))
end

local function send_page(addr, byte_value)
    local data = {0x40}
    for i = 1, 128 do
        data[i + 1] = byte_value
    end
    i2c.write(addr, data)
end

function P.factory(opts, _container)
    opts = opts or {}
    local addr = opts.addr or 0x3C
    local sda = opts.sda or 5
    local scl = opts.scl or 6
    local freq = opts.freq or 400000

    local o = {}

    function o:init()
        i2c.setup(sda, scl, freq)
        local init_seq = {
            0xAE,0xA8,0x3F,0xD3,0x00,0x40,0xA1,0xC8,0xDA,0x12,
            0x81,0xCF,0xA4,0xA6,0xD5,0x80,0xD9,0xF1,0xDB,0x40,
            0x8D,0x14,0x20,0x00,0xAF
        }
        for _, v in ipairs(init_seq) do
            cmd(addr, v)
        end
        o:clear()
    end

    function o:clear()
        for page = 0, 7 do
            set_pos(addr, 0, page)
            send_page(addr, 0x00)
        end
    end

    function o:fill(on)
        local value = on and 0xFF or 0x00
        for page = 0, 7 do
            set_pos(addr, 0, page)
            send_page(addr, value)
        end
    end

    function o:test_pattern(step)
        step = step or 0
        for page = 0, 7 do
            set_pos(addr, 0, page)
            local data = {0x40}
            for col = 0, 127 do
                local val = ((col + page + step) % 2 == 0) and 0xAA or 0x55
                data[col + 2] = val
            end
            i2c.write(addr, data)
        end
    end

    return o
end

return P
".

Definition default_bindings_lua : string :=
"return {
    display = {
        provider = 'ssd1306',
        opts = { addr = 0x3C, sda = 5, scl = 6, freq = 400000 }
    }
}
".

Definition default_main_lua : string :=
"log.info('main.lua (DI OLED case) started')

local container = dofile('/spiffs/di_container.lua')
local provider = dofile('/spiffs/provider_ssd1306.lua')
local bindings = dofile('/spiffs/bindings.lua')

container.reset()
container.provide('ssd1306', provider.factory)

for iface, b in pairs(bindings) do
    container.bind(iface, b.provider, b.opts)
end

local display = container.resolve('display')
display:init()
display:clear()

local step = 0
while true do
    display:test_pattern(step)
    log.info(string.format('DI display tick step=%d', step))
    step = (step + 1) % 16
    time.sleep_ms(1000)
end
".

(** [script_exists]: [stat] on the script's path succeeds. *)
Definition script_exists (fs : gmap string string) (name : string) : bool :=
  bool_decide (is_Some (fs !! script_path name)).

(** [fopen_ok] tells, for a path, whether [fopen (path, "w")] succeeds. *)
Definition write_script_if_missing (fopen_ok : string -> bool) (fs : gmap string string)
    (name content : string) : esp_err_t * gmap string string :=
  if script_exists fs name then (ESP_OK, fs)
  else if fopen_ok (script_path name)
  then (ESP_OK, <[script_path name := content]> fs)
  else (ESP_FAIL, fs).

Definition write_default_script (fopen_ok : string -> bool) (fs : gmap string string)
  : esp_err_t * gmap string string :=
  let '(ret, fs) :=
    write_script_if_missing fopen_ok fs "di_container.lua" default_di_container_lua in
  if bool_decide (ret ≠ ESP_OK) then (ret, fs)
  else
    let '(ret, fs) :=
      write_script_if_missing fopen_ok fs "provider_ssd1306.lua"
                              default_provider_ssd1306_lua in
    if bool_decide (ret ≠ ESP_OK) then (ret, fs)
    else
      let '(ret, fs) :=
        write_script_if_missing fopen_ok fs "bindings.lua" default_bindings_lua in
      if bool_decide (ret ≠ ESP_OK) then (ret, fs)
      else write_script_if_missing fopen_ok fs "main.lua" default_main_lua.

(** The names and texts of the default scripts, in the order in which
    [write_default_script] visits them. *)
Definition default_scripts : list (string * string) :=
  [("di_container.lua", default_di_container_lua);
   ("provider_ssd1306.lua", default_provider_ssd1306_lua);
   ("bindings.lua", default_bindings_lua);
   ("main.lua", default_main_lua)].

(** ** SPIFFS registration (esp_spiffs.h)

    The driver is not among the sources. What the model takes from its
    documentation: [esp_vfs_spiffs_register] may refuse before it touches
    the partition (no partition with the label, a file system already
    registered, no memory); otherwise it mounts the partition; when the
    mount fails and [format_if_mount_failed] is set, it formats the
    partition, which erases it, and mounts again. A partition is the files
    that a mount shows, or [None] when it does not mount. *)
Definition spiffs_partition : Type := option (gmap string string).

Inductive spiffs_refusal : Set :=
| SPIFFS_no_partition
| SPIFFS_already_registered
| SPIFFS_no_memory.

Definition spiffs_refusal_status (r : spiffs_refusal) : esp_err_t :=
  match r with
  | SPIFFS_no_partition => ESP_ERR_NOT_FOUND
  | SPIFFS_already_registered => ESP_ERR_INVALID_STATE
  | SPIFFS_no_memory => ESP_ERR_NO_MEM
  end.

(** What the driver answers during one registration. *)
Record spiffs_driver := {
  spiffs_refuses : option spiffs_refusal;
  spiffs_format_ok : bool;
  spiffs_remount_ok : bool
}.

Definition esp_vfs_spiffs_register (format_if_mount_failed : bool) (drv : spiffs_driver)
    (part : spiffs_partition) : esp_err_t * spiffs_partition :=
  match spiffs_refuses drv with
  | Some r => (spiffs_refusal_status r, part)
  | None =>
      match part with
      | Some fs => (ESP_OK, Some fs)
      | None =>
          if format_if_mount_failed then
            if spiffs_format_ok drv then
              (if spiffs_remount_ok drv then ESP_OK else ESP_FAIL, Some ∅)
            else (ESP_FAIL, None)
          else (ESP_FAIL, None)
      end
  end.

(** [spiffs_init]: the registration, with [format_if_mount_failed] set. *)
Definition spiffs_init (drv : spiffs_driver) (part : spiffs_partition)
  : esp_err_t * spiffs_partition :=
  esp_vfs_spiffs_register true drv part.

(** [lua_runtime_init]; [fresh_vm] is what [create_vm] returns. The function
    writes the store and the static [L]. Without a file system under
    /spiffs no file can be opened. *)
Definition lua_runtime_init {lua : lua_lib} (drv : spiffs_driver)
    (fopen_ok : string -> bool) (fresh_vm : option lua_State)
    (part : spiffs_partition) (s : lua_runtime)
  : esp_err_t * spiffs_partition * lua_runtime :=
  let '(ret, part) := spiffs_init drv part in
  if bool_decide (ret ≠ ESP_OK) then (ret, part, s)
  else
    match part with
    | None => (ESP_FAIL, None, s)
    | Some fs =>
        let '(ret, fs) := write_default_script fopen_ok fs in
        if bool_decide (ret ≠ ESP_OK) then (ret, Some fs, s)
        else
          (if fresh_vm is Some _ then ESP_OK else ESP_FAIL,
           Some fs,
           {| L := fresh_vm; lua_task_handle := lua_task_handle s;
              lua_task_running := lua_task_running s;
              kernel_tasks := kernel_tasks s;
              kernel_next_handle := kernel_next_handle s |})
    end.

(** The part of [app_main] that brings up the scripting runtime: the task
    is started only when the initialisation succeeded. *)
Definition app_main_lua {lua : lua_lib} (drv : spiffs_driver)
    (fopen_ok : string -> bool) (fresh_vm : option lua_State) (xTaskCreate_ok : bool)
    (part : spiffs_partition) (s : lua_runtime)
  : spiffs_partition * lua_runtime :=
  let '(lua_ret, part, s) := lua_runtime_init drv fopen_ok fresh_vm part s in
  if bool_decide (lua_ret = ESP_OK)
  then (part, (lua_runtime_start xTaskCreate_ok s).1.2)
  else (part, s).

(** A driver that finds the partition and can format it. *)
Definition sample_spiffs_driver : spiffs_driver :=
  {| spiffs_refuses := None; spiffs_format_ok := true; spiffs_remount_ok := true |}.

(** The statics of [lua_runtime.c] as the loader leaves them. *)
Definition lua_statics_zero {lua : lua_lib} : lua_runtime :=
  {| L := None; lua_task_handle := None; lua_task_running := false;
     kernel_tasks := []; kernel_next_handle := 1 |}.

(** [fs'] has every file of [fs] unchanged, and any other file of [fs'] is a
    default script with its default text. *)
Definition adds_defaults_only (fs fs' : gmap string string) : Prop :=
  (forall path text : string, fs !! path = Some text -> fs' !! path = Some text) /\
  (forall path : string,
      fs !! path = None -> is_Some (fs' !! path) ->
      exists name content : string,
        (name, content) ∈ default_scripts /\ path = script_path name /\
        fs' !! path = Some content).



(** A task exists only together with an interpreter: [lua_task] runs
    [luaL_dofile (L, ...)] as soon as it is scheduled. *)
Definition rt_task_has_vm {lua : lua_lib} (s : lua_runtime) : Prop :=
  kernel_tasks s <> [] -> is_Some (L s).


(** ** lua_runtime.c: the I2C bus, its device cache and the write buffer

    Handles of the driver are opaque; a natural number stands for one, and
    [None] for NULL. *)

Definition I2C_MAX_DEVICES : nat := 4.
Definition I2C_WRITE_BUF_SZ : nat := 256.

Definition i2c_master_bus_handle_t : Set := nat.
Definition i2c_master_dev_handle_t : Set := nat.

(** The statics [i2c_bus_handle], [i2c_bus_freq] and [i2c_dev_cache]; the
    list holds the first [i2c_dev_count] elements of the array. *)
Record i2c_state := {
  i2c_bus_handle : option i2c_master_bus_handle_t;
  i2c_bus_freq : Z;
  i2c_dev_cache : list (Z * i2c_master_dev_handle_t)
}.

Definition i2c_dev_count (st : i2c_state) : nat := length (i2c_dev_cache st).

(** [(uint16_t) z], [(uint32_t) z] and [(uint8_t) z]. *)
Definition uint16_of_int (z : Z) : Z := (z mod 65536)%Z.
Definition uint32_of_int (z : Z) : Z := (z mod 4294967296)%Z.
Definition uint8_of_int (z : Z) : Z := (z mod 256)%Z.

(** The search loop of [i2c_get_device]. *)
Fixpoint i2c_cache_find (cache : list (Z * i2c_master_dev_handle_t)) (addr : Z)
  : option i2c_master_dev_handle_t :=
  match cache with
  | [] => None
  | (a, handle) :: cache' =>
      if (a =? addr)%Z then Some handle else i2c_cache_find cache' addr
  end.

(** [i2c_get_device (addr)]; [add_device] is the handle that
    [i2c_master_bus_add_device] would give, [None] when it would fail. *)
Definition i2c_get_device (add_device : option i2c_master_dev_handle_t) (addr : Z)
    (st : i2c_state) : option i2c_master_dev_handle_t * i2c_state :=
  match i2c_cache_find (i2c_dev_cache st) addr with
  | Some handle => (Some handle, st)
  | None =>
      if bool_decide (i2c_bus_handle st = None)
         || (I2C_MAX_DEVICES <=? i2c_dev_count st)%nat
      then (None, st)
      else
        match add_device with
        | None => (None, st)
        | Some dev =>
            (Some dev,
             {| i2c_bus_handle := i2c_bus_handle st; i2c_bus_freq := i2c_bus_freq st;
                i2c_dev_cache := i2c_dev_cache st ++ [(addr, dev)] |})
        end
  end.

(** What a C function called from Lua does: return some results, or raise
    an error through [luaL_error] with a format and its arguments. *)
Inductive lua_call : Type :=
| LuaReturns (nresults : nat)
| LuaRaises (format : string) (arguments : list (Z + string)).

(** [l_i2c_setup], after its three arguments have been read; [new_bus] is
    what [i2c_new_master_bus] answers. The third component lists the device
    handles given back to the driver. *)
Definition l_i2c_setup (new_bus : i2c_master_bus_handle_t + esp_err_t) (sda scl freq : Z)
    (st : i2c_state) : lua_call * i2c_state * list i2c_master_dev_handle_t :=
  let '(cache, removed) :=
    match i2c_bus_handle st with
    | Some _ => ([], map snd (i2c_dev_cache st))
    | None => (i2c_dev_cache st, [])
    end in
  match new_bus with
  | inl bus =>
      (LuaReturns 0,
       {| i2c_bus_handle := Some bus; i2c_bus_freq := uint32_of_int freq;
          i2c_dev_cache := cache |},
       removed)
  | inr ret =>
      (LuaRaises "i2c.setup failed: %s" [inr (esp_err_to_name ret)],
       {| i2c_bus_handle := None; i2c_bus_freq := uint32_of_int freq;
          i2c_dev_cache := cache |},
       removed)
  end.

(** An argument of [i2c.write] as the C API shows it: an integer; a value
    that [lua_isstring] accepts, with its bytes; a table, with what
    [lua_tointeger] gives for its elements 1 to [luaL_len]; anything
    else. *)
Inductive lua_value : Type :=
| LuaInteger (i : Z)
| LuaString (bytes : list Z)
| LuaTable (elements : list Z)
| LuaOther.

(** The inner loops of [l_i2c_write]: bytes are stored while [len] is below
    the size of the buffer. *)
Fixpoint i2c_buf_store (bytes : list Z) (buf : list Z) : list Z :=
  match bytes with
  | [] => buf
  | byte :: bytes' =>
      if (length buf <? I2C_WRITE_BUF_SZ)%nat
      then i2c_buf_store bytes' (buf ++ [uint8_of_int byte])
      else buf
  end.

(** The outer loop of [l_i2c_write] over the arguments 2 to [nargs]. *)
Fixpoint i2c_write_collect (args : list lua_value) (buf : list Z) : list Z :=
  match args with
  | [] => buf
  | arg :: args' =>
      if (length buf <? I2C_WRITE_BUF_SZ)%nat then
        i2c_write_collect args'
          match arg with
          | LuaInteger i => buf ++ [uint8_of_int i]
          | LuaString bytes => i2c_buf_store bytes buf
          | LuaTable elements => i2c_buf_store elements buf
          | LuaOther => buf
          end
      else buf
  end.

(** [l_i2c_write], after [addr] has been read; [transmit] is what
    [i2c_master_transmit] answers. The third component is the transfer
    handed to the driver, if any. *)
Definition l_i2c_write (add_device : option i2c_master_dev_handle_t)
    (transmit : esp_err_t) (addr : Z) (args : list lua_value) (st : i2c_state)
  : lua_call * i2c_state * option (i2c_master_dev_handle_t * list Z) :=
  let buf := i2c_write_collect args [] in
  if (length buf =? 0)%nat then (LuaReturns 0, st, None)
  else
    match i2c_get_device add_device (uint16_of_int addr) st with
    | (None, st') => (LuaRaises "i2c: cannot get device 0x%02X" [inl addr], st', None)
    | (Some dev, st') =>
        if bool_decide (transmit ≠ ESP_OK)
        then (LuaRaises "i2c.write failed: %s" [inr (esp_err_to_name transmit)],
              st', Some (dev, buf))
        else (LuaReturns 0, st', Some (dev, buf))
    end.

(** The bytes an argument of [i2c.write] stands for. *)
Definition lua_value_bytes (arg : lua_value) : list Z :=
  match arg with
  | LuaInteger i => [uint8_of_int i]
  | LuaString bytes => map uint8_of_int bytes
  | LuaTable elements => map uint8_of_int elements
  | LuaOther => []
  end.

(** What the statics of the I2C cache keep true: at most
    [I2C_MAX_DEVICES] devices, no address twice, and no device without a
    bus. *)
Definition i2c_cache_wf (st : i2c_state) : Prop :=
  i2c_dev_count st <= I2C_MAX_DEVICES /\
  NoDup (map fst (i2c_dev_cache st)) /\
  (i2c_bus_handle st = None -> i2c_dev_cache st = []).

(** A bus with one cached device. *)
Definition sample_i2c : i2c_state :=
  {| i2c_bus_handle := Some 1; i2c_bus_freq := 400000; i2c_dev_cache := [(60%Z, 7)] |}.


(** ** Values for the script store: a script sent in two chunks *)

Fixpoint str_replicate (n : nat) (c : ascii) : string :=
  match n with
  | O => EmptyString
  | S n' => String c (str_replicate n' c)
  end.

(** A chunk of 1100 bytes of a Lua comment. *)
Definition script_chunk : string := "--" +:+ str_replicate 1097 "x" +:+ nl.


(** ** The trees that JSON text represents

    The values for which printing and parsing are expected to be inverse:
    null, the booleans, numbers, strings, arrays and objects. A number has
    its two fields as [cJSON_CreateNumber] and the parser set them: it is a
    C [int] with its conversion to double, or a finite double other than
    zero with its truncated, saturated integer field. (NaN and the
    infinities are no JSON numbers, and a negative zero is read back as
    zero.) A C string holds no NUL byte. The node kinds without a value
    syntax are left out. *)

Definition json_number (valueint : Z) (valuedouble : float) : Prop :=
  ((INT_MIN <= valueint <= INT_MAX)%Z /\ valuedouble = double_of_int valueint) \/
  ((exists (s : bool) (m : positive) (e : Z), Prim2SF valuedouble = S754_finite s m e) /\
   valueint = int_of_double valuedouble).

Definition no_nul (c : ascii) : bool := negb (Ascii.eqb c "000").

Fixpoint json_plain (v : cJSON) : Prop :=
  match v with
  | cJSON_False | cJSON_True | cJSON_NULL => True
  | cJSON_Number valueint valuedouble => json_number valueint valuedouble
  | cJSON_String s => str_forall no_nul s = true
  | cJSON_Array items => fold_right (fun x P => json_plain x /\ P) True items
  | cJSON_Object items =>
      fold_right (fun (m : string * cJSON) P =>
                    (str_forall no_nul m.1 = true /\ json_plain m.2) /\ P) True items
  | cJSON_Raw _ => False
  end.

(** How deep arrays and objects are nested; cJSON's parser gives up beyond
    CJSON_NESTING_LIMIT. *)
Fixpoint json_depth (v : cJSON) : nat :=
  match v with
  | cJSON_Array items => S (fold_right (fun x n => Nat.max (json_depth x) n) 0 items)
  | cJSON_Object items =>
      S (fold_right (fun (m : string * cJSON) n => Nat.max (json_depth m.2) n) 0 items)
  | _ => 0
  end.

Definition CJSON_NESTING_LIMIT : nat := 1000.

Definition json_representable (v : cJSON) : Prop :=
  json_plain v /\ json_depth v <= CJSON_NESTING_LIMIT.

(** A codec reads back what it prints. *)
Definition codec_reads_back (codec : cJSON_codec) : Prop :=
  forall v : cJSON,
    json_representable v -> cJSON_Parse (cJSON_PrintUnformatted v) = Some v.


(** *** The reference codec, for the proofs about it *)

(** The fuel that [RefCodec.parse_value] needs for the text of a tree. *)
Fixpoint json_need (v : cJSON) : nat :=
  match v with
  | cJSON_Array items => S (fold_right (fun x n => S (json_need x) + n) 0 items)
  | cJSON_Object items =>
      S (fold_right (fun (m : string * cJSON) n => S (json_need m.2) + n) 0 items)
  | _ => 1
  end.

(** The two loops of [RefCodec.print] under names of their own. *)
Fixpoint print_elements (l : list cJSON) : string :=
  match l with
  | [] => ""
  | x :: l' =>
      RefCodec.print x +:+ match l' with [] => "" | _ => "," +:+ print_elements l' end
  end.

Fixpoint print_members (l : list (string * cJSON)) : string :=
  match l with
  | [] => ""
  | (k, x) :: l' =>
      RefCodec.print_string k +:+ ":" +:+ RefCodec.print x +:+
      match l' with [] => "" | _ => "," +:+ print_members l' end
  end.

(** What may follow a value inside a JSON text. *)
Definition delimited (rest : string) : Prop :=
  match rest with
  | EmptyString => True
  | String c _ => c = ","%char \/ c = "]"%char \/ c = "}"%char
  end.

Definition no_digit (s : string) : Prop :=
  match s with
  | EmptyString => True
  | String c _ => digit_of c = None
  end.

(** [RefCodec.parse_value] recovers a tree from its text, whatever
    delimiter follows. *)
Definition round_trip (v : cJSON) : Prop :=
  json_plain v ->
  forall (fuel : nat) (rest : string),
    json_need v <= fuel -> delimited rest ->
    RefCodec.parse_value fuel (RefCodec.print v +:+ rest) = Some (v, rest).

(* ===================================================================== *)
(** * Part II: theorems                                                    *)
(* ===================================================================== *)

(** ** Strings *)

Lemma str_app_nil_l (s : string) : "" +:+ s = s.
Proof. reflexivity. Qed.

Lemma str_app_cons (c : ascii) (a b : string) : String c a +:+ b = String c (a +:+ b).
Proof. reflexivity. Qed.

Lemma str_app_nil_r (s : string) : s +:+ "" = s.
Proof.
  induction s as [|c s IH]; [reflexivity |]. by rewrite str_app_cons, IH.
Qed.

Lemma str_app_assoc (a b c : string) : (a +:+ b) +:+ c = a +:+ (b +:+ c).
Proof.
  induction a as [|x a IH]; [reflexivity |]. by rewrite !str_app_cons, IH.
Qed.

Lemma str_length_app (a b : string) :
  String.length (a +:+ b) = String.length a + String.length b.
Proof.
  induction a as [|x a IH]; [reflexivity |]. rewrite str_app_cons. simpl. by rewrite IH.
Qed.

Lemma str_take_all (n : nat) (s : string) :
  String.length s <= n -> str_take n s = s.
Proof.
  revert n; induction s as [|c s IH]; intros [|n] Hn; simpl in *; try reflexivity; try lia.
  rewrite IH; [reflexivity | lia].
Qed.

Lemma str_take_length (n : nat) (s : string) :
  String.length (str_take n s) = Nat.min n (String.length s).
Proof.
  revert n; induction s as [|c s IH]; intros [|n]; simpl; try reflexivity.
  by rewrite IH.
Qed.

Lemma str_take_app_l (n : nat) (a b : string) :
  n <= String.length a -> str_take n (a +:+ b) = str_take n a.
Proof.
  revert n; induction a as [|c a IH]; intros [|n] Hn; simpl in Hn; try lia;
    try reflexivity.
  rewrite str_app_cons. simpl. rewrite IH; [reflexivity | lia].
Qed.

Lemma str_take_app_r (n : nat) (a b : string) :
  String.length a <= n -> str_take n (a +:+ b) = a +:+ str_take (n - String.length a) b.
Proof.
  revert n; induction a as [|c a IH]; intros n Hn; simpl in *.
  - by rewrite Nat.sub_0_r.
  - destruct n as [|n]; [lia |]. rewrite !str_app_cons. simpl.
    rewrite IH; [reflexivity | lia].
Qed.

Lemma str_take_drop (n : nat) (s : string) : str_take n s +:+ str_drop n s = s.
Proof.
  revert n; induction s as [|c s IH]; intros [|n]; simpl; try reflexivity.
  by rewrite str_app_cons, IH.
Qed.

Lemma snprintf_fits (max_len : nat) (s : string) :
  String.length s < max_len -> snprintf max_len s = s.
Proof. intros Hlt. unfold snprintf. apply str_take_all. lia. Qed.

(** *** What ["%d"] prints *)

Lemma pretty_N_char_decimal (x : N) : is_decimal_char (pretty_N_char x) = true.
Proof.
  unfold pretty_N_char.
  repeat (match goal with
          | |- context [match ?p with _ => _ end] => destruct p
          end; try reflexivity).
Qed.

Lemma pretty_N_go_decimal (x : N) :
  forall s : string,
    str_forall is_decimal_char s = true ->
    str_forall is_decimal_char (pretty_N_go x s) = true.
Proof.
  induction x as [x IH] using (well_founded_induction N.lt_wf_0). intros s Hs.
  destruct (decide (0 < x)%N) as [Hpos | Hzero].
  - rewrite pretty_N_go_step by done. apply IH.
    + apply N.div_lt; [done | reflexivity].
    + simpl. by rewrite pretty_N_char_decimal.
  - replace x with 0%N by lia. by rewrite pretty_N_go_0.
Qed.

Lemma fmt_d_decimal (z : Z) : str_forall is_decimal_char (fmt_d z) = true.
Proof.
  unfold fmt_d, pretty, pretty_Z.
  assert (HN : forall n : N, str_forall is_decimal_char (pretty n) = true).
  { intros n. unfold pretty, pretty_N. case_decide; [reflexivity |].
    by apply pretty_N_go_decimal. }
  destruct z as [|p|p]; [reflexivity | apply HN |].
  rewrite str_app_cons, str_app_nil_l. simpl. apply HN.
Qed.

Lemma str_forall_no_strstr (ok : ascii -> bool) (s : string) (c : ascii) :
  ok c = false -> str_forall ok s = true -> strstr s (String c EmptyString) = false.
Proof.
  intros Hc. induction s as [|x s IH]; simpl; [reflexivity |].
  intros [Hx Hs]%andb_true_iff.
  destruct (Ascii.eqb_spec c x) as [-> | Hne]; [congruence |].
  simpl. destruct (ascii_dec c x); [done |]. by apply IH.
Qed.

(** An integer is printed without a decimal point. *)
Lemma fmt_d_no_point (z : Z) : strstr (fmt_d z) "." = false.
Proof. apply (str_forall_no_strstr is_decimal_char); [reflexivity | apply fmt_d_decimal]. Qed.

(** ** Induction over value trees *)

Section cJSON_induction.
Variable P : cJSON -> Prop.
Hypothesis HFalse : P cJSON_False.
Hypothesis HTrue : P cJSON_True.
Hypothesis HNULL : P cJSON_NULL.
Hypothesis HNumber : forall valueint valuedouble, P (cJSON_Number valueint valuedouble).
Hypothesis HString : forall s, P (cJSON_String s).
Hypothesis HArray : forall items, Forall P items -> P (cJSON_Array items).
Hypothesis HObject :
  forall items, Forall (fun member => P member.2) items -> P (cJSON_Object items).
Hypothesis HRaw : forall s, P (cJSON_Raw s).

(** Induction over a tree, with the property known for every child. *)
Fixpoint cJSON_tree_ind (v : cJSON) : P v :=
  match v with
  | cJSON_False => HFalse
  | cJSON_True => HTrue
  | cJSON_NULL => HNULL
  | cJSON_Number valueint valuedouble => HNumber valueint valuedouble
  | cJSON_String s => HString s
  | cJSON_Array items =>
      HArray items
        ((fix children (l : list cJSON) : Forall P l :=
            match l with
            | [] => List.Forall_nil P
            | x :: l' => @List.Forall_cons _ P x l' (cJSON_tree_ind x) (children l')
            end) items)
  | cJSON_Object items =>
      HObject items
        ((fix children (l : list (string * cJSON)) : Forall (fun m => P m.2) l :=
            match l with
            | [] => List.Forall_nil _
            | m :: l' => @List.Forall_cons _ (fun m => P m.2) m l' (cJSON_tree_ind m.2) (children l')
            end) items)
  | cJSON_Raw s => HRaw s
  end.
End cJSON_induction.

(** ** The reference codec reads back what it prints *)

(** *** A converted [int] equals itself as a double *)
Lemma SFeqb_refl (f : spec_float) : f <> S754_nan -> SFeqb f f = true.
Proof.
  destruct f as [s|s| |s m e]; intros Hnan; try done; unfold SFeqb; simpl.
  - by destruct s.
  - destruct s; rewrite Z.compare_refl, Pos.compare_cont_refl; reflexivity.
Qed.

Lemma shr_1_nonneg (mrs : shr_record) : (0 <= shr_m mrs -> 0 <= shr_m (shr_1 mrs))%Z.
Proof. destruct mrs as [[|[p|p|]|[p|p|]] r s]; simpl; lia. Qed.

Lemma iter_pos_shr_1_nonneg (p : positive) :
  forall mrs : shr_record, (0 <= shr_m mrs -> 0 <= shr_m (SpecFloat.iter_pos shr_1 p mrs))%Z.
Proof.
  induction p as [p IH|p IH|]; intros mrs Hm; simpl.
  - apply IH, IH. by apply shr_1_nonneg.
  - by apply IH, IH.
  - by apply shr_1_nonneg.
Qed.

Lemma shr_fexp_nonneg (m e : Z) (l : location) :
  (0 <= m -> 0 <= shr_m (shr_fexp prec emax m e l).1)%Z.
Proof.
  intros Hm. unfold shr_fexp, shr.
  assert (Hrec : (0 <= shr_m (shr_record_of_loc m l))%Z) by (by destruct l as [|[]]).
  destruct (_ - e)%Z; simpl; try done. by apply iter_pos_shr_1_nonneg.
Qed.

Lemma binary_round_aux_not_nan (sx : bool) (mx ex : Z) (lx : location) :
  (0 <= mx)%Z -> binary_round_aux prec emax sx mx ex lx <> S754_nan.
Proof.
  intros Hm. unfold binary_round_aux.
  pose proof (shr_fexp_nonneg mx ex lx Hm) as H1.
  destruct (shr_fexp prec emax mx ex lx) as [mrs' e']. simpl in H1.
  set (m2 := round_nearest_even (shr_m mrs') (loc_of_shr_record mrs')).
  assert (H2 : (0 <= m2)%Z).
  { subst m2. unfold round_nearest_even.
    destruct (loc_of_shr_record mrs') as [|[]]; try lia.
    destruct (Z.even (shr_m mrs')); lia. }
  pose proof (shr_fexp_nonneg m2 e' loc_Exact H2) as H3.
  destruct (shr_fexp prec emax m2 e' loc_Exact) as [mrs'' e'']. simpl in H3.
  destruct (shr_m mrs'') as [|m|m]; [done | | lia].
  by destruct (e'' <=? emax - prec)%Z.
Qed.

Lemma of_uint63_not_nan (n : int) : Prim2SF (of_uint63 n) <> S754_nan.
Proof.
  rewrite FloatAxioms.of_uint63_spec. unfold binary_normalize.
  destruct (to_Z n) as [|m|m]; [done | |]; unfold binary_round;
    destruct (shl_align _ _ _) as [mz ez]; by apply binary_round_aux_not_nan.
Qed.

Lemma double_of_int_eqb_refl (z : Z) :
  PrimFloat.eqb (double_of_int z) (double_of_int z) = true.
Proof.
  rewrite FloatAxioms.eqb_spec. apply SFeqb_refl.
  unfold double_of_int. destruct (z <? 0)%Z; [| apply of_uint63_not_nan].
  rewrite FloatAxioms.opp_spec. pose proof (of_uint63_not_nan (of_Z (- z))) as Hnan.
  by destruct (Prim2SF (of_uint63 (of_Z (- z)))).
Qed.

(** *** A double is found again from its mantissa and exponent *)
Lemma digits2_pos_shift (m p : positive) :
  digits2_pos (m * 2 ^ p) = (digits2_pos m + p)%positive.
Proof.
  induction p as [|p IH] using Pos.peano_ind.
  - rewrite Pos.pow_1_r. change 2%positive with (1~0)%positive.
    rewrite Pos.mul_xO_r, Pos.mul_1_r. simpl. lia.
  - rewrite Pos.pow_succ_r. change (2 * 2 ^ p)%positive with ((2 ^ p)~0)%positive.
    rewrite Pos.mul_xO_r. simpl. rewrite IH. lia.
Qed.

Lemma iter_pos_nat {A : Type} (f : A -> A) (p : positive) :
  forall x : A, SpecFloat.iter_pos f p x = Nat.iter (Pos.to_nat p) f x.
Proof.
  assert (Hadd : forall (a b : nat) (x : A),
             Nat.iter (a + b) f x = Nat.iter a f (Nat.iter b f x)).
  { intros a b x. induction a as [|a IH]; simpl; [done | by rewrite IH]. }
  induction p as [p IH|p IH|]; intros x; cbn [SpecFloat.iter_pos].
  - rewrite !IH. rewrite Pos2Nat.inj_xI.
    replace (S (2 * Pos.to_nat p)) with (Pos.to_nat p + (Pos.to_nat p + 1)) by lia.
    rewrite !Hadd. reflexivity.
  - rewrite !IH. rewrite Pos2Nat.inj_xO.
    replace (2 * Pos.to_nat p) with (Pos.to_nat p + Pos.to_nat p) by lia.
    by rewrite Hadd.
  - reflexivity.
Qed.

Lemma iter_shr_1_shift (n : nat) :
  forall m : positive,
    Nat.iter n shr_1 {| shr_m := Z.pos m * 2 ^ Z.of_nat n; shr_r := false; shr_s := false |}
    = {| shr_m := Z.pos m; shr_r := false; shr_s := false |}.
Proof.
  induction n as [|n IH]; intros m.
  - simpl. f_equal. lia.
  - rewrite Nat.iter_succ_r.
    replace (Z.pos m * 2 ^ Z.of_nat (S n))%Z with (Z.pos ((m * 2 ^ Pos.of_succ_nat n)))%Z.
    2:{ by rewrite Pos2Z.inj_mul, Pos2Z.inj_pow. }
    destruct (m * 2 ^ Pos.of_succ_nat n)%positive as [q|q|] eqn:Hq.
    + exfalso. assert (Heven : Z.even (Z.pos (m * 2 ^ Pos.of_succ_nat n)) = true).
      { rewrite Pos2Z.inj_mul, Pos2Z.inj_pow, Z.even_mul.
        rewrite (Z.even_pow 2) by lia. apply orb_true_r. }
      by rewrite Hq in Heven.
    + cbn [shr_1]. simpl orb.
      replace (Z.pos q) with (Z.pos m * 2 ^ Z.of_nat n)%Z; [apply IH |].
      assert (Hz : (Z.pos q~0 = Z.pos m * 2 ^ Z.of_nat (S n))%Z).
      { by rewrite <- Hq, Pos2Z.inj_mul, Pos2Z.inj_pow. }
      rewrite Nat2Z.inj_succ, Z.pow_succ_r in Hz by lia. lia.
    + exfalso. assert (Heven : Z.even (Z.pos (m * 2 ^ Pos.of_succ_nat n)) = true).
      { rewrite Pos2Z.inj_mul, Pos2Z.inj_pow, Z.even_mul.
        rewrite (Z.even_pow 2) by lia. apply orb_true_r. }
      by rewrite Hq in Heven.
Qed.

Lemma binary_normalize_exact (s : bool) (m : positive) (e j : Z) (szero : bool) :
  SpecFloat.valid_binary prec emax (S754_finite s m e) = true ->
  (0 <= j)%Z ->
  binary_normalize prec emax (cond_Zopp s (Z.pos m * 2 ^ j)) (e - j) szero
  = S754_finite s m e.
Proof.
  intros Hvalid Hj. simpl in Hvalid. unfold bounded in Hvalid.
  apply andb_true_iff in Hvalid as [Hcanon Hbound].
  unfold canonical_mantissa in Hcanon. apply Z.eqb_eq in Hcanon.
  assert (Hshift : exists q : positive,
             (Z.pos m * 2 ^ j = Z.pos q)%Z /\
             (Z.pos (digits2_pos q) = Z.pos (digits2_pos m) + j)%Z).
  { destruct j as [|p|p]; [| | lia].
    - exists m. split; lia.
    - exists (m * 2 ^ p)%positive. split.
      + by rewrite Pos2Z.inj_mul, Pos2Z.inj_pow.
      + rewrite digits2_pos_shift. lia. }
  destruct Hshift as (q & Hq & Hdigits).
  assert (Hround : binary_round prec emax s q (e - j) = S754_finite s m e).
  { unfold binary_round.
    replace (Z.pos (digits2_pos q) + (e - j))%Z with (Z.pos (digits2_pos m) + e)%Z by lia.
    rewrite Hcanon. unfold shl_align.
    replace (e - (e - j))%Z with j by lia.
    assert (Halign : match j with
                     | Z.neg d => (Pos.iter xO q d, e)
                     | _ => (q, (e - j)%Z)
                     end = (q, (e - j)%Z)) by (destruct j; [done | done | lia]).
    rewrite Halign. unfold binary_round_aux.
    assert (Hfirst : shr_fexp prec emax (Z.pos q) (e - j) loc_Exact
                     = ({| shr_m := Z.pos m; shr_r := false; shr_s := false |}, e)).
    { unfold shr_fexp. cbn [Zdigits2 shr_record_of_loc].
      replace (Z.pos (digits2_pos q) + (e - j))%Z with (Z.pos (digits2_pos m) + e)%Z by lia.
      rewrite Hcanon. replace (e - (e - j))%Z with j by lia.
      unfold shr. destruct j as [|p|p]; [| | lia].
      - f_equal; [f_equal; lia | lia].
      - f_equal; [| lia]. rewrite iter_pos_nat, <- Hq.
        rewrite <- (positive_nat_Z p). apply iter_shr_1_shift. }
    rewrite Hfirst. cbn [shr_m loc_of_shr_record round_nearest_even].
    assert (Hsecond : shr_fexp prec emax (Z.pos m) e loc_Exact
                      = ({| shr_m := Z.pos m; shr_r := false; shr_s := false |}, e)).
    { unfold shr_fexp. cbn [Zdigits2 shr_record_of_loc]. rewrite Hcanon.
      rewrite Z.sub_diag. reflexivity. }
    rewrite Hsecond. cbn [shr_m]. by rewrite Hbound. }
  rewrite Hq. destruct s; exact Hround.
Qed.

Lemma eqb_finite_eq (x y : float) (s : bool) (m : positive) (e : Z) :
  Prim2SF x = S754_finite s m e -> PrimFloat.eqb x y = true -> x = y.
Proof.
  intros Hx Heq. rewrite FloatAxioms.eqb_spec, Hx in Heq.
  rewrite <- (SF2Prim_Prim2SF x), <- (SF2Prim_Prim2SF y). f_equal. rewrite Hx.
  unfold SFeqb in Heq.
  destruct (Prim2SF y) as [s2|s2| |s2 m2 e2]; simpl in Heq;
    try (by destruct s); try (by destruct s, s2); try done.
  destruct s, s2; try done.
  - destruct (Z.compare_spec e e2) as [-> | |]; try done.
    destruct (Pos.compare_cont Eq m m2) eqn:Hm; try done.
    by apply (Pos.compare_eq m m2) in Hm; subst.
  - destruct (Z.compare_spec e e2) as [-> | |]; try done.
    destruct (Pos.compare_cont Eq m m2) eqn:Hm; try done.
    by apply (Pos.compare_eq m m2) in Hm; subst.
Qed.

Lemma saturate32_range (z : Z) : (INT_MIN <= saturate32 z <= INT_MAX)%Z.
Proof. unfold saturate32, INT_MIN, INT_MAX. lia. Qed.

(** *** Decimal digits, printed and read *)
Lemma digit_of_pretty_N_char (d : N) :
  (d < 10)%N -> digit_of (pretty_N_char d) = Some (Z.of_N d).
Proof.
  intros Hd.
  assert (Hcases : (d = 0 \/ d = 1 \/ d = 2 \/ d = 3 \/ d = 4 \/ d = 5 \/ d = 6 \/
                    d = 7 \/ d = 8 \/ d = 9)%N) by lia.
  repeat (destruct Hcases as [-> | Hcases]; [reflexivity |]). by subst d.
Qed.

Lemma parse_digits_pretty_N_go (x : N) :
  exists k : Z,
    (0 <= k)%Z /\
    forall (acc : Z) (s : string),
      RefCodec.parse_digits acc (pretty_N_go x s)
      = RefCodec.parse_digits (acc * 10 ^ k + Z.of_N x) s.
Proof.
  induction x as [x IH] using (well_founded_induction N.lt_wf_0).
  destruct (decide (0 < x)%N) as [Hpos | Hzero].
  - destruct (IH (x `div` 10)%N) as (k & Hk & Hrun).
    { apply N.div_lt; [done | reflexivity]. }
    exists (k + 1)%Z. split; [lia |]. intros acc s.
    rewrite pretty_N_go_step by done. rewrite Hrun. simpl.
    rewrite digit_of_pretty_N_char by (apply N.mod_lt; lia).
    f_equal. rewrite Z.pow_add_r by lia.
    pose proof (N.div_mod x 10 ltac:(lia)) as Hdiv.
    rewrite N2Z.inj_div, N2Z.inj_mod. 
    pose proof (Z.div_mod (Z.of_N x) 10 ltac:(lia)). simpl (Z.of_N 10). lia.
  - exists 0%Z. split; [lia |]. intros acc s.
    replace x with 0%N by lia. rewrite pretty_N_go_0. f_equal. simpl. lia.
Qed.

Lemma pretty_N_go_app (x : N) :
  forall s r : string, pretty_N_go x s +:+ r = pretty_N_go x (s +:+ r).
Proof.
  induction x as [x IH] using (well_founded_induction N.lt_wf_0). intros s r.
  destruct (decide (0 < x)%N) as [Hpos | Hzero].
  - rewrite (pretty_N_go_step x s), (pretty_N_go_step x (s +:+ r)) by done.
    rewrite IH by (apply N.div_lt; [done | reflexivity]). reflexivity.
  - replace x with 0%N by lia. by rewrite !pretty_N_go_0.
Qed.

Lemma pretty_N_go_head (x : N) :
  forall s : string,
    (0 < x)%N ->
    exists (c : ascii) (t : string) (d : Z),
      pretty_N_go x s = String c t /\ digit_of c = Some d.
Proof.
  induction x as [x IH] using (well_founded_induction N.lt_wf_0). intros s Hpos.
  rewrite pretty_N_go_step by done.
  destruct (decide (0 < x `div` 10)%N) as [Hmore | Hlast].
  - apply IH; [| done]. apply N.div_lt; [done | reflexivity].
  - assert (Hnone : (x `div` 10 = 0)%N) by (by apply N.le_0_r, N.nlt_ge).
    rewrite Hnone, pretty_N_go_0.
    do 3 eexists. split; [reflexivity |].
    apply digit_of_pretty_N_char, N.mod_lt. lia.
Qed.

(** The decimal digits of a natural number, followed by [r]. *)
Lemma pretty_N_app (x : N) (r : string) :
  pretty x +:+ r = if decide (x = 0%N) then String "0" r else pretty_N_go x r.
Proof.
  unfold pretty, pretty_N. destruct (decide (x = 0%N)); [reflexivity |].
  by rewrite pretty_N_go_app.
Qed.

Lemma parse_digits_stop (acc : Z) (s : string) :
  no_digit s -> RefCodec.parse_digits acc s = (acc, s).
Proof. destruct s as [|c s]; simpl; [done |]. by intros ->. Qed.

Lemma parse_digits_pretty (x : N) (r : string) :
  no_digit r ->
  RefCodec.parse_digits 0 (pretty x +:+ r) = (Z.of_N x, r) /\
  exists (c : ascii) (t : string) (d : Z),
    pretty x +:+ r = String c t /\ digit_of c = Some d.
Proof.
  intros Hr. rewrite pretty_N_app. destruct (decide (x = 0%N)) as [-> | Hx].
  - simpl. rewrite parse_digits_stop by done. split; [done |].
    by do 3 eexists.
  - destruct (parse_digits_pretty_N_go x) as (k & Hk & ->).
    rewrite parse_digits_stop by done. split; [f_equal; lia |].
    apply pretty_N_go_head. lia.
Qed.


Lemma digit_char_plain (c : ascii) (d : Z) :
  digit_of c = Some d ->
  Ascii.is_space c = false /\ Ascii.eqb c "-" = false /\ Ascii.eqb c "+" = false /\
  (32 <? N_of_ascii c)%N = true.
Proof.
  destruct c as [[] [] [] [] [] [] [] []]; vm_compute; intros H; try discriminate H;
    repeat split.
Qed.

Lemma pretty_positive_N (p : positive) : pretty p = pretty (Npos p).
Proof. reflexivity. Qed.



(** *** String literals *)
Lemma str_rev_app_rev_app (s a b : string) :
  String.rev_app (String.rev_app s a) b = String.rev_app a (s +:+ b).
Proof.
  revert a b. induction s as [|c s IH]; intros a b; simpl; [done |].
  by rewrite IH.
Qed.

Lemma parse_chars_print_char (c : ascii) (acc t : string) :
  no_nul c = true ->
  RefCodec.parse_chars acc (RefCodec.print_char c +:+ t)
  = RefCodec.parse_chars (String c acc) t.
Proof.
  destruct c as [[] [] [] [] [] [] [] []]; intros Hc; try discriminate Hc; reflexivity.
Qed.

Lemma parse_chars_print_chars (s : string) :
  forall acc rest : string,
    str_forall no_nul s = true ->
    RefCodec.parse_chars acc (RefCodec.print_chars s +:+ String dquote rest)
    = Some (String.rev (String.rev_app s acc), rest).
Proof.
  induction s as [|c s IH]; intros acc rest Hs; simpl in *.
  - reflexivity.
  - apply andb_true_iff in Hs as [Hc Hs].
    rewrite str_app_assoc, parse_chars_print_char by done. by apply IH.
Qed.

Lemma parse_print_string (s rest : string) :
  str_forall no_nul s = true ->
  exists t : string,
    RefCodec.print_string s +:+ rest = String dquote t /\
    RefCodec.parse_chars "" t = Some (s, rest).
Proof.
  intros Hs. unfold RefCodec.print_string. eexists. split.
  - rewrite str_app_cons. reflexivity.
  - rewrite str_app_assoc, str_app_cons, str_app_nil_l.
    rewrite parse_chars_print_chars by done. f_equal. f_equal.
    unfold String.rev. rewrite str_rev_app_rev_app. simpl. apply str_app_nil_r.
Qed.

(** *** Value trees *)

Lemma print_array (items : list cJSON) :
  RefCodec.print (cJSON_Array items) = "[" +:+ print_elements items +:+ "]".
Proof. reflexivity. Qed.

Lemma print_object (items : list (string * cJSON)) :
  RefCodec.print (cJSON_Object items) = "{" +:+ print_members items +:+ "}".
Proof. reflexivity. Qed.

Lemma parse_value_digit (fuel : nat) (c : ascii) (t : string) (d : Z) :
  digit_of c = Some d ->
  RefCodec.parse_value (S fuel) (String c t) = RefCodec.parse_number false (String c t).
Proof.
  destruct c as [[] [] [] [] [] [] [] []]; intros Hc; try discriminate Hc; reflexivity.
Qed.

Lemma parse_value_array (fuel : nat) (c : ascii) (t : string) :
  (32 <? N_of_ascii c)%N = true -> c <> "]"%char ->
  RefCodec.parse_value (S fuel) (String "[" (String c t))
  = RefCodec.parse_elements fuel [] (String c t).
Proof.
  destruct c as [[] [] [] [] [] [] [] []]; intros Hws Hc; try discriminate Hws;
    try reflexivity.
  by destruct Hc.
Qed.

Lemma parse_number_pretty (negative : bool) (x : N) (rest : string) :
  delimited rest ->
  (INT_MIN <= (if negative then - Z.of_N x else Z.of_N x) <= INT_MAX)%Z ->
  RefCodec.parse_number negative (pretty x +:+ rest)
  = Some (cJSON_CreateNumber_int (if negative then - Z.of_N x else Z.of_N x)%Z, rest).
Proof.
  intros Hrest Hrange.
  assert (Hno : no_digit rest).
  { destruct rest as [|c rest]; [done |]. by destruct Hrest as [-> | [-> | ->]]. }
  destruct (parse_digits_pretty x rest Hno) as [Hdigits (c & t & d & Hhead & Hc)].
  unfold RefCodec.parse_number. rewrite Hhead, Hc, <- Hhead, Hdigits.
  replace ((INT_MIN <=? (if negative then - Z.of_N x else Z.of_N x))%Z
           && ((if negative then - Z.of_N x else Z.of_N x) <=? INT_MAX)%Z) with true
    by (symmetry; apply andb_true_iff; split; apply Z.leb_le; lia).
  destruct rest as [|c' rest']; [reflexivity |].
  by destruct Hrest as [-> | [-> | ->]].
Qed.

(** The exact decimal of a double is read back as that double. *)
Lemma parse_number_exact (s : bool) (m : positive) (e : Z) (rest : string) :
  delimited rest ->
  SpecFloat.valid_binary prec emax (S754_finite s m e) = true ->
  RefCodec.parse_number s
    (pretty (N.pos m * 2 ^ Z.to_N e * 5 ^ Z.to_N (- e))%N +:+ "e-" +:+
     pretty (Z.to_N (- e)) +:+ rest)
  = Some (cJSON_Number
            (saturate32 (cond_Zopp s (if (0 <=? e)%Z then Z.pos m * 2 ^ e
                                      else Z.pos m / 2 ^ (- e))))
            (SF2Prim (S754_finite s m e)), rest).
Proof.
  intros Hrest Hvalid.
  assert (Hno : no_digit rest).
  { destruct rest as [|c rest]; [done |]. by destruct Hrest as [-> | [-> | ->]]. }
  set (k := Z.to_N (- e)). set (n := (N.pos m * 2 ^ Z.to_N e * 5 ^ k)%N).
  destruct (parse_digits_pretty k rest Hno) as [Hk (c2 & t2 & d2 & Hhead2 & Hc2)].
  destruct (parse_digits_pretty n ("e-" +:+ pretty k +:+ rest) eq_refl)
    as [Hn (c1 & t1 & d1 & Hhead1 & Hc1)].
  unfold RefCodec.parse_number. rewrite Hhead1, Hc1, <- Hhead1, Hn.
  rewrite !str_app_cons, str_app_nil_l. cbv beta iota zeta.
  unfold RefCodec.parse_exponent. rewrite Hhead2, Hc2, <- Hhead2, Hk.
  assert (Hvalues : (Z.of_N n mod 5 ^ Z.of_N k = 0)%Z /\
                    (Z.of_N n / 5 ^ Z.of_N k = Z.pos m * 2 ^ (e + Z.of_N k))%Z /\
                    (0 <= e + Z.of_N k)%Z /\
                    (- Z.of_N k = e - (e + Z.of_N k))%Z /\
                    (Z.of_N n / 10 ^ Z.of_N k
                     = if (0 <=? e)%Z then Z.pos m * 2 ^ e else Z.pos m / 2 ^ (- e))%Z).
  { assert (Hn_Z : Z.of_N n = (Z.pos m * 2 ^ Z.max 0 e * 5 ^ Z.of_N k)%Z).
    { subst n. rewrite !N2Z.inj_mul, !N2Z.inj_pow.
      replace (Z.of_N (Z.to_N e)) with (Z.max 0 e) by lia. reflexivity. }
    rewrite Hn_Z. destruct (Z.leb_spec 0 e) as [Hpos | Hneg].
    - assert (Hzero : Z.of_N k = 0%Z) by lia.
      rewrite Hzero, Z.max_r by lia.
      rewrite !Z.pow_0_r, Z.mul_1_r, Z.mod_1_r, !Z.div_1_r, Z.add_0_r.
      repeat split; lia.
    - assert (Hopp : Z.of_N k = (- e)%Z) by lia.
      rewrite Hopp, Z.max_l by lia.
      assert (Hfive : (0 < 5 ^ (- e))%Z) by (apply Z.pow_pos_nonneg; lia).
      assert (Htwo : (0 < 2 ^ (- e))%Z) by (apply Z.pow_pos_nonneg; lia).
      rewrite Z.pow_0_r, Z.mul_1_r.
      rewrite Z.mod_mul by lia. rewrite Z.div_mul by lia.
      replace (e + - e)%Z with 0%Z by lia. rewrite Z.pow_0_r, Z.mul_1_r.
      change 10%Z with (2 * 5)%Z. rewrite Z.pow_mul_l.
      rewrite Z.div_mul_cancel_r by lia.
      repeat split; lia. }
  destruct Hvalues as (Hmod & Hdiv & Hj & Hexp & Hint).
  rewrite Hmod, Hdiv, Hint, Hexp. cbn [Z.eqb].
  by rewrite (binary_normalize_exact s m e (e + Z.of_N k) s Hvalid Hj).
Qed.

Lemma print_double_head (d : float) (s : bool) (m : positive) (e : Z) :
  Prim2SF d = S754_finite s m e ->
  exists (c : ascii) (t : string),
    RefCodec.print_double d = String c t /\ (32 <? N_of_ascii c)%N = true /\
    c <> "]"%char.
Proof.
  intros Hd. unfold RefCodec.print_double. rewrite Hd. destruct s.
  - rewrite str_app_cons, str_app_nil_l. by do 2 eexists.
  - rewrite str_app_nil_l.
    destruct (parse_digits_pretty (N.pos m * 2 ^ Z.to_N e * 5 ^ Z.to_N (- e))%N
                ("e-" +:+ pretty (Z.to_N (- e))) eq_refl)
      as [_ (c & t & dgt & Hhead & Hc)].
    exists c, t. split; [exact Hhead |].
    destruct (digit_char_plain c dgt Hc) as (_ & _ & _ & Hws). split; [done |].
    intros ->. discriminate Hc.
Qed.

Lemma fmt_d_head (z : Z) :
  exists (c : ascii) (t : string),
    fmt_d z = String c t /\ (32 <? N_of_ascii c)%N = true /\ c <> "]"%char.
Proof.
  assert (Hnat : forall x : N, exists (c : ascii) (t : string),
             pretty x = String c t /\ (32 <? N_of_ascii c)%N = true /\ c <> "]"%char).
  { intros x. destruct (parse_digits_pretty x "" I) as [_ (c & t & d & Hhead & Hc)].
    rewrite str_app_nil_r in Hhead. exists c, t. split; [done |].
    destruct (digit_char_plain c d Hc) as (_ & _ & _ & Hws). split; [done |].
    intros ->. discriminate Hc. }
  unfold fmt_d, pretty, pretty_Z. destruct z as [|p|p].
  - by exists "0"%char, "".
  - apply (Hnat (Npos p)).
  - exists "-"%char, (pretty p). by repeat split.
Qed.

Lemma print_head (v : cJSON) :
  json_plain v ->
  exists (c : ascii) (t : string),
    RefCodec.print v = String c t /\ (32 <? N_of_ascii c)%N = true /\ c <> "]"%char.
Proof.
  destruct v as [| | |i d|s|items|items|s]; simpl; try done;
    try (intros _; do 2 eexists; by repeat split).
  intros [[_ ->] | [(s & m & e & Hd) _]].
  - rewrite double_of_int_eqb_refl. apply fmt_d_head.
  - destruct (PrimFloat.eqb d (double_of_int i)); [apply fmt_d_head |].
    by apply (print_double_head d s m e).
Qed.

Lemma skip_ws_head (c : ascii) (t : string) :
  (32 <? N_of_ascii c)%N = true -> RefCodec.skip_ws (String c t) = String c t.
Proof.
  intros Hc. cbn [RefCodec.skip_ws].
  destruct (N.leb_spec (N_of_ascii c) 32); [| done].
  apply N.ltb_lt in Hc. lia.
Qed.

Lemma parse_print_elements (items : list cJSON) :
  Forall round_trip items ->
  fold_right (fun x P => json_plain x /\ P) True items ->
  items <> [] ->
  forall (fuel : nat) (acc : list cJSON) (rest : string),
    fold_right (fun x n => S (json_need x) + n) 0 items <= fuel ->
    RefCodec.parse_elements fuel acc (print_elements items +:+ String "]" rest)
    = Some (cJSON_Array (rev acc ++ items), rest).
Proof.
  induction items as [|x items IH]; [done |].
  intros Hall Hplain _ fuel acc rest Hfuel.
  apply Forall_cons in Hall as [Hx Hall]. destruct Hplain as [Hpx Hplain].
  cbn [fold_right] in Hfuel. destruct fuel as [|fuel]; [lia |].
  cbn [print_elements]. rewrite str_app_assoc.
  destruct items as [|y items].
  - rewrite str_app_nil_l. cbn [RefCodec.parse_elements].
    rewrite (Hx Hpx) by (simpl; auto; lia). reflexivity.
  - rewrite str_app_assoc, str_app_cons, str_app_nil_l. cbn [RefCodec.parse_elements].
    rewrite (Hx Hpx) by (simpl; auto; lia).
    rewrite skip_ws_head by reflexivity. cbv beta iota.
    rewrite IH; [| done | done | done | lia].
    simpl. by rewrite <- app_assoc.
Qed.

Lemma parse_print_members (items : list (string * cJSON)) :
  Forall (fun m : string * cJSON => round_trip m.2) items ->
  fold_right (fun (m : string * cJSON) P =>
                (str_forall no_nul m.1 = true /\ json_plain m.2) /\ P) True items ->
  items <> [] ->
  forall (fuel : nat) (acc : list (string * cJSON)) (rest : string),
    fold_right (fun (m : string * cJSON) n => S (json_need m.2) + n) 0 items <= fuel ->
    RefCodec.parse_members fuel acc (print_members items +:+ String "}" rest)
    = Some (cJSON_Object (rev acc ++ items), rest).
Proof.
  induction items as [|[k x] items IH]; [done |].
  intros Hall Hplain _ fuel acc rest Hfuel.
  apply Forall_cons in Hall as [Hx Hall]. destruct Hplain as [[Hk Hpx] Hplain].
  cbn [fold_right snd] in Hfuel. cbn [snd fst] in Hx, Hk, Hpx.
  destruct fuel as [|fuel]; [lia |].
  cbn [print_members]. rewrite !str_app_assoc.
  destruct (parse_print_string k
              (":" +:+ RefCodec.print x +:+
               match items with [] => "" | _ => "," +:+ print_members items end +:+
               String "}" rest) Hk) as (t & Hhead & Hkey).
  rewrite Hhead. cbn [RefCodec.parse_members].
  rewrite skip_ws_head by reflexivity. cbv beta iota. rewrite Hkey.
  rewrite str_app_cons, str_app_nil_l.
  rewrite skip_ws_head by reflexivity. cbv beta iota.
  destruct items as [|y items].
  - rewrite str_app_nil_l.
    rewrite (Hx Hpx) by (simpl; auto; lia). reflexivity.
  - rewrite str_app_assoc, str_app_cons, str_app_nil_l.
    rewrite (Hx Hpx) by (simpl; auto; lia).
    rewrite skip_ws_head by reflexivity. cbv beta iota.
    rewrite IH; [| done | done | done | lia].
    simpl. by rewrite <- app_assoc.
Qed.

Lemma parse_print_value (v : cJSON) : round_trip v.
Proof.
  induction v as [| | |i d|s|items IH|items IH|s] using cJSON_tree_ind;
    intros Hplain fuel rest Hfuel Hrest;
    (destruct fuel as [|fuel]; [cbn [json_need] in Hfuel; lia |]).
  - reflexivity.
  - reflexivity.
  - reflexivity.
  - assert (Hint : (INT_MIN <= i <= INT_MAX)%Z ->
                    RefCodec.parse_value (S fuel) (fmt_d i +:+ rest)
                    = Some (cJSON_CreateNumber_int i, rest)).
    { intros Hrange. unfold fmt_d, pretty, pretty_Z.
      destruct i as [|p|p].
      - rewrite str_app_cons, str_app_nil_l.
        rewrite (parse_value_digit fuel "0" rest 0) by reflexivity.
        apply (parse_number_pretty false 0 rest Hrest). exact Hrange.
      - rewrite pretty_positive_N.
        destruct (parse_digits_pretty (Npos p) rest) as [_ (c & t & dgt & Hhead & Hc)].
        { destruct rest as [|c rest]; [done |]. by destruct Hrest as [-> | [-> | ->]]. }
        rewrite Hhead, (parse_value_digit fuel c t dgt Hc), <- Hhead.
        by apply (parse_number_pretty false (Npos p) rest Hrest).
      - rewrite pretty_positive_N, str_app_assoc, str_app_cons, str_app_nil_l.
        cbn [RefCodec.parse_value]. rewrite skip_ws_head by reflexivity. cbv beta iota.
        by apply (parse_number_pretty true (Npos p) rest Hrest). }
    cbn [json_plain] in Hplain. simpl RefCodec.print.
    destruct Hplain as [[Hrange ->] | [(s & m & e & Hd) ->]].
    { rewrite double_of_int_eqb_refl. by apply Hint. }
    destruct (PrimFloat.eqb d (double_of_int (int_of_double d))) eqn:Heq.
    { rewrite Hint by (unfold int_of_double; rewrite Hd; apply saturate32_range).
      unfold cJSON_CreateNumber_int.
      by rewrite <- (eqb_finite_eq d _ s m e Hd Heq). }
    pose proof (Prim2SF_valid d) as Hvalid. rewrite Hd in Hvalid.
    pose proof (parse_number_exact s m e rest Hrest Hvalid) as Hexact.
    rewrite <- Hd, SF2Prim_Prim2SF in Hexact.
    unfold int_of_double. rewrite Hd.
    unfold RefCodec.print_double. rewrite Hd. rewrite !str_app_assoc.
    destruct s.
    + rewrite str_app_cons, str_app_nil_l.
      cbn [RefCodec.parse_value]. rewrite skip_ws_head by reflexivity. cbv beta iota.
      exact Hexact.
    + rewrite str_app_nil_l.
      destruct (parse_digits_pretty (N.pos m * 2 ^ Z.to_N e * 5 ^ Z.to_N (- e))%N
                  ("e-" +:+ pretty (Z.to_N (- e)) +:+ rest) eq_refl)
        as [_ (c & t & dgt & Hhead & Hc)].
      rewrite Hhead, (parse_value_digit fuel c t dgt Hc), <- Hhead.
      exact Hexact.
  - simpl in Hplain. simpl RefCodec.print.
    destruct (parse_print_string s rest Hplain) as (t & Hhead & Hbody).
    rewrite Hhead. cbn [RefCodec.parse_value].
    rewrite skip_ws_head by reflexivity. cbv beta iota. by rewrite Hbody.
  - rewrite print_array, !str_app_assoc, str_app_cons, str_app_nil_l.
    rewrite (str_app_cons "]" "" rest), str_app_nil_l.
    destruct items as [|x items]; [reflexivity |].
    destruct (print_head x (proj1 Hplain)) as (c & t & Hhead & Hws & Hclose).
    cbn [print_elements]. rewrite Hhead, !str_app_cons.
    rewrite parse_value_array by done.
    rewrite <- !str_app_cons, <- Hhead.
    change (RefCodec.print x +:+
            match items with [] => "" | _ => "," +:+ print_elements items end)
      with (print_elements (x :: items)).
    cbn [json_need] in Hfuel. apply le_S_n in Hfuel.
    rewrite (parse_print_elements (x :: items) IH Hplain) by done.
    reflexivity.
  - rewrite print_object, !str_app_assoc, str_app_cons, str_app_nil_l.
    rewrite (str_app_cons "}" "" rest), str_app_nil_l.
    destruct items as [|[k x] items]; [reflexivity |].
    destruct Hplain as [[Hk Hpx] Hplain].
    pose proof (parse_print_members ((k, x) :: items) IH
                  (conj (conj Hk Hpx) Hplain) ltac:(done) fuel [] rest) as Hmembers.
    cbn [print_members] in Hmembers |- *.
    unfold RefCodec.print_string in Hmembers |- *.
    rewrite !str_app_cons in Hmembers |- *.
    cbn [RefCodec.parse_value]. rewrite skip_ws_head by reflexivity. cbv beta iota.
    rewrite skip_ws_head by reflexivity. cbv beta iota.
    cbn [json_need] in Hfuel. apply le_S_n in Hfuel.
    rewrite Hmembers by done. reflexivity.
  - done.
Qed.

Lemma print_nonempty (v : cJSON) :
  json_plain v -> json_need v <= String.length (RefCodec.print v).
Proof.
  induction v as [| | |i d|s|items IH|items IH|s] using cJSON_tree_ind; intros Hplain;
    try (simpl; lia).
  - destruct (print_head (cJSON_Number i d) Hplain) as (c & t & -> & _). simpl. lia.
  - rewrite print_array. rewrite !str_length_app. cbn [json_need].
    change (String.length "[") with 1. change (String.length "]") with 1.
    enough (fold_right (fun x n => S (json_need x) + n) 0 items
            <= S (String.length (print_elements items))) by lia.
    simpl in Hplain. clear -IH Hplain.
    induction items as [|x items IHl]; [simpl; lia |].
    apply Forall_cons in IH as [Hx IH]. destruct Hplain as [Hpx Hplain].
    specialize (IHl IH Hplain). specialize (Hx Hpx).
    cbn [fold_right print_elements]. rewrite str_length_app.
    destruct items as [|y items]; [simpl in *; lia |].
    rewrite str_length_app. change (String.length ",") with 1. lia.
  - rewrite print_object. rewrite !str_length_app. cbn [json_need].
    change (String.length "{") with 1. change (String.length "}") with 1.
    enough (fold_right (fun (m : string * cJSON) n => S (json_need m.2) + n) 0 items
            <= S (String.length (print_members items))) by lia.
    simpl in Hplain. clear -IH Hplain.
    induction items as [|[k x] items IHl]; [simpl; lia |].
    apply Forall_cons in IH as [Hx IH]. destruct Hplain as [[_ Hpx] Hplain].
    specialize (IHl IH Hplain). specialize (Hx Hpx). simpl in Hx.
    cbn [fold_right print_members snd]. rewrite !str_length_app.
    destruct items as [|y items]; [simpl in *; lia |].
    rewrite str_length_app.
    change (String.length ":") with 1. change (String.length ",") with 1. lia.
  - done.
Qed.

(** The reference codec reads back what it prints. *)
Lemma RefCodec_parse_print (v : cJSON) :
  json_plain v -> RefCodec.parse (RefCodec.print v) = Some v.
Proof.
  intros Hplain. unfold RefCodec.parse.
  pose proof (parse_print_value v Hplain (S (String.length (RefCodec.print v))) "") as Hrun.
  rewrite str_app_nil_r in Hrun. rewrite Hrun; [done | | done].
  pose proof (print_nonempty v Hplain). lia.
Qed.

(** ** C9: identifiers in the codec *)


Example atoi_examples :
  atoi "42" = 42%Z /\ atoi "  -7" = (-7)%Z /\ atoi "12abc" = 12%Z /\
  atoi "abc" = 0%Z /\ atoi "" = 0%Z /\ atoi "99999999999" = INT_MAX.
Proof. repeat split; reflexivity. Qed.


Lemma jsonrpc_parse_message_classifies {codec : cJSON_codec} (text : string) (root : cJSON) :
  cJSON_Parse text = Some root ->
  cJSON_GetObjectItem root "jsonrpc" = Some (cJSON_String "2.0") ->
  jsonrpc_parse_message text = jsonrpc_classify root.
Proof. intros Hparse Hversion. unfold jsonrpc_parse_message. by rewrite Hparse, Hversion. Qed.

Lemma RefCodec_reads_back : codec_reads_back RefCodec.codec.
Proof. intros v [Hplain _]. by apply RefCodec_parse_print. Qed.






(** ** C3: a success response survives printing and parsing *)

(** C3. For every codec that reads back what it prints, every [int]
    identifier and every result value that JSON text represents,
    [jsonrpc_create_response] returns a text that [jsonrpc_parse_message]
    accepts and classifies as a success response with that identifier and
    that result. *)
Theorem jsonrpc_response_roundtrip {codec : cJSON_codec} (id : Z) (result : cJSON) :
  codec_reads_back codec ->
  (INT_MIN <= id <= INT_MAX)%Z ->
  json_plain result ->
  json_depth result < CJSON_NESTING_LIMIT ->
  exists text : string,
    jsonrpc_create_response id (Some result) = Some text /\
    jsonrpc_parse_message text
      = (ESP_OK,
         {| msg_type := JSONRPC_RESPONSE; msg_id := id; msg_has_id := true;
            msg_method := ""; msg_params := None; msg_result := Some result;
            msg_error_code := 0; msg_error_message := "" |}).
Proof.
  intros Hcodec Hid Hplain Hdepth. eexists. split; [reflexivity |].
  rewrite (jsonrpc_parse_message_classifies _ (jsonrpc_response_tree id result));
    [reflexivity | | reflexivity].
  apply Hcodec. split.
  - simpl. repeat split; try done. left. by split.
  - unfold jsonrpc_response_tree. cbn [json_depth fold_right snd cJSON_CreateNumber_int].
    unfold CJSON_NESTING_LIMIT in *. lia.
Qed.

Lemma jsonrpc_response_roundtrip_witness :
  exists text : string,
    jsonrpc_create_response (codec := RefCodec.codec) 7 (Some sample_result) = Some text /\
    jsonrpc_parse_message (codec := RefCodec.codec) text
      = (ESP_OK,
         {| msg_type := JSONRPC_RESPONSE; msg_id := 7; msg_has_id := true;
            msg_method := ""; msg_params := None; msg_result := Some sample_result;
            msg_error_code := 0; msg_error_message := "" |}).
Proof.
  apply (jsonrpc_response_roundtrip (codec := RefCodec.codec) 7 sample_result).
  - exact RefCodec_reads_back.
  - unfold INT_MIN, INT_MAX. lia.
  - cbn [json_plain sample_result fold_right fst snd].
    repeat split; try reflexivity.
    + left. unfold INT_MIN, INT_MAX. by split; [lia |].
    + right. split; [by do 3 eexists; vm_compute | by vm_compute].
    + right. split; [by do 3 eexists; vm_compute | by vm_compute].
  - simpl. unfold CJSON_NESTING_LIMIT. lia.
Defined.

(** ** C2: what the dispatcher answers *)

Section dispatcher.
Context {codec : cJSON_codec} {lua : lua_lib} {libc : libc_printf} {cfg : sdkconfig}.

(** X1. A notification is never dispatched and never answered: the call
    returns NULL and the statics of the device record are as before (the
    line it logs goes to the ring, which is kept apart from them). *)
Lemma process_message_notification (e : env) (d : device) (text : string)
    (msg : jsonrpc_message_t) :
  jsonrpc_parse_message text = (ESP_OK, msg) ->
  msg_type msg = JSONRPC_NOTIFICATION ->
  mcp_server_process_message e (Some text) d = Returns (None, d).
Proof.
  intros Hparse Htype. unfold mcp_server_process_message.
  rewrite Hparse. simpl. by rewrite Htype.
Qed.


(** C2. The request [tools/call sys_reboot] parses as a request with an
    identifier, and the dispatcher does not return a response for it: the
    handler restarts the device before the response exists. *)
Theorem sys_reboot_request_is_not_answered (e : env) (d : device) :
  (jsonrpc_parse_message (codec := RefCodec.codec) reboot_request).1 = ESP_OK /\
  msg_type (jsonrpc_parse_message (codec := RefCodec.codec) reboot_request).2
    = JSONRPC_REQUEST /\
  msg_has_id (jsonrpc_parse_message (codec := RefCodec.codec) reboot_request).2
    = true /\
  mcp_server_process_message (codec := RefCodec.codec) e (Some reboot_request) d
    = Restarts.
Proof. repeat split; reflexivity. Qed.

End dispatcher.

(** ** C4: calling a tool that is not registered *)

Lemma get_object_item_app (items : list (string * cJSON)) (k : string) (v : cJSON)
    (key : string) :
  get_object_item (items ++ [(k, v)]) key
  = match get_object_item items key with
    | Some x => Some x
    | None => if case_insensitive_eqb key k then Some v else None
    end.
Proof.
  induction items as [|[k' v'] items IH]; simpl.
  - reflexivity.
  - destruct (case_insensitive_eqb key k'); [reflexivity | apply IH].
Qed.

Lemma snprintf_prefix (max_len : nat) (a b : string) :
  String.length a < max_len ->
  snprintf max_len (a +:+ b) = a +:+ str_take (max_len - 1 - String.length a) b.
Proof. intros Hlt. unfold snprintf. apply str_take_app_r. lia. Qed.

Section unknown_tool.
Context {codec : cJSON_codec} {lua : lua_lib} {libc : libc_printf} {cfg : sdkconfig}.

Lemma tools_find_None (registry : list mcp_tool_t) (tool_name : string) :
  tool_name ∉ map name registry -> tools_find registry tool_name = None.
Proof.
  induction registry as [|tool registry IH]; simpl; [reflexivity |].
  intros Hnot. destruct (String.eqb_spec (name tool) tool_name) as [Heq | Hne].
  - exfalso. apply Hnot. rewrite Heq. apply list_elem_of_here.
  - apply IH. intros Hin. apply Hnot. by apply list_elem_of_further.
Qed.

Lemma tools_execute_unknown (e : env) (d : device) (tool_name : string)
    (arguments : cJSON) (max_len : nat) :
  tool_name ∉ map name tool_registry ->
  mcp_tools_execute e tool_name arguments max_len d
  = Returns (ESP_ERR_NOT_FOUND,
             snprintf max_len ("Tool not found: " +:+ tool_name), true, d).
Proof.
  intros Hnot. unfold mcp_tools_execute, mcp_tools_find.
  by rewrite (tools_find_None _ _ Hnot).
Qed.

(** Leaving the arguments member out is the same as sending an empty
    object. *)
Lemma tools_call_arguments_default (e : env) (d : device) (p : cJSON) :
  cJSON_GetObjectItem p "arguments" = None ->
  mcp_handle_tools_call e (Some p) d
  = mcp_handle_tools_call e
      (Some (cJSON_AddItemToObject p "arguments" cJSON_CreateObject)) d.
Proof.
  intros Hnone. unfold mcp_handle_tools_call.
  destruct p as [| | | | | |items|]; try reflexivity.
  simpl in *. rewrite !get_object_item_app, Hnone. simpl.
  destruct (get_object_item items "name") as [[]|]; reflexivity.
Qed.

(** C4. A [tools/call] request that names a tool outside the registry is
    answered by a success envelope (a result member, no error member) that
    carries the request's identifier; the result's text contains "not
    found" and its isError member is true. Whatever tool is named, when the
    parameters have no arguments member the tool is executed on a new empty
    object. *)
Theorem tools_call_unknown_tool (e : env) (d : device) (text : string)
    (msg : jsonrpc_message_t) (p : cJSON) (tool_name : string) :
  jsonrpc_parse_message text = (ESP_OK, msg) ->
  msg_type msg = JSONRPC_REQUEST ->
  msg_method msg = "tools/call" ->
  msg_params msg = Some p ->
  cJSON_GetObjectItem p "name" = Some (cJSON_String tool_name) ->
  tool_name ∉ map name tool_registry ->
  exists (result_text : string) (result envelope : cJSON),
    mcp_server_process_message e (Some text) d
      = Returns (Some (cJSON_PrintUnformatted envelope), d) /\
    envelope = jsonrpc_response_tree (msg_id msg) result /\
    cJSON_GetObjectItem envelope "result" = Some result /\
    cJSON_GetObjectItem envelope "error" = None /\
    cJSON_GetObjectItem envelope "id" = Some (cJSON_CreateNumber_int (msg_id msg)) /\
    cJSON_GetObjectItem result "isError" = Some cJSON_True /\
    cJSON_GetObjectItem result "content"
      = Some (cJSON_Array [cJSON_Object [("type", cJSON_String "text");
                                         ("text", cJSON_String result_text)]]) /\
    str_contains result_text "not found" /\
    (forall (p' : cJSON) (called : string),
        cJSON_GetObjectItem p' "name" = Some (cJSON_String called) ->
        cJSON_GetObjectItem p' "arguments" = None ->
        mcp_handle_tools_call e (Some p') d
        = ('(ret, text, is_error, d') ←
             mcp_tools_execute e called (cJSON_Object []) MCP_MAX_TOOL_RESULT_SIZE d;
           Returns (ESP_OK,
                    Some (tools_call_result text (is_error || bool_decide (ret ≠ ESP_OK))),
                    d'))).
Proof.
  intros Hparse Htype Hmethod Hparams Hname Hnot.
  exists (snprintf MCP_MAX_TOOL_RESULT_SIZE ("Tool not found: " +:+ tool_name)).
  eexists. eexists. split; [| split; [reflexivity |]].
  - unfold mcp_server_process_message. rewrite Hparse. simpl.
    rewrite Htype, Hmethod, Hparams. unfold mcp_dispatch_method. simpl.
    unfold mcp_handle_tools_call. rewrite Hname.
    rewrite (tools_execute_unknown _ _ _ _ _ Hnot). simpl. reflexivity.
  - repeat split; try reflexivity.
    + exists "Tool ", (": " +:+ str_take (MCP_MAX_TOOL_RESULT_SIZE - 1 - 16) tool_name).
      change "Tool not found: " with ("Tool not found: " +:+ "").
      rewrite str_app_assoc, str_app_nil_l.
      rewrite (snprintf_prefix MCP_MAX_TOOL_RESULT_SIZE "Tool not found: " tool_name)
        by (simpl; unfold MCP_MAX_TOOL_RESULT_SIZE; lia).
      reflexivity.
    + intros p' called Hcalled Hnone. unfold mcp_handle_tools_call.
      by rewrite Hcalled, Hnone.
Qed.

End unknown_tool.

Lemma tools_call_unknown_tool_witness :
  exists (result_text : string) (envelope : cJSON),
    mcp_server_process_message (codec := RefCodec.codec) (libc := toy_printf)
        (cfg := default_sdkconfig) sample_env (Some nonexistent_request) sample_device
      = Returns (Some (RefCodec.print envelope), sample_device) /\
    cJSON_GetObjectItem envelope "error" = None /\
    str_contains result_text "not found".
Proof.
  assert (Hnot : "nonexistent" ∉ map name (tool_registry (lua := toy_lua)
                                             (libc := toy_printf)
                                             (cfg := default_sdkconfig))).
  { refine (bool_decide_unpack _ _). vm_compute. exact I. }
  destruct (tools_call_unknown_tool (codec := RefCodec.codec) (libc := toy_printf)
              (cfg := default_sdkconfig) sample_env sample_device nonexistent_request
              (jsonrpc_parse_message (codec := RefCodec.codec)
                 nonexistent_request).2
              (cJSON_Object [("name", cJSON_String "nonexistent")]) "nonexistent"
              eq_refl eq_refl eq_refl eq_refl eq_refl Hnot)
    as (result_text & result & envelope & Hrun & _ & _ & Herror & _ & _ & _ & Hfound & _).
  exists result_text, envelope. split; [exact Hrun |]. split; [exact Herror | exact Hfound].
Defined.

(** ** C5: when [sys_ota_push] is accepted *)

Lemma ota_task_begins_at_zero (task_env : ota_env) (url : string) :
  exists rest : list ota_session,
    (ota_task task_env url).1
    = {| s_ota_state := OTA_STATE_DOWNLOADING; s_ota_progress_pct := 0;
         s_ota_message := ota_set_message ("Connecting to " +:+ url) |} :: rest.
Proof.
  unfold ota_task.
  repeat (case_match; simpl; try (eexists; reflexivity)).
Qed.

Example ota_task_sample_run :
  map (fun s => (s_ota_state s, s_ota_progress_pct s))
      (ota_task sample_ota_env "http://10.0.0.2/fw.bin").1
  = [(OTA_STATE_DOWNLOADING, 0%Z); (OTA_STATE_WRITING, 0%Z); (OTA_STATE_WRITING, 50%Z);
     (OTA_STATE_WRITING, 100%Z); (OTA_STATE_REBOOTING, 100%Z)].
Proof. reflexivity. Qed.

(** C5. [tool_sys_ota_push] answers ESP_ERR_INVALID_STATE exactly when the
    session is Downloading or Writing, and then the device (session state,
    progress, message, task list) is as before. The function itself never
    writes the session. From Idle or Error, with a non-empty [url] argument
    and the two allocations succeeding, it answers ESP_OK and creates one
    [ota_task] for that URL, and the first thing that task does is set the
    session to Downloading at 0 percent. *)
Theorem sys_ota_push_gate {lua : lua_lib} (e : env) (args : cJSON) (max_len : nat)
    (d : device) (task_env : ota_env) :
  exists (ret : esp_err_t) (text : string) (d' : device),
    run_tool_sys_ota_push e args max_len d = Returns (ret, text, d') /\
    (ret = ESP_ERR_INVALID_STATE <->
     s_ota_state (dev_ota d) = OTA_STATE_DOWNLOADING \/
     s_ota_state (dev_ota d) = OTA_STATE_WRITING) /\
    (ret = ESP_ERR_INVALID_STATE -> d' = d) /\
    dev_ota d' = dev_ota d /\
    forall url : string,
      s_ota_state (dev_ota d) = OTA_STATE_IDLE \/
      s_ota_state (dev_ota d) = OTA_STATE_ERROR ->
      cJSON_GetObjectItem args "url" = Some (cJSON_String url) ->
      url <> EmptyString ->
      env_strdup_ok e = true ->
      env_xTaskCreate_ok e = true ->
      ret = ESP_OK /\
      dev_ota_tasks d' = dev_ota_tasks d ++ [url] /\
      exists rest : list ota_session,
        (ota_task task_env url).1
        = {| s_ota_state := OTA_STATE_DOWNLOADING; s_ota_progress_pct := 0;
             s_ota_message := ota_set_message ("Connecting to " +:+ url) |} :: rest.
Proof.
  unfold run_tool_sys_ota_push, tool_sys_ota_push.
  destruct (s_ota_state (dev_ota d)) eqn:Hstate; simpl.
  2, 3: do 3 eexists; split; [reflexivity |];
        (split; [split; [intros _; auto | reflexivity] |]);
        (split; [reflexivity |]); (split; [reflexivity |]);
        intros url [Hbad | Hbad]; discriminate.
  all: destruct (cJSON_GetObjectItem args "url") as [[]|] eqn:Hurl;
    try (do 3 eexists; split; [reflexivity |];
         (split; [split; [discriminate | intros [Hbad | Hbad]; discriminate] |]);
         (split; [discriminate |]); (split; [reflexivity |]);
         intros url _; discriminate).
  all: destruct (String.length valuestring =? 0)%nat eqn:Hlen;
    [ do 3 eexists; split; [reflexivity |];
      (split; [split; [discriminate | intros [Hbad | Hbad]; discriminate] |]);
      (split; [discriminate |]); (split; [reflexivity |]);
      intros url _ [= <-] Hne; apply Nat.eqb_eq in Hlen;
      destruct valuestring; [done | discriminate]
    | ].
  all: destruct (env_strdup_ok e) eqn:Hdup; simpl;
    [ | do 3 eexists; split; [reflexivity |];
        (split; [split; [discriminate | intros [Hbad | Hbad]; discriminate] |]);
        (split; [discriminate |]); (split; [reflexivity |]);
        intros url _ _ _ Hbad; discriminate ].
  all: destruct (env_xTaskCreate_ok e) eqn:Hcreate; simpl;
    [ | do 3 eexists; split; [reflexivity |];
        (split; [split; [discriminate | intros [Hbad | Hbad]; discriminate] |]);
        (split; [discriminate |]); (split; [reflexivity |]);
        intros url _ _ _ _ Hbad; discriminate ].
  all: do 3 eexists; split; [reflexivity |];
    (split; [split; [discriminate | intros [Hbad | Hbad]; discriminate] |]);
    (split; [discriminate |]); (split; [reflexivity |]);
    intros url _ [= <-] _ _ _; split; [reflexivity |]; split; [reflexivity |];
    apply ota_task_begins_at_zero.
Qed.

Lemma sys_ota_push_gate_witness :
  exists (text : string) (d' : device),
    run_tool_sys_ota_push sample_env sample_ota_args 2048 sample_device
    = Returns (ESP_OK, text, d') /\
    dev_ota_tasks d' = ["http://10.0.0.2/fw.bin"].
Proof.
  destruct (sys_ota_push_gate sample_env sample_ota_args 2048 sample_device sample_ota_env)
    as (ret & text & d' & Hrun & _ & _ & _ & Hstart).
  destruct (Hstart "http://10.0.0.2/fw.bin" (or_introl eq_refl) eq_refl
                   ltac:(discriminate) eq_refl eq_refl) as (Hret & Htasks & _).
  exists text, d'. split; [by rewrite <- Hret | exact Htasks].
Defined.

(** ** C6: the script store *)

Lemma str_drop_all (n : nat) (s : string) :
  String.length s <= n -> str_drop n s = EmptyString.
Proof.
  revert n; induction s as [|c s IH]; intros [|n] Hn; simpl in *; try reflexivity; try lia.
  apply IH. lia.
Qed.

Lemma str_take_empty (n : nat) : str_take n EmptyString = EmptyString.
Proof. by destruct n. Qed.

Lemma str_length_zero (s : string) : String.length s = 0 -> s = EmptyString.
Proof. by destruct s. Qed.

(** The read loop delivers the file's first [max_len - 1] bytes. *)
Lemma get_script_read_spec (fuel max_len : nat) (buf f : string) :
  max_len <= fuel + String.length buf ->
  String.length buf <= max_len - 1 ->
  get_script_read fuel max_len buf f
  = buf +:+ str_take (max_len - 1 - String.length buf) f.
Proof.
  revert buf f; induction fuel as [|fuel IH]; intros buf f Hfuel Hbuf; simpl.
  - replace (max_len - 1 - String.length buf) with 0 by lia.
    by rewrite str_app_nil_r.
  - destruct (Nat.ltb_spec (String.length buf) (max_len - 1)) as [Hroom | Hfull].
    + set (room := max_len - 1 - String.length buf) in *.
      destruct (Nat.eqb_spec (String.length (str_take room f)) 0) as [Hnone | Hsome].
      * apply str_length_zero in Hnone. by rewrite Hnone, str_app_nil_r.
      * pose proof (str_take_length room f) as Hlen.
        rewrite IH; rewrite ?str_length_app; try lia.
        rewrite str_app_assoc. f_equal.
        destruct (Nat.le_gt_cases room (String.length f)) as [Hlong | Hshort].
        -- replace (max_len - 1 - (String.length buf + String.length (str_take room f)))
             with 0 by lia.
           by rewrite str_app_nil_r.
        -- rewrite (str_drop_all room f) by lia.
           by rewrite str_take_empty, str_app_nil_r.
    + replace (max_len - 1 - String.length buf) with 0 by lia.
      by rewrite str_app_nil_r.
Qed.

Lemma get_script_stored (fs : gmap string string) (script content : string)
    (max_len : nat) :
  fs !! script_path script = Some content ->
  lua_runtime_get_script fs script max_len = (ESP_OK, str_take (max_len - 1) content).
Proof.
  intros Hfile. unfold lua_runtime_get_script. rewrite Hfile.
  rewrite get_script_read_spec; simpl; try lia.
  by rewrite Nat.sub_0_r.
Qed.

Example script_store_spec_example :
  let '(_, fs1) := lua_runtime_push_script true ∅ "x.lua" "return 1" false in
  let '(_, fs2) := lua_runtime_push_script true fs1 "x.lua" "return 2" true in
  lua_runtime_get_script fs1 "x.lua" 2048 = (ESP_OK, "return 1") /\
  lua_runtime_get_script fs2 "x.lua" 2048 = (ESP_OK, "return 1return 2") /\
  lua_runtime_get_script fs2 "y.lua" 2048 = (ESP_ERR_NOT_FOUND, "Script not found: y.lua").
Proof. vm_compute. repeat split; reflexivity. Qed.

(** C6, as the claim words it, fails on a script that does not fit the
    caller's buffer: two chunks of 1100 bytes, the second appended, are
    stored whole, and a get into the server's 2048 bytes answers ESP_OK with
    the first 2047 bytes only. *)
Lemma script_store_get_truncates :
  (lua_runtime_push_script true
     (lua_runtime_push_script true ∅ "big.lua" script_chunk false).2
     "big.lua" script_chunk true).1 = ESP_OK /\
  (lua_runtime_push_script true
     (lua_runtime_push_script true ∅ "big.lua" script_chunk false).2
     "big.lua" script_chunk true).2 !! script_path "big.lua"
  = Some (script_chunk +:+ script_chunk) /\
  (lua_runtime_get_script
     (lua_runtime_push_script true
        (lua_runtime_push_script true ∅ "big.lua" script_chunk false).2
        "big.lua" script_chunk true).2
     "big.lua" 2048).1 = ESP_OK /\
  (lua_runtime_get_script
     (lua_runtime_push_script true
        (lua_runtime_push_script true ∅ "big.lua" script_chunk false).2
        "big.lua" script_chunk true).2
     "big.lua" 2048).2 <> script_chunk +:+ script_chunk /\
  String.length
    (lua_runtime_get_script
       (lua_runtime_push_script true
          (lua_runtime_push_script true ∅ "big.lua" script_chunk false).2
          "big.lua" script_chunk true).2
       "big.lua" 2048).2 = 2047.
Proof.
  assert (Hstored :
    (lua_runtime_push_script true
       (lua_runtime_push_script true ∅ "big.lua" script_chunk false).2
       "big.lua" script_chunk true).2 !! script_path "big.lua"
    = Some (script_chunk +:+ script_chunk)).
  { unfold lua_runtime_push_script. cbn [snd].
    by rewrite lookup_insert_eq, lookup_insert_eq. }
  split; [reflexivity |]. split; [exact Hstored |].
  rewrite (get_script_stored _ _ _ 2048 Hstored). cbn [fst snd].
  split; [reflexivity |].
  assert (Hlen : String.length (str_take (2048 - 1) (script_chunk +:+ script_chunk)) = 2047).
  { rewrite str_take_length. vm_compute. reflexivity. }
  split; [| exact Hlen].
  intros Heq. rewrite Heq in Hlen. vm_compute in Hlen. discriminate.
Qed.

(** C6. After a push of [c] under [n] without append has succeeded, a get of
    [n] answers ESP_OK with the first [max_len - 1] bytes of [c], which is
    [c] itself when [c] is shorter than the buffer; after a further
    successful push of [c2] with append it answers ESP_OK with the first
    [max_len - 1] bytes of [c] followed by [c2], which is all of it when both
    together are shorter than the buffer; and a get of a name under which
    the store holds nothing fails with ESP_ERR_NOT_FOUND. *)
Theorem script_store_push_get (fopen_ok fopen_ok2 : bool) (fs fs1 fs2 : gmap string string)
    (n c c2 m : string) (max_len : nat) :
  lua_runtime_push_script fopen_ok fs n c false = (ESP_OK, fs1) ->
  lua_runtime_push_script fopen_ok2 fs1 n c2 true = (ESP_OK, fs2) ->
  0 < max_len ->
  fs2 !! script_path m = None ->
  lua_runtime_get_script fs1 n max_len = (ESP_OK, str_take (max_len - 1) c) /\
  lua_runtime_get_script fs2 n max_len = (ESP_OK, str_take (max_len - 1) (c +:+ c2)) /\
  (String.length c < max_len -> lua_runtime_get_script fs1 n max_len = (ESP_OK, c)) /\
  (String.length c + String.length c2 < max_len ->
   lua_runtime_get_script fs2 n max_len = (ESP_OK, c +:+ c2)) /\
  (lua_runtime_get_script fs2 m max_len).1 = ESP_ERR_NOT_FOUND.
Proof.
  unfold lua_runtime_push_script.
  destruct fopen_ok; [| discriminate]. destruct fopen_ok2; [| discriminate].
  intros [= <-] [= <-] Hbuffer Hmissing.
  rewrite lookup_insert_eq in Hmissing |- *. simpl in Hmissing |- *.
  rewrite (get_script_stored _ n c) by apply lookup_insert_eq.
  rewrite (get_script_stored _ n (c +:+ c2)) by apply lookup_insert_eq.
  split; [reflexivity |]. split; [reflexivity |]. split; [| split].
  - intros Hfits. by rewrite str_take_all by lia.
  - intros Hfits. by rewrite str_take_all by (rewrite str_length_app; lia).
  - unfold lua_runtime_get_script. by rewrite Hmissing.
Qed.

Lemma script_store_push_get_witness :
  lua_runtime_get_script {["/spiffs/x.lua" := "return 1"]} "x.lua" 2048
    = (ESP_OK, "return 1") /\
  lua_runtime_get_script {["/spiffs/x.lua" := "return 1return 2"]} "x.lua" 2048
    = (ESP_OK, "return 1return 2") /\
  (lua_runtime_get_script {["/spiffs/x.lua" := "return 1return 2"]} "y.lua" 2048).1
    = ESP_ERR_NOT_FOUND.
Proof.
  destruct (script_store_push_get true true ∅ {["/spiffs/x.lua" := "return 1"]}
              {["/spiffs/x.lua" := "return 1return 2"]}
              "x.lua" "return 1" "return 2" "y.lua" 2048)
    as (_ & _ & Hfirst & Hboth & Hmissing).
  - reflexivity.
  - vm_compute. reflexivity.
  - lia.
  - vm_compute. reflexivity.
  - split; [apply Hfirst; simpl; lia |]. split; [apply Hboth; simpl; lia | exact Hmissing].
Defined.

(** ** C7: rendering a cJSON tree as a Lua literal *)

Example serialize_sample :
  sb_out <$> serialize_cjson_to_lua (libc := toy_printf) sample_opts
               {| sb_out := ""; sb_remaining := 2048 |}
  = Some ("{[" +:+ String dquote "addr" +:+ String dquote "] = 60, ["
          +:+ String dquote "name" +:+ String dquote "] = " +:+ String dquote "a\"
          +:+ String dquote "b\\c\n\x01z" +:+ String dquote ", ["
          +:+ String dquote "pins" +:+ String dquote "] = {5, nil, true}, ["
          +:+ String dquote "scale" +:+ String dquote "] = 0.5}").
Proof. vm_compute. reflexivity. Qed.


Lemma strbuf_append_app (t1 t2 : string) (b : strbuf) :
  strbuf_append t1 b ≫= strbuf_append t2 = strbuf_append (t1 +:+ t2) b.
Proof.
  unfold strbuf_append. rewrite str_length_app. simpl.
  destruct (Nat.leb_spec (sb_remaining b) (String.length t1)) as [Hfull | Hroom]; simpl.
  - destruct (Nat.leb_spec (sb_remaining b) (String.length t1 + String.length t2));
      [reflexivity | lia].
  - destruct (Nat.leb_spec (sb_remaining b - String.length t1) (String.length t2));
      destruct (Nat.leb_spec (sb_remaining b) (String.length t1 + String.length t2));
      try lia; try reflexivity.
    rewrite str_app_assoc. do 2 f_equal. lia.
Qed.

Lemma strbuf_append_nil (b : strbuf) :
  1 <= sb_remaining b -> strbuf_append "" b = Some b.
Proof.
  intros Hroom. unfold strbuf_append. simpl.
  destruct (Nat.leb_spec (sb_remaining b) 0); [lia |].
  destruct b as [out remaining]. simpl. by rewrite str_app_nil_r, Nat.sub_0_r.
Qed.

Lemma strbuf_append_room (t : string) (b b' : strbuf) :
  strbuf_append t b = Some b' -> 1 <= sb_remaining b'.
Proof.
  unfold strbuf_append.
  destruct (Nat.leb_spec (sb_remaining b) (String.length t)); [discriminate |].
  intros [= <-]. simpl. lia.
Qed.

(** An append followed by a step that is itself an append, on a buffer with
    room, is one append. *)
Lemma strbuf_append_then (t1 t2 : string) (f : strbuf -> option strbuf) (b : strbuf) :
  (forall b1, 1 <= sb_remaining b1 -> f b1 = strbuf_append t2 b1) ->
  strbuf_append t1 b ≫= f = strbuf_append (t1 +:+ t2) b.
Proof.
  intros Hf. rewrite <- strbuf_append_app.
  destruct (strbuf_append t1 b) as [b1|] eqn:Happ; [| reflexivity].
  simpl. apply Hf. by apply strbuf_append_room in Happ.
Qed.

Lemma lua_escape_char_literal (c : ascii) : lua_escape_char c = lua_literal_char c.
Proof. by destruct c as [[] [] [] [] [] [] [] []]. Qed.

Lemma strbuf_append_lua_chars_spec (value : string) (b : strbuf) :
  1 <= sb_remaining b ->
  strbuf_append_lua_chars value b = strbuf_append (lua_literal_chars value) b.
Proof.
  revert b; induction value as [|c value IH]; intros b Hroom; simpl.
  - by rewrite strbuf_append_nil.
  - rewrite lua_escape_char_literal. by apply strbuf_append_then.
Qed.

Lemma strbuf_append_lua_string_spec (value : string) (b : strbuf) :
  strbuf_append_lua_string value b = strbuf_append (lua_quoted value) b.
Proof.
  unfold strbuf_append_lua_string, lua_quoted.
  change (String dquote (lua_literal_chars value +:+ String dquote ""))
    with (String dquote "" +:+ (lua_literal_chars value +:+ String dquote "")).
  apply strbuf_append_then. intros b1 Hroom1.
  rewrite strbuf_append_lua_chars_spec by done.
  apply strbuf_append_app.
Qed.

Lemma lua_join_cons (t : string) (parts : list string) :
  lua_join (t :: parts) = t +:+ lua_join_from false parts.
Proof. destruct parts; simpl; [by rewrite str_app_nil_r | reflexivity]. Qed.

Lemma strbuf_append_None_app (t1 t2 : string) (b : strbuf) :
  strbuf_append t1 b = None -> strbuf_append (t1 +:+ t2) b = None.
Proof. intros Hnone. by rewrite <- strbuf_append_app, Hnone. Qed.

Section for_each_spec.
Context {A : Type} (item_out : A -> strbuf -> option strbuf) (lit : A -> option string).

Lemma strbuf_for_each_spec (l : list A) :
  Forall (fun x => forall b, item_out x b = t ← lit x; strbuf_append t b) l ->
  forall (first : bool) (b : strbuf),
    1 <= sb_remaining b ->
    strbuf_for_each item_out l first b
    = parts ← mapM lit l; strbuf_append (lua_join_from first parts) b.
Proof.
  induction 1 as [|x l Hx Hl IH]; intros first b Hroom; simpl.
  - by rewrite strbuf_append_nil.
  - destruct (lit x) as [t|] eqn:Hlit; simpl.
    2: { destruct first; simpl; [by rewrite Hx, ?Hlit |].
         destruct (strbuf_append ", " b); simpl; [by rewrite Hx, ?Hlit | reflexivity]. }
    assert (Hhead : forall b0, 1 <= sb_remaining b0 ->
              (b1 ← (if first then Some b0 else strbuf_append ", " b0); item_out x b1)
              = strbuf_append ((if first then "" else ", ") +:+ t) b0).
    { intros b0 Hroom0. destruct first; simpl.
      - by rewrite Hx, ?Hlit.
      - apply strbuf_append_then. intros b1 _. by rewrite Hx, ?Hlit. }
    transitivity (strbuf_append ((if first then "" else ", ") +:+ t) b
                  ≫= strbuf_for_each item_out l false).
    { rewrite <- (Hhead b Hroom). destruct first; simpl; [reflexivity |].
      by destruct (strbuf_append ", " b). }
    destruct (mapM lit l) as [parts|] eqn:Hparts; simpl.
    + replace (match parts with [] => t | _ :: _ => t +:+ ", " +:+ lua_join parts end)
        with (t +:+ lua_join_from false parts)
        by (destruct parts; [by rewrite str_app_nil_r | reflexivity]).
      rewrite <- str_app_assoc.
      apply strbuf_append_then. intros b1 Hroom1. rewrite IH by done.
      by rewrite ?Hparts.
    + destruct (strbuf_append _ b) as [b1|] eqn:Happ; simpl; [| reflexivity].
      rewrite IH by (by apply strbuf_append_room in Happ).
      by rewrite ?Hparts.
Qed.
End for_each_spec.

Section serializer.
Context {libc : libc_printf}.

(** The serializer adds to the buffer exactly the literal of the value, when
    the value has one and it fits; otherwise it reports failure. *)
Lemma serialize_cjson_to_lua_spec (value : cJSON) :
  forall b : strbuf,
    serialize_cjson_to_lua value b = text ← lua_literal value; strbuf_append text b.
Proof.
  induction value as [| | | valueint valuedouble | s | items IH | items IH | s]
    using cJSON_tree_ind; intros b; simpl; try reflexivity.
  - by destruct (PrimFloat.eqb _ _).
  - apply strbuf_append_lua_string_spec.
  - destruct (mapM lua_literal items) as [parts|] eqn:Hparts; simpl.
    + rewrite <- str_app_assoc. rewrite <- strbuf_append_app.
      rewrite <- (strbuf_append_then "{" (lua_join parts)
                    (strbuf_for_each serialize_cjson_to_lua items true)).
      * by destruct (strbuf_append "{" b).
      * intros b1 Hroom1. rewrite (strbuf_for_each_spec _ lua_literal) by done.
        rewrite ?Hparts. simpl. unfold lua_join_from. destruct parts; [| reflexivity].
        reflexivity.
    + destruct (strbuf_append "{" b) as [b1|] eqn:Happ; simpl; [| reflexivity].
      rewrite (strbuf_for_each_spec _ lua_literal)
        by (try done; by apply strbuf_append_room in Happ).
      by rewrite ?Hparts.
  - set (member_out := fun (member : string * cJSON) (b : strbuf) =>
                         b ← strbuf_append "[" b;
                         b ← strbuf_append_lua_string member.1 b;
                         b ← strbuf_append "] = " b;
                         serialize_cjson_to_lua member.2 b).
    set (member_lit := fun member : string * cJSON =>
                         t ← lua_literal member.2;
                         Some ("[" +:+ lua_quoted member.1 +:+ "] = " +:+ t)).
    assert (Hmembers : Forall (fun m => forall b, member_out m b
                                      = t ← member_lit m; strbuf_append t b) items).
    { eapply Forall_impl; [exact IH |]. intros [key x] Hx b0. simpl in Hx.
      unfold member_out, member_lit. simpl.
      destruct (lua_literal x) as [t|] eqn:Hlit; simpl.
      - apply strbuf_append_then. intros b1 _.
        rewrite strbuf_append_lua_string_spec.
        apply strbuf_append_then. intros b2 _.
        apply strbuf_append_then. intros b3 _.
        by rewrite Hx.
      - destruct (strbuf_append "[" b0) as [b1|]; simpl; [| reflexivity].
        destruct (strbuf_append_lua_string key b1) as [b2|]; simpl; [| reflexivity].
        destruct (strbuf_append "] = " b2) as [b3|]; simpl; [| reflexivity].
        by rewrite Hx, ?Hlit. }
    destruct (mapM member_lit items) as [parts|] eqn:Hparts; simpl.
    + rewrite <- str_app_assoc. rewrite <- strbuf_append_app.
      rewrite <- (strbuf_append_then "{" (lua_join parts)
                    (strbuf_for_each member_out items true)).
      * by destruct (strbuf_append "{" b).
      * intros b1 Hroom1. rewrite (strbuf_for_each_spec _ member_lit) by done.
        rewrite ?Hparts. simpl. unfold lua_join_from. by destruct parts.
    + destruct (strbuf_append "{" b) as [b1|] eqn:Happ; simpl; [| reflexivity].
      rewrite (strbuf_for_each_spec _ member_lit)
        by (try done; by apply strbuf_append_room in Happ).
      by rewrite ?Hparts.
Qed.

End serializer.

(** The escaping rule, character by character: backslash and quote get a
    backslash in front; line feed, carriage return and tab are written as
    their short escapes; every other byte below 0x20 is written as a
    backslash, an x and its two upper-case hex digits; every other byte,
    DEL and the bytes from 0x80 on included, is copied. *)
Lemma lua_literal_char_rules (c : ascii) :
  let n := N_of_ascii c in
  (n = 92%N -> lua_literal_char c = "\\") /\
  (n = 34%N -> lua_literal_char c = String "\" (String dquote EmptyString)) /\
  (n = 10%N -> lua_literal_char c = "\n") /\
  (n = 13%N -> lua_literal_char c = "\r") /\
  (n = 9%N -> lua_literal_char c = "\t") /\
  ((n < 32)%N -> n <> 10%N -> n <> 13%N -> n <> 9%N ->
   exists hi lo : ascii,
     String.get (N.to_nat (n / 16)) "0123456789ABCDEF" = Some hi /\
     String.get (N.to_nat (n mod 16)) "0123456789ABCDEF" = Some lo /\
     lua_literal_char c = String "\" (String "x" (String hi (String lo EmptyString)))) /\
  ((32 <= n)%N -> n <> 92%N -> n <> 34%N ->
   lua_literal_char c = String c EmptyString).
Proof.
  destruct c as [[] [] [] [] [] [] [] []]; cbn -[N.lt N.le String.get];
    repeat split; intros; try reflexivity; try lia; try done.
  all: try (do 2 eexists; repeat split; reflexivity).
  all: exfalso; lia.
Qed.

(** C7, as the claim words it, fails on DEL: the byte 0x7F is a control
    character outside the printable range, which the specification's rule
    writes as a hex escape, and the serializer copies it. *)
Lemma serialize_cjson_to_lua_copies_del :
  is_printable "127" = false /\
  spec_lua_literal_char "127" = "\x7F" /\
  sb_out <$> serialize_cjson_to_lua (libc := toy_printf)
               (cJSON_String (String "127" EmptyString))
               {| sb_out := ""; sb_remaining := 2048 |}
  = Some (String dquote (String "127" (String dquote EmptyString))).
Proof. repeat split; vm_compute; reflexivity. Qed.

(** C7. [serialize_cjson_to_lua] appends to the buffer exactly the Lua
    literal of the value, whole, when the value has one and it fits with
    room for the terminator; otherwise it reports failure. The literal
    follows the rules: null is nil; true and false pass through; a number
    equal to its integer field is that integer without a decimal point, any
    other number is printed with 17 significant digits; a string is quoted,
    with a backslash before backslash and quote, the short escapes for line
    feed, carriage return and tab, a backslash, an x and two upper-case hex
    digits for every other byte below 0x20, and every other byte (DEL and
    the bytes from 0x80 on included) copied; an array is a brace list of
    its elements, an object a brace list of bracketed quoted keys with
    their values; a node of another kind has no literal. *)
Theorem serialize_cjson_to_lua_rules {libc : libc_printf} (value : cJSON) (b : strbuf) :
  serialize_cjson_to_lua value b
  = match lua_literal value with
    | Some text =>
        if (sb_remaining b <=? String.length text)%nat then None
        else Some {| sb_out := sb_out b +:+ text;
                     sb_remaining := sb_remaining b - String.length text |}
    | None => None
    end /\
  (forall b' : strbuf,
     serialize_cjson_to_lua value b = Some b' ->
     exists text : string,
       lua_literal value = Some text /\ sb_out b' = sb_out b +:+ text /\
       String.length text < sb_remaining b) /\
  lua_literal cJSON_NULL = Some "nil" /\
  lua_literal cJSON_True = Some "true" /\
  lua_literal cJSON_False = Some "false" /\
  (forall (valueint : Z) (valuedouble : float),
     PrimFloat.eqb (double_of_int valueint) valuedouble = true ->
     lua_literal (cJSON_Number valueint valuedouble) = Some (fmt_d valueint) /\
     strstr (fmt_d valueint) "." = false) /\
  (forall (valueint : Z) (valuedouble : float),
     PrimFloat.eqb (double_of_int valueint) valuedouble = false ->
     lua_literal (cJSON_Number valueint valuedouble) = Some (fmt_g17 valuedouble)) /\
  (forall s : string,
     lua_literal (cJSON_String s)
     = Some (String dquote (lua_literal_chars s +:+ String dquote EmptyString))) /\
  (forall c : ascii,
     let n := N_of_ascii c in
     (n = 92%N -> lua_literal_char c = "\\") /\
     (n = 34%N -> lua_literal_char c = String "\" (String dquote EmptyString)) /\
     (n = 10%N -> lua_literal_char c = "\n") /\
     (n = 13%N -> lua_literal_char c = "\r") /\
     (n = 9%N -> lua_literal_char c = "\t") /\
     ((n < 32)%N -> n <> 10%N -> n <> 13%N -> n <> 9%N ->
      exists hi lo : ascii,
        String.get (N.to_nat (n / 16)) "0123456789ABCDEF" = Some hi /\
        String.get (N.to_nat (n mod 16)) "0123456789ABCDEF" = Some lo /\
        lua_literal_char c = String "\" (String "x" (String hi (String lo EmptyString)))) /\
     ((32 <= n)%N -> n <> 92%N -> n <> 34%N ->
      lua_literal_char c = String c EmptyString)) /\
  (forall items : list cJSON,
     lua_literal (cJSON_Array items)
     = parts ← mapM lua_literal items; Some ("{" +:+ lua_join parts +:+ "}")) /\
  (forall items : list (string * cJSON),
     lua_literal (cJSON_Object items)
     = parts ← mapM (fun member : string * cJSON =>
                       t ← lua_literal member.2;
                       Some ("[" +:+ lua_quoted member.1 +:+ "] = " +:+ t)) items;
       Some ("{" +:+ lua_join parts +:+ "}")) /\
  (forall s : string, lua_literal (cJSON_Raw s) = None).
Proof.
  assert (Hrun : serialize_cjson_to_lua value b
                 = match lua_literal value with
                   | Some text =>
                       if (sb_remaining b <=? String.length text)%nat then None
                       else Some {| sb_out := sb_out b +:+ text;
                                    sb_remaining := sb_remaining b - String.length text |}
                   | None => None
                   end).
  { rewrite serialize_cjson_to_lua_spec. by destruct (lua_literal value). }
  split; [exact Hrun |]. split.
  { intros b'. rewrite Hrun. destruct (lua_literal value) as [text|]; [| discriminate].
    destruct (Nat.leb_spec (sb_remaining b) (String.length text)); [discriminate |].
    intros [= <-]. exists text. by repeat split. }
  repeat (split; [reflexivity |]).
  split.
  { intros valueint valuedouble Hint. simpl. rewrite Hint.
    split; [reflexivity | apply fmt_d_no_point]. }
  split.
  { intros valueint valuedouble Hint. simpl. by rewrite Hint. }
  split; [reflexivity |].
  split; [apply lua_literal_char_rules |].
  repeat split; reflexivity.
Qed.

Lemma serialize_cjson_to_lua_rules_witness :
  lua_literal (libc := toy_printf) (cJSON_CreateNumber_int 60) = Some "60" /\
  strstr "60" "." = false.
Proof.
  exact (proj1 (proj2 (proj2 (proj2 (proj2 (proj2
           (serialize_cjson_to_lua_rules (libc := toy_printf) sample_opts
              {| sb_out := ""; sb_remaining := 2048 |}))))))
           60%Z (double_of_int 60) eq_refl).
Defined.

Example serialize_reports_exhaustion :
  serialize_cjson_to_lua (libc := toy_printf) sample_opts
    {| sb_out := ""; sb_remaining := 40 |} = None.
Proof. vm_compute. reflexivity. Qed.

(** ** C1: restart while the entry point is running *)

Ltac rt_unfold :=
  unfold lua_runtime_restart, lua_runtime_exec, lua_runtime_start, stop_running_task,
    xTaskCreate_lua_task, create_vm, destroy_vm, vTaskDelete, vTaskDelay,
    lua_task_entered, lua_task_finished,
    set_kernel_tasks, set_lua_task_handle, set_lua_task_running, set_L, rt_moment,
    vm_users, rt_get, rt_put, mbind, rtM_bind, mret, rtM_ret.

Section lifecycle.
Context {lua : lua_lib}.


Lemma stop_running_task_idle (ms : Z) (s : lua_runtime) :
  lua_task_handle s = None -> stop_running_task ms s = (false, s, []).
Proof. intros Hhandle. rt_unfold. by rewrite Hhandle. Qed.

Lemma lua_runtime_start_idle (s : lua_runtime) :
  lua_task_handle s = None ->
  kernel_tasks s = [] ->
  lua_runtime_start true s
  = (ESP_OK,
     {| L := L s; lua_task_handle := Some (kernel_next_handle s);
        lua_task_running := lua_task_running s;
        kernel_tasks := [(kernel_next_handle s, TaskScheduled)];
        kernel_next_handle := S (kernel_next_handle s) |},
     [[LuaTaskContext (kernel_next_handle s)]]) /\
  lua_runtime_start false s = (ESP_FAIL, s, []).
Proof.
  intros Hhandle Htasks. destruct s as [vm0 handle running tasks next].
  simpl in *. subst handle tasks. split; reflexivity.
Qed.

(** X2. A second start while a task handle is set is refused and changes
    nothing. *)
Lemma lua_runtime_start_rejects (ok : bool) (s : lua_runtime) (h : TaskHandle_t) :
  lua_task_handle s = Some h ->
  lua_runtime_start ok s = (ESP_ERR_INVALID_STATE, s, []).
Proof. intros Hhandle. rt_unfold. by rewrite Hhandle. Qed.



End lifecycle.



(** ** C8: running a snippet against the current VM *)

Section exec.
Context {lua : lua_lib}.

(** What [lua_runtime_exec] does in terms of the stack it finds after the
    snippet. Let the snippet return with status [ret], leaving the VM in state
    [vm1], and let the kernel be able to create a task. If the snippet
    succeeded and the stack is not empty, the result buffer receives the
    text of the top value and the call answers ESP_OK; if the stack is
    empty it receives "ok"; if the snippet raised, it receives "error: "
    followed by the message and the call answers ESP_FAIL. The buffer
    receives the text through [snprintf], whole when it fits. In each case a
    background task exists afterwards if and only if the handle was set when
    [lua_runtime_exec] was called; it is then a new task, and the old one is
    gone. At every moment of the call at most one context is inside the
    VM. *)
Theorem lua_runtime_exec_result (code result0 : string) (max_len : nat)
    (s : lua_runtime) (vm vm1 : lua_State) (ret : Z) :
  rt_consistent s ->
  L s = Some vm ->
  luaL_dostring vm code = Some (ret, vm1) ->
  exists (status : esp_err_t) (text : string) (s' : lua_runtime)
         (moments : list (list context)),
    lua_runtime_exec true (Some code) result0 max_len s
      = (Some (status, snprintf max_len text), s', moments) /\
    (ret = LUA_OK -> (0 < lua_gettop vm1)%Z ->
     status = ESP_OK /\ text = default "nil" (luaL_tolstring vm1 (-1)).1) /\
    (ret = LUA_OK -> (lua_gettop vm1 <= 0)%Z -> status = ESP_OK /\ text = "ok") /\
    (ret <> LUA_OK ->
     status = ESP_FAIL /\ text = "error: " +:+ default "unknown" (lua_tostring vm1 (-1))) /\
    (String.length text < max_len -> snprintf max_len text = text) /\
    (is_Some (lua_task_handle s') <-> is_Some (lua_task_handle s)) /\
    (forall h : TaskHandle_t,
       lua_task_handle s = Some h ->
       exists h' : TaskHandle_t,
         h' <> h /\ lua_task_handle s' = Some h' /\
         kernel_tasks s' = [(h', TaskScheduled)]) /\
    (lua_task_handle s = None -> kernel_tasks s' = []) /\
    rt_consistent s' /\
    Forall (fun inside => length inside <= 1) moments.
Proof.
  intros Hcons Hvm Hrun. unfold rt_consistent in Hcons.
  destruct (luaL_tolstring vm1 (-1)) as [str vm2] eqn:Htol. simpl.
  destruct s as [vm0 handle running tasks next]. simpl in *. subst vm0.
  destruct handle as [h|].
  - destruct Hcons as [-> Hbelow].
    destruct (decide (ret = LUA_OK)) as [Hok | Hraised].
    + destruct (Z.gtb_spec (lua_gettop vm1) 0) as [Htop | Hempty].
      * exists ESP_OK, (default "nil" str).
        do 2 eexists. split.
        { rt_unfold. simpl. rewrite Hrun. simpl.
          destruct (decide (h = h)); [| done].
          rewrite bool_decide_eq_false_2 by (intros Hne; by apply Hne).
          destruct (Z.gtb_spec (lua_gettop vm1) 0); [| lia].
          rewrite Htol. reflexivity. }
        simpl. split; [done |]. split; [intros; lia |]. split; [done |].
        split; [intros Hfit; apply snprintf_fits; simpl in *; lia |]. split; [split; eauto |].
        split; [intros h0 [= <-]; exists next; repeat split; lia |].
        split; [discriminate |].
        split; [unfold rt_consistent; simpl; split; [reflexivity | lia] |].
        repeat (constructor; [simpl; lia |]). constructor.
      * exists ESP_OK, "ok". do 2 eexists. split.
        { rt_unfold. simpl. rewrite Hrun. simpl.
          destruct (decide (h = h)); [| done].
          rewrite bool_decide_eq_false_2 by (intros Hne; by apply Hne).
          destruct (Z.gtb_spec (lua_gettop vm1) 0); [lia |]. reflexivity. }
        simpl. split; [intros; lia |]. split; [done |]. split; [done |].
        split; [intros Hfit; apply snprintf_fits; simpl in *; lia |]. split; [split; eauto |].
        split; [intros h0 [= <-]; exists next; repeat split; lia |].
        split; [discriminate |].
        split; [unfold rt_consistent; simpl; split; [reflexivity | lia] |].
        repeat (constructor; [simpl; lia |]). constructor.
    + exists ESP_FAIL, ("error: " +:+ default "unknown" (lua_tostring vm1 (-1))).
      do 2 eexists. split.
      { rt_unfold. simpl. rewrite Hrun. simpl.
        destruct (decide (h = h)); [| done].
        rewrite bool_decide_eq_true_2 by done. reflexivity. }
      simpl. split; [done |]. split; [done |]. split; [done |].
      split; [intros Hfit; apply snprintf_fits; simpl in *; lia |]. split; [split; eauto |].
      split; [intros h0 [= <-]; exists next; repeat split; lia |].
      split; [discriminate |].
      split; [unfold rt_consistent; simpl; split; [reflexivity | lia] |].
      repeat (constructor; [simpl; lia |]). constructor.
  - subst tasks.
    destruct (decide (ret = LUA_OK)) as [Hok | Hraised].
    + destruct (Z.gtb_spec (lua_gettop vm1) 0) as [Htop | Hempty].
      * exists ESP_OK, (default "nil" str).
        do 2 eexists. split.
        { rt_unfold. simpl. rewrite Hrun. simpl.
          rewrite bool_decide_eq_false_2 by (intros Hne; by apply Hne).
          destruct (Z.gtb_spec (lua_gettop vm1) 0); [| lia].
          rewrite Htol. reflexivity. }
        simpl. split; [done |]. split; [intros; lia |]. split; [done |].
        split; [intros Hfit; apply snprintf_fits; simpl in *; lia |]. split; [split; intros []; discriminate |].
        split; [discriminate |]. split; [done |]. split; [done |].
        repeat (constructor; [simpl; lia |]). constructor.
      * exists ESP_OK, "ok". do 2 eexists. split.
        { rt_unfold. simpl. rewrite Hrun. simpl.
          rewrite bool_decide_eq_false_2 by (intros Hne; by apply Hne).
          destruct (Z.gtb_spec (lua_gettop vm1) 0); [lia |]. reflexivity. }
        simpl. split; [intros; lia |]. split; [done |]. split; [done |].
        split; [intros Hfit; apply snprintf_fits; simpl in *; lia |]. split; [split; intros []; discriminate |].
        split; [discriminate |]. split; [done |]. split; [done |].
        repeat (constructor; [simpl; lia |]). constructor.
    + exists ESP_FAIL, ("error: " +:+ default "unknown" (lua_tostring vm1 (-1))).
      do 2 eexists. split.
      { rt_unfold. simpl. rewrite Hrun. simpl.
        rewrite bool_decide_eq_true_2 by done. reflexivity. }
      simpl. split; [done |]. split; [done |]. split; [done |].
      split; [intros Hfit; apply snprintf_fits; simpl in *; lia |]. split; [split; intros []; discriminate |].
      split; [discriminate |]. split; [done |]. split; [done |].
      repeat (constructor; [simpl; lia |]). constructor.
Qed.

End exec.

(** C8. The result is read off the absolute top of the stack, and two
    slots are popped whatever the snippet returned. After a snippet that
    returns two values one of them stays behind, and the next snippet, which
    leaves no value, is answered with that stale value where the claim has
    "ok". And when the kernel cannot create the task, a snippet run while
    [main.lua] was running is answered ESP_OK with no background task left:
    the status of the relaunch is dropped. *)
Lemma lua_runtime_exec_stale_value :
  (lua_runtime_exec (lua := toy_lua) true (Some "return 1, 2") "" 2048 sample_runtime).1.1
  = Some (ESP_OK, "2") /\
  L (lua_runtime_exec (lua := toy_lua) true (Some "return 1, 2") "" 2048
       sample_runtime).1.2
  = Some (toy_state ["1"]) /\
  luaL_dostring (lua_lib := toy_lua) (toy_state ["1"]) "x = 5"
  = Some (LUA_OK, toy_state ["1"]) /\
  (lua_runtime_exec (lua := toy_lua) true (Some "x = 5") "" 2048
     (lua_runtime_exec (lua := toy_lua) true (Some "return 1, 2") "" 2048
        sample_runtime).1.2).1.1
  = Some (ESP_OK, "1") /\
  (lua_runtime_exec (lua := toy_lua) false (Some "x = 5") "" 2048 sample_runtime).1.1
  = Some (ESP_OK, "ok") /\
  lua_task_handle sample_runtime = Some 1 /\
  kernel_tasks
    (lua_runtime_exec (lua := toy_lua) false (Some "x = 5") "" 2048 sample_runtime).1.2
  = [].
Proof. repeat split; vm_compute; reflexivity. Qed.

Lemma lua_runtime_exec_result_witness :
  exists (s' : lua_runtime) (moments : list (list context)),
    lua_runtime_exec (lua := toy_lua) true (Some "return 42") "" 2048 sample_runtime
      = (Some (ESP_OK, "42"), s', moments) /\
    kernel_tasks s' = [(2, TaskScheduled)].
Proof.
  assert (Hcons : rt_consistent sample_runtime)
    by (split; [reflexivity | simpl; lia]).
  destruct (lua_runtime_exec_result (lua := toy_lua) "return 42" "" 2048 sample_runtime
              (toy_state []) (toy_state ["42"]) LUA_OK Hcons eq_refl eq_refl)
    as (status & text & s' & moments & Hrun & Hvalue & _ & _ & Hfit & _ & Hrelaunch & _).
  destruct (Hvalue eq_refl) as [-> ->]; [simpl; lia |].
  exists s', moments. split.
  - rewrite Hrun. reflexivity.
  - vm_compute in Hrun. injection Hrun as <- _. reflexivity.
Defined.

(** ** The log query (C10) *)

Lemma int_of_size_t_small (x : Z) : (0 <= x <= INT_MAX)%Z -> int_of_size_t x = x.
Proof.
  unfold int_of_size_t, wrap32, INT_MAX. intros Hx.
  rewrite (Z.mod_small x) by lia. rewrite Z.mod_small by lia. lia.
Qed.

Lemma ob_push_good (s : string) (b : outbuf) : ob_good b -> ob_good (ob_push s b).
Proof. unfold ob_good, ob_push. simpl. intros ->. rewrite str_length_app. lia. Qed.

Lemma ob_push_push (s1 s2 : string) (b : outbuf) :
  ob_push s2 (ob_push s1 b) = ob_push (s1 +:+ s2) b.
Proof.
  unfold ob_push. simpl. f_equal.
  - by rewrite str_app_assoc.
  - rewrite str_length_app. lia.
Qed.

Lemma ob_push_nil (b : outbuf) : ob_push "" b = b.
Proof.
  destruct b as [text written]. unfold ob_push. simpl. f_equal.
  - apply str_app_nil_r.
  - lia.
Qed.

(** A [snprintf] at the cursor with room for the text and its terminator
    writes the text whole. *)
Lemma ob_snprintf_fits (max_len : nat) (s : string) (b : outbuf) :
  (ob_written b + Z.of_nat (String.length s) < Z.of_nat max_len)%Z ->
  ob_snprintf max_len s b = Some (ob_push s b).
Proof.
  intros Hroom. unfold ob_snprintf, ob_push.
  destruct (Z.ltb_spec (Z.of_nat max_len - ob_written b) 0) as [Hneg | _]; [lia |].
  rewrite str_take_all; [reflexivity | lia].
Qed.

Lemma ob_putc_fits (max_len : nat) (c : ascii) (b : outbuf) :
  ob_good b -> (ob_written b < Z.of_nat max_len)%Z ->
  ob_putc max_len c b = Some (ob_push (String c EmptyString) b).
Proof.
  unfold ob_good, ob_putc, ob_push. intros Hgood Hroom.
  destruct (Z.leb_spec 0 (ob_written b)); [| lia].
  destruct (Z.ltb_spec (ob_written b) (Z.of_nat max_len)); [| lia].
  reflexivity.
Qed.

(** ["%lld"] needs at most twenty characters. *)
Lemma pretty_N_go_length (k : nat) :
  forall (x : N) (s : string),
    (x < 10 ^ N.of_nat k)%N -> String.length (pretty_N_go x s) <= String.length s + k.
Proof.
  induction k as [|k IH]; intros x s Hx.
  - replace x with 0%N by (simpl in Hx; lia). rewrite pretty_N_go_0. lia.
  - destruct (decide (0 < x)%N) as [Hpos | Hzero].
    + rewrite pretty_N_go_step by done.
      etransitivity; [apply IH |]; [| simpl; lia].
      apply N.Div0.div_lt_upper_bound.
      rewrite Nat2N.inj_succ, N.pow_succ_r' in Hx. exact Hx.
    + replace x with 0%N by lia. rewrite pretty_N_go_0. lia.
Qed.

Lemma fmt_d_length (z : Z) : int64_range z -> String.length (fmt_d z) <= 20.
Proof.
  unfold int64_range. intros Hz.
  assert (HN : forall n : N, (n < 10 ^ 19)%N -> String.length (pretty n) <= 19).
  { intros n Hn. unfold pretty, pretty_N. case_decide; [simpl; lia |].
    apply (pretty_N_go_length 19 n ""). exact Hn. }
  unfold fmt_d, pretty, pretty_Z.
  destruct z as [|p|p]; [simpl; lia | |].
  - etransitivity; [apply HN |]; lia.
  - rewrite str_app_cons, str_app_nil_l. simpl.
    apply le_n_S. apply HN. lia.
Qed.

Lemma get_logs_entry_head_length (e : log_entry_t) :
  int64_range (log_timestamp_ms e) -> String.length (get_logs_entry_head e) <= 33.
Proof.
  intros Hts%fmt_d_length. unfold get_logs_entry_head.
  rewrite !str_length_app.
  change (String.length (json_text "{'t':")) with 5.
  change (String.length (json_text ",'msg':'")) with 8. lia.
Qed.

(** The two comparisons of a clamp. *)
Ltac clamp_cases :=
  cbv zeta;
  repeat match goal with
         | |- context [(?x <? ?y)%Z] => destruct (Z.ltb_spec x y); cbv iota
         | |- context [(?x >? ?y)%Z] => destruct (Z.gtb_spec x y); cbv iota
         end;
  lia.

Lemma log_walk_wf {cfg : sdkconfig} (st : log_state) :
  log_state_wf st -> Forall (fun e => int64_range (log_timestamp_ms e)) (log_walk st).
Proof.
  intros (_ & _ & _ & Hring). unfold log_walk. apply Forall_forall.
  intros e (i & -> & _)%list_elem_of_fmap. unfold log_ring_at.
  destruct (s_log_ring st !! _) as [e|] eqn:Hlookup; simpl.
  - eapply (Forall_lookup_1 _ _ _ _ Hring Hlookup).
  - unfold int64_range. simpl. lia.
Qed.

Lemma get_logs_max_lines_range {cfg : sdkconfig} (args : option cJSON) :
  (1 <= LOG_MAX_LINES)%Z ->
  (1 <= get_logs_max_lines args <= Z.max 20 LOG_MAX_LINES)%Z.
Proof.
  intros Hmax. unfold get_logs_max_lines.
  destruct args as [a|]; [| lia].
  destruct (cJSON_GetObjectItem a "lines") as [[| | |n d| | | |]|]; try lia.
  clamp_cases.
Qed.

(** Side conditions on the cursor. *)
Ltac ob_side :=
  unfold ob_good, ob_push in *; simpl in *; rewrite ?str_length_app in *; simpl in *; lia.

(** The escaped form of printable text is the inside of a JSON string. *)
Lemma log_escape_char_json (c : ascii) (body : string) :
  log_printable c = true -> json_string_body body = true ->
  json_string_body (log_escape_char c +:+ body) = true.
Proof.
  destruct c as [[] [] [] [] [] [] [] []]; intros Hc Hbody; try discriminate Hc;
    cbn; exact Hbody.
Qed.

Lemma log_escape_json (text : string) :
  str_forall log_printable text = true ->
  forall k : nat, json_string_body (log_escape (str_take k text)) = true.
Proof.
  induction text as [|c text IH]; intros Hall k.
  - by destruct k.
  - simpl in Hall. apply andb_true_iff in Hall as [Hc Hall].
    destruct k as [|k]; [reflexivity |].
    cbn [str_take log_escape]. apply log_escape_char_json; [done | by apply IH].
Qed.

Section get_logs.
Context {cfg : sdkconfig}.
Variable max_len : nat.
Hypothesis max_len_range : (101 <= Z.of_nat max_len <= INT_MAX)%Z.

(** The escaping loop writes the escaped form of the first bytes of the
    text and stops nineteen bytes before the end of the buffer at the
    latest. *)
Lemma get_logs_escape_spec (text : string) :
  forall b : outbuf,
    ob_good b -> (ob_written b <= Z.of_nat max_len - 19)%Z ->
    exists k : nat,
      get_logs_escape max_len text b = Some (ob_push (log_escape (str_take k text)) b) /\
      (ob_written (ob_push (log_escape (str_take k text)) b) <= Z.of_nat max_len - 19)%Z.
Proof using max_len_range.
  induction text as [|c text IH]; intros b Hgood Hroom.
  - exists 0. rewrite ob_push_nil. done.
  - simpl get_logs_escape.
    assert (Hbound : int_of_size_t (Z.of_nat max_len - 20) = (Z.of_nat max_len - 20)%Z)
      by (apply int_of_size_t_small; lia).
    rewrite Hbound.
    destruct (Z.ltb_spec (ob_written b) (Z.of_nat max_len - 20)) as [Hlt | Hge];
      [| exists 0; rewrite ob_push_nil; done].
    assert (Htwo : forall x : ascii,
               exists k : nat,
                 ((ob_putc max_len "\" b ≫= ob_putc max_len x)
                    ≫= get_logs_escape max_len text)
                 = Some (ob_push (String "\" (String x (log_escape (str_take k text)))) b) /\
                 (ob_written (ob_push (String "\" (String x (log_escape (str_take k text)))) b)
                  <= Z.of_nat max_len - 19)%Z).
    { intros x. rewrite (ob_putc_fits max_len "\" b) by ob_side. simpl.
      rewrite ob_putc_fits by ob_side. simpl.
      destruct (IH (ob_push (String x EmptyString) (ob_push (String "\" EmptyString) b)))
        as (k & Hrun & Hend);
        [ob_side | ob_side |].
      exists k.
      rewrite Hrun, !ob_push_push, !str_app_cons, !str_app_nil_l.
      split; [reflexivity |].
      by rewrite !ob_push_push, !str_app_cons, !str_app_nil_l in Hend. }
    unfold log_escape_char.
    assert (Hstep : forall k : nat,
               log_escape (str_take (S k) (String c text))
               = log_escape_char c +:+ log_escape (str_take k text)) by reflexivity.
    destruct (Ascii.eqb c dquote) eqn:Hquote.
    { destruct (Htwo dquote) as (k & Hrun & Hend). exists (S k).
      rewrite Hstep. unfold log_escape_char. rewrite Hquote.
      by rewrite !str_app_cons, !str_app_nil_l. }
    destruct (Ascii.eqb c "\") eqn:Hback.
    { destruct (Htwo "\"%char) as (k & Hrun & Hend). exists (S k).
      rewrite Hstep. unfold log_escape_char. rewrite Hquote, Hback.
      by rewrite !str_app_cons, !str_app_nil_l. }
    destruct (Ascii.eqb c "010") eqn:Hnl.
    { destruct (Htwo "n"%char) as (k & Hrun & Hend). exists (S k).
      rewrite Hstep. unfold log_escape_char. rewrite Hquote, Hback, Hnl.
      by rewrite !str_app_cons, !str_app_nil_l. }
    rewrite ob_putc_fits by ob_side. simpl.
    destruct (IH (ob_push (String c EmptyString) b)) as (k & Hrun & Hend);
      [ob_side | ob_side |].
    exists (S k). rewrite Hstep. unfold log_escape_char. rewrite Hquote, Hback, Hnl.
    rewrite Hrun, !ob_push_push, !str_app_cons, !str_app_nil_l.
    split; [reflexivity |].
    by rewrite !ob_push_push, !str_app_cons, !str_app_nil_l in Hend.
Qed.

Lemma json_join_snoc (items : list string) (item : string) :
  json_join (items ++ [item])
  = match items with
    | [] => item
    | _ => json_join items +:+ "," +:+ item
    end.
Proof.
  induction items as [|a items IH]; [reflexivity |].
  destruct items as [|a' items]; [reflexivity |].
  change (json_join ((a :: a' :: items) ++ [item]))
    with (a +:+ "," +:+ json_join ((a' :: items) ++ [item])).
  rewrite IH.
  change (json_join (a :: a' :: items)) with (a +:+ "," +:+ json_join (a' :: items)).
  by rewrite !str_app_assoc.
Qed.

Lemma option_bind_Some {A B : Type} (x : A) (f : A -> option B) : Some x ≫= f = f x.
Proof. reflexivity. Qed.

(** One entry of the listing: separator, head, escaped text, closing. *)
Lemma get_logs_entry_spec (e : log_entry_t) (first : bool) (b : outbuf) :
  int64_range (log_timestamp_ms e) ->
  ob_good b -> (ob_written b <= Z.of_nat max_len - 100)%Z ->
  exists item : string,
    json_log_entry e item /\
    let b4 := ob_push ((if first then "" else ",") +:+ item) b in
    (ob_written b4 <= Z.of_nat max_len - 17)%Z /\
    get_logs_entry max_len e first b = Some b4.
Proof using max_len_range.
  intros Hts%get_logs_entry_head_length Hgood Hroom. unfold get_logs_entry.
  set (sep := if first then "" else ",").
  assert (Hsep : (if first then Some b else ob_snprintf max_len "," b)
                 = Some (ob_push sep b)).
  { subst sep. destruct first; [by rewrite ob_push_nil |].
    apply ob_snprintf_fits. simpl. lia. }
  assert (Hseplen : String.length sep <= 1) by (subst sep; destruct first; simpl; lia).
  clearbody sep. remember (get_logs_entry_head e) as head eqn:Hhead.
  destruct (get_logs_escape_spec (log_text e)
              (ob_push head (ob_push sep b)))
    as (k & Hescape & Hend); [ob_side | ob_side |].
  remember (log_escape (str_take k (log_text e))) as body eqn:Hbody.
  exists (head +:+ body +:+ json_text "'}").
  split; [| split].
  - exists k. subst head body. unfold get_logs_entry_head. by rewrite !str_app_assoc.
  - change (String.length (json_text "'}")) with 2 in *. ob_side.
  - rewrite Hsep, option_bind_Some.
    rewrite ob_snprintf_fits, option_bind_Some by ob_side.
    rewrite Hescape, option_bind_Some.
    rewrite ob_snprintf_fits by ob_side.
    by rewrite !ob_push_push, ?str_app_assoc.
Qed.

(** The second pass extends a listing by whole entries, each one of a
    selected ring entry, at most as many as are left after the skipped ones,
    and leaves room for the closing bracket. *)
Lemma get_logs_emit_spec (min_level : esp_log_level_t) (filter : option string)
    (entries : list log_entry_t) :
  Forall (fun e => int64_range (log_timestamp_ms e)) entries ->
  forall (skip : Z) (b : outbuf) (items : list string),
    ob_good b -> (ob_written b <= Z.of_nat max_len - 100)%Z ->
    ob_text b = "[" +:+ json_join items ->
    exists (b' : outbuf) (items' : list string),
      get_logs_emit max_len min_level filter entries skip
        (match items with [] => true | _ => false end) b = Some b' /\
      ob_good b' /\ (ob_written b' <= Z.of_nat max_len - 17)%Z /\
      ob_text b' = "[" +:+ json_join (items ++ items') /\
      Forall (fun item => exists e, e ∈ entries /\
                log_selected min_level filter e = true /\ json_log_entry e item) items' /\
      (Z.of_nat (length items')
       <= Z.max 0 (Z.of_nat (length (List.filter (log_selected min_level filter) entries))
                   - Z.max 0 skip))%Z.
Proof using max_len_range.
  intros Hwf. induction Hwf as [|e rest Hts Hwf IH]; intros skip b items Hgood Hroom Htext.
  { exists b, []. rewrite app_nil_r. simpl.
    repeat split; [done | lia | done | apply List.Forall_nil | lia]. }
  assert (Hfurther : forall items' : list string,
             Forall (fun item => exists e', e' ∈ rest /\
                       log_selected min_level filter e' = true /\ json_log_entry e' item) items' ->
             Forall (fun item => exists e', e' ∈ e :: rest /\
                       log_selected min_level filter e' = true /\ json_log_entry e' item) items').
  { intros items' Hall. eapply Forall_impl; [exact Hall |].
    intros item (e' & Hin & Hrest).
    exists e'. split; [by apply list_elem_of_further | exact Hrest]. }
  simpl get_logs_emit. simpl List.filter.
  destruct (log_selected min_level filter e) eqn:Hsel; simpl negb; cbv iota.
  2: { destruct (IH skip b items Hgood Hroom Htext)
         as (b' & items' & Hrun & Hgood' & Hend & Htext' & Hitems & Hcount).
       exists b', items'. repeat split; try done. by apply Hfurther. }
  destruct (Z.gtb_spec skip 0) as [Hskip | Hskip].
  { destruct (IH (skip - 1)%Z b items Hgood Hroom Htext)
      as (b' & items' & Hrun & Hgood' & Hend & Htext' & Hitems & Hcount).
    exists b', items'. repeat split; try done; [by apply Hfurther |].
    simpl length. lia. }
  destruct (get_logs_entry_spec e (match items with [] => true | _ => false end)
              b Hts Hgood Hroom) as (item & Hitem & Hend4 & Hentry).
  set (b4 := ob_push ((if match items with [] => true | _ => false end then "" else ",")
                      +:+ item) b) in *.
  assert (Hgood4 : ob_good b4) by by apply ob_push_good.
  assert (Htext4 : ob_text b4 = "[" +:+ json_join (items ++ [item])).
  { subst b4. unfold ob_push. simpl ob_text. rewrite Htext, json_join_snoc.
    destruct items as [|a items]; [by rewrite str_app_nil_r |].
    by rewrite !str_app_assoc. }
  assert (Hhere : exists e', e' ∈ e :: rest /\
                    log_selected min_level filter e' = true /\ json_log_entry e' item).
  { exists e. split; [apply list_elem_of_here | done]. }
  rewrite Hentry, option_bind_Some.
  assert (Hbound : int_of_size_t (Z.of_nat max_len - 100) = (Z.of_nat max_len - 100)%Z)
    by (apply int_of_size_t_small; lia).
  rewrite Hbound.
  destruct (Z.geb_spec (ob_written b4) (Z.of_nat max_len - 100)) as [Hfull | Hmore].
  { exists b4, [item]. repeat split; try done.
    - by apply List.Forall_cons.
    - simpl length. lia. }
  destruct (IH 0%Z b4 (items ++ [item]) Hgood4 ltac:(lia) Htext4)
    as (b' & items' & Hrun & Hgood' & Hend & Htext' & Hitems & Hcount).
  replace (match items ++ [item] with [] => true | _ => false end) with false in Hrun
    by (by destruct items).
  exists b', (item :: items'). repeat split; try done.
  - by rewrite <- app_assoc in Htext'.
  - apply List.Forall_cons; [exact Hhere | by apply Hfurther].
  - simpl length. lia.
Qed.

(** C10. Let the log system be initialised and let the result buffer have
    at least 101 bytes (the server passes 2048). Then, for every argument
    object: a numeric "lines" is clamped into [1, LOG_MAX_LINES], and 20 is
    used when there is none; a "level" that is none of the five names, or is
    absent, selects the minimum severity ESP_LOG_INFO; and the call succeeds
    with a complete bracketed list in the buffer. Each item of the list is
    the object of a selected ring entry: its timestamp and, as a closed
    string, the first bytes of its text with quote, backslash and line feed
    escaped, which is the inside of a JSON string whenever the text is
    printable ASCII and line feeds. There are at most as many items as the
    line count allows; the list is "[]" when the semaphore is not obtained
    and when no entry is selected. *)
Theorem tool_sys_get_logs_listing (mutex_taken : bool) (args : option cJSON)
    (st : log_state) :
  s_log_mutex st = true ->
  log_state_wf st ->
  let min_level := get_logs_min_level args in
  let max_lines := get_logs_max_lines args in
  let filter := get_logs_filter args in
  (forall (a : cJSON) (n : Z) (d : float),
      args = Some a -> cJSON_GetObjectItem a "lines" = Some (cJSON_Number n d) ->
      max_lines = Z.min (Z.max n 1) LOG_MAX_LINES /\ (1 <= max_lines <= LOG_MAX_LINES)%Z) /\
  ((forall a : cJSON, args = Some a ->
      forall (n : Z) (d : float), cJSON_GetObjectItem a "lines" <> Some (cJSON_Number n d)) ->
   max_lines = 20%Z) /\
  (forall (a : cJSON) (s : string),
      args = Some a -> cJSON_GetObjectItem a "level" = Some (cJSON_String s) ->
      s ∉ ["error"; "warn"; "debug"; "verbose"] -> min_level = ESP_LOG_INFO) /\
  ((forall a : cJSON, args = Some a ->
      forall s : string, cJSON_GetObjectItem a "level" <> Some (cJSON_String s)) ->
   min_level = ESP_LOG_INFO) /\
  exists items : list string,
    tool_sys_get_logs mutex_taken args max_len st = Some (ESP_OK, json_array items) /\
    Forall (fun item => exists e, e ∈ log_walk st /\
              log_selected min_level filter e = true /\ json_log_entry e item) items /\
    (Z.of_nat (length items) <= max_lines)%Z /\
    (mutex_taken = false -> items = []) /\
    (Forall (fun e => log_selected min_level filter e = false) (log_walk st) -> items = []) /\
    (forall (e : log_entry_t) (k : nat),
        str_forall log_printable (log_text e) = true ->
        json_string_body (log_escape (str_take k (log_text e))) = true).
Proof using max_len_range.
  intros Hmutex Hwf min_level max_lines filter.
  assert (Hlines : (1 <= LOG_MAX_LINES)%Z) by (destruct Hwf as (_ & ? & _); lia).
  pose proof (get_logs_max_lines_range args Hlines) as Hrange. fold max_lines in Hrange.
  split; [| split; [| split; [| split]]].
  - intros a n d -> Hitem. subst max_lines. unfold get_logs_max_lines in *.
    rewrite Hitem in *.
    clamp_cases.
  - intros Hnone. subst max_lines. unfold get_logs_max_lines.
    destruct args as [a|]; [| reflexivity].
    destruct (cJSON_GetObjectItem a "lines") as [[| | |n d| | | |]|] eqn:Hitem;
      try reflexivity.
    by destruct (Hnone a eq_refl n d).
  - intros a s -> Hitem Hnot. subst min_level. unfold get_logs_min_level.
    rewrite Hitem. unfold parse_level_string.
    destruct (String.eqb_spec s "error") as [-> | _];
      [exfalso; apply Hnot; repeat constructor |].
    destruct (String.eqb_spec s "warn") as [-> | _];
      [exfalso; apply Hnot; repeat constructor |].
    destruct (String.eqb_spec s "info") as [-> | _]; [reflexivity |].
    destruct (String.eqb_spec s "debug") as [-> | _];
      [exfalso; apply Hnot; repeat constructor |].
    destruct (String.eqb_spec s "verbose") as [-> | _];
      [exfalso; apply Hnot; repeat constructor |].
    reflexivity.
  - intros Hnone. subst min_level. unfold get_logs_min_level.
    destruct args as [a|]; [| reflexivity].
    destruct (cJSON_GetObjectItem a "level") as [[| | | | s | | |]|] eqn:Hitem;
      try reflexivity.
    by destruct (Hnone a eq_refl s).
  - assert (Hitems : exists items : list string,
               tool_sys_get_logs mutex_taken args max_len st
                 = Some (ESP_OK, json_array items) /\
               Forall (fun item => exists e, e ∈ log_walk st /\
                         log_selected min_level filter e = true /\
                         json_log_entry e item) items /\
               (Z.of_nat (length items) <= max_lines)%Z /\
               (mutex_taken = false -> items = [])).
    { unfold tool_sys_get_logs. rewrite Hmutex. simpl negb. cbv iota.
      rewrite (ob_snprintf_fits max_len "[") by (simpl; lia).
      rewrite option_bind_Some.
      set (b0 := ob_push "[" {| ob_text := ""; ob_written := 0 |}).
      assert (Hclose : forall (b : outbuf) (items : list string),
                 ob_good b -> (ob_written b <= Z.of_nat max_len - 17)%Z ->
                 ob_text b = "[" +:+ json_join items ->
                 (b2 ← ob_snprintf max_len "]" b;
                  Some (ESP_OK, str_take (max_len - 1) (ob_text b2)))
                 = Some (ESP_OK, json_array items)).
      { intros b items Hgood Hend Htext.
        rewrite ob_snprintf_fits, option_bind_Some by (simpl; lia).
        rewrite str_take_all by ob_side.
        unfold ob_push, json_array. simpl ob_text.
        by rewrite Htext, str_app_assoc. }
      destruct mutex_taken.
      - fold min_level max_lines filter.
        set (match_count := Z.of_nat (length (List.filter (log_selected min_level filter)
                                                          (log_walk st)))).
        set (skip := if (match_count >? max_lines)%Z
                     then (match_count - max_lines)%Z else 0%Z).
        destruct (get_logs_emit_spec min_level filter (log_walk st) (log_walk_wf st Hwf)
                    skip b0 [])
          as (b' & items & Hrun & Hgood & Hend & Htext & Hall & Hcount);
          [done | simpl; lia | done |].
        rewrite Hrun, option_bind_Some. exists items.
        split; [by apply Hclose |]. split; [exact Hall |]. split; [| done].
        fold match_count in Hcount. subst skip.
        destruct (Z.gtb_spec match_count max_lines); lia.
      - exists []. rewrite option_bind_Some.
        split; [by apply Hclose; [done | simpl; lia | done] |].
        split; [apply List.Forall_nil |]. split; [simpl; lia | done]. }
    destruct Hitems as (items & Hrun & Hall & Hcount & Hbusy).
    exists items.
    split; [exact Hrun |]. split; [exact Hall |]. split; [exact Hcount |].
    split; [exact Hbusy |]. split.
    + intros Hnone. destruct items as [|item items]; [reflexivity |].
      apply Forall_cons in Hall as [(e & Hin & Hsel & _) _].
      rewrite Forall_forall in Hnone. rewrite (Hnone e Hin) in Hsel. discriminate.
    + intros e k Hprintable. by apply log_escape_json.
Qed.

End get_logs.

Lemma sample_log_wf : log_state_wf (cfg := default_sdkconfig) sample_log.
Proof.
  split; [reflexivity |]. split; [by vm_compute |]. split; [by vm_compute |].
  unfold sample_log. simpl s_log_ring.
  repeat (apply List.Forall_cons; [unfold int64_range; simpl; lia |]).
  apply List.Forall_nil.
Qed.

Lemma tool_sys_get_logs_listing_witness :
  exists items : list string,
    tool_sys_get_logs (cfg := default_sdkconfig) true (Some sample_logs_args) 2048 sample_log
      = Some (ESP_OK, json_array items) /\
    (Z.of_nat (length items) <= 64)%Z /\
    get_logs_min_level (Some sample_logs_args) = ESP_LOG_INFO.
Proof.
  assert (Hlen : (101 <= Z.of_nat 2048 <= INT_MAX)%Z) by (unfold INT_MAX; lia).
  destruct (tool_sys_get_logs_listing (cfg := default_sdkconfig) 2048 Hlen true
              (Some sample_logs_args) sample_log eq_refl sample_log_wf)
    as (Hlines & _ & Hlevel & _ & items & Hrun & _ & Hcount & _).
  exists items. split; [exact Hrun |]. split.
  - destruct (Hlines sample_logs_args 500%Z _ eq_refl eq_refl) as [Heq _].
    rewrite Heq in Hcount. exact Hcount.
  - apply (Hlevel sample_logs_args "loud" eq_refl eq_refl).
    refine (bool_decide_unpack _ _). vm_compute. exact I.
Defined.

(** The listing of the sample ring, and what the reference parser reads
    back from it. *)
Example tool_sys_get_logs_sample :
  tool_sys_get_logs (cfg := default_sdkconfig) true (Some sample_logs_args) 2048 sample_log
  = Some (ESP_OK,
          json_text "[{'t':100,'msg':'I (100) main: boot'},{'t':200,'msg':'W (200) wifi: weak'}]")
  /\ RefCodec.parse
       (json_text "[{'t':100,'msg':'I (100) main: boot'},{'t':200,'msg':'W (200) wifi: weak'}]")
     = Some (cJSON_Array
               [cJSON_Object [("t", cJSON_CreateNumber_int 100);
                              ("msg", cJSON_String "I (100) main: boot")];
                cJSON_Object [("t", cJSON_CreateNumber_int 200);
                              ("msg", cJSON_String "W (200) wifi: weak")]]).
Proof. split; vm_compute; reflexivity. Qed.

(** C10, the case the claim leaves out: while the semaphore does not exist
    the call writes a plain sentence, which is no JSON text, and answers
    ESP_ERR_INVALID_STATE. *)
Lemma tool_sys_get_logs_uninitialised :
  tool_sys_get_logs (cfg := default_sdkconfig) true (Some (cJSON_Object [])) 2048
    uninitialised_log
  = Some (ESP_ERR_INVALID_STATE, "Log system not initialized")
  /\ RefCodec.parse "Log system not initialized" = None.
Proof. split; vm_compute; reflexivity. Qed.

(** A tab in a log line reaches the listing as it is: of the bytes that JSON
    wants escaped, the loop handles the quote, the backslash and the line
    feed. *)
Example tool_sys_get_logs_tab :
  tool_sys_get_logs (cfg := default_sdkconfig) true None 2048 tab_log
  = Some (ESP_OK, json_text "[{'t':5,'msg':'a" +:+ String "009" (json_text "b'}]")).
Proof. vm_compute. reflexivity. Qed.

(** X3. The writer keeps the statics well formed, so that the reader above
    can rely on it after any number of captured lines. *)
Lemma log_vprintf_hook_wf {cfg : sdkconfig} (formatted : string) (now_ms : Z)
    (mutex_taken : bool) (st : log_state) :
  int64_range now_ms -> log_state_wf st ->
  log_state_wf (log_vprintf_hook formatted now_ms mutex_taken st).
Proof.
  intros Hnow Hwf. unfold log_vprintf_hook.
  case_bool_decide; [done |].
  destruct (s_log_mutex st && mutex_taken); [| done].
  destruct Hwf as (Hlen & Hhead & Hcount & Hring).
  unfold log_state_wf. simpl. split; [| split; [| split]].
  - by rewrite length_insert.
  - apply Z.rem_bound_pos; lia.
  - destruct (Z.ltb_spec (s_log_count st) LOG_MAX_LINES); lia.
  - by apply Forall_insert.
Qed.

Lemma log_vprintf_hook_wf_witness :
  log_state_wf (cfg := default_sdkconfig)
    (log_vprintf_hook (cfg := default_sdkconfig) "I (300) app: up" 300 true sample_log).
Proof.
  apply (log_vprintf_hook_wf (cfg := default_sdkconfig) "I (300) app: up" 300 true sample_log).
  - unfold int64_range. lia.
  - exact sample_log_wf.
Defined.

Lemma lua_runtime_start_rejects_witness :
  lua_runtime_start (lua := toy_lua) true sample_runtime
  = (ESP_ERR_INVALID_STATE, sample_runtime, []).
Proof.
  exact (lua_runtime_start_rejects (lua := toy_lua) true sample_runtime 1 eq_refl).
Defined.

Lemma process_message_notification_witness :
  mcp_server_process_message (codec := RefCodec.codec) (lua := toy_lua)
    (libc := toy_printf) (cfg := default_sdkconfig) sample_env
    (Some (json_text "{'jsonrpc':'2.0','method':'notifications/initialized'}"))
    sample_device
  = Returns (None, sample_device).
Proof.
  eapply (process_message_notification (codec := RefCodec.codec) (lua := toy_lua)
            (libc := toy_printf) (cfg := default_sdkconfig)).
  - vm_compute. reflexivity.
  - reflexivity.
Defined.

(* ===================================================================== *)
(** * Part III: further properties of the code                             *)
(* ===================================================================== *)

(** ** jsonrpc.c: what is accepted, and error responses read back *)

(** X5. An error response that the codec reads back as it was printed parses
    as a message of type JSONRPC_ERROR that carries the identifier, the code
    and the first 127 bytes of the message; the identifier 0, printed as
    null, comes back as 0. *)
Theorem jsonrpc_error_roundtrip {codec : cJSON_codec} (id code : Z)
    (message : option string) :
  cJSON_Parse (cJSON_PrintUnformatted (jsonrpc_error_tree id code message))
    = Some (jsonrpc_error_tree id code message) ->
  jsonrpc_parse_message (jsonrpc_create_error id code message)
  = (ESP_OK,
     {| msg_type := JSONRPC_ERROR; msg_id := id; msg_has_id := true;
        msg_method := ""; msg_params := None; msg_result := None;
        msg_error_code := code;
        msg_error_message := strncpy 127 (default "Unknown error" message) |}).
Proof.
  intros Hread. unfold jsonrpc_parse_message, jsonrpc_create_error. rewrite Hread.
  unfold jsonrpc_error_tree, jsonrpc_classify, jsonrpc_parse_id. simpl.
  destruct (Z.eqb_spec id 0) as [-> | Hid]; reflexivity.
Qed.

Lemma jsonrpc_error_roundtrip_witness :
  jsonrpc_parse_message (codec := RefCodec.codec)
    ((jsonrpc_create_error (codec := RefCodec.codec) 0 JSONRPC_METHOD_NOT_FOUND
             (Some "Method not found")))
  = (ESP_OK,
     {| msg_type := JSONRPC_ERROR; msg_id := 0; msg_has_id := true;
        msg_method := ""; msg_params := None; msg_result := None;
        msg_error_code := -32601; msg_error_message := "Method not found" |}).
Proof.
  apply (jsonrpc_error_roundtrip (codec := RefCodec.codec) 0 JSONRPC_METHOD_NOT_FOUND
           (Some "Method not found")).
  vm_compute. reflexivity.
Defined.

(** X6. For a text that is not NULL, [jsonrpc_parse_message] answers ESP_OK
    or ESP_ERR_INVALID_ARG and nothing else. It answers ESP_OK exactly when
    the text parses to a tree whose "jsonrpc" member is the string "2.0" and
    that has a string "method", a "result" or an "error"; when the text does
    not parse, or the version is missing or wrong, it answers
    ESP_ERR_INVALID_ARG and the message is the zeroed one. *)
Theorem jsonrpc_parse_message_accepts {codec : cJSON_codec} (text : string) :
  ((jsonrpc_parse_message text).1 = ESP_OK \/
   (jsonrpc_parse_message text).1 = ESP_ERR_INVALID_ARG) /\
  ((jsonrpc_parse_message text).1 = ESP_OK <->
   exists root : cJSON,
     cJSON_Parse text = Some root /\
     cJSON_GetObjectItem root "jsonrpc" = Some (cJSON_String "2.0") /\
     ((exists m : string, cJSON_GetObjectItem root "method" = Some (cJSON_String m)) \/
      is_Some (cJSON_GetObjectItem root "result") \/
      is_Some (cJSON_GetObjectItem root "error"))) /\
  (cJSON_Parse text = None ->
   jsonrpc_parse_message text = (ESP_ERR_INVALID_ARG, jsonrpc_message_zero)) /\
  (forall root : cJSON,
     cJSON_Parse text = Some root ->
     cJSON_GetObjectItem root "jsonrpc" <> Some (cJSON_String "2.0") ->
     jsonrpc_parse_message text = (ESP_ERR_INVALID_ARG, jsonrpc_message_zero)).
Proof.
  assert (Hclassify : forall root : cJSON,
             ((jsonrpc_classify root).1 = ESP_OK \/
              (jsonrpc_classify root).1 = ESP_ERR_INVALID_ARG) /\
             ((jsonrpc_classify root).1 = ESP_OK <->
              (exists m : string,
                  cJSON_GetObjectItem root "method" = Some (cJSON_String m)) \/
              is_Some (cJSON_GetObjectItem root "result") \/
              is_Some (cJSON_GetObjectItem root "error"))).
  { intros root. unfold jsonrpc_classify.
    destruct (jsonrpc_parse_id root) as [has_id id].
    destruct (cJSON_GetObjectItem root "method") as [[| | |n dbl|m| | |]|];
      destruct (cJSON_GetObjectItem root "result") as [r|];
      destruct (cJSON_GetObjectItem root "error") as [err|]; simpl;
      (split; [auto |]); split; intros H; try done; eauto;
      destruct H as [[m' Hm] | [[x Hx] | [x Hx]]]; done. }
  split; [| split; [| split]].
  - unfold jsonrpc_parse_message.
    destruct (cJSON_Parse text) as [root|]; [| by right].
    destruct (cJSON_GetObjectItem root "jsonrpc") as [[| | |n dbl|v| | |]|];
      try (by right).
    destruct (String.eqb v "2.0"); [apply Hclassify | by right].
  - split.
    + unfold jsonrpc_parse_message.
      destruct (cJSON_Parse text) as [root|] eqn:Hparse; [| done].
      destruct (cJSON_GetObjectItem root "jsonrpc") as [[| | |n dbl|v| | |]|] eqn:Hversion;
        try done.
      destruct (String.eqb_spec v "2.0") as [-> | Hother]; [| done].
      intros Hok%Hclassify. by exists root.
    + intros (root & Hparse & Hversion & Hmember).
      unfold jsonrpc_parse_message. rewrite Hparse, Hversion. simpl.
      by apply Hclassify.
  - intros Hparse. unfold jsonrpc_parse_message. by rewrite Hparse.
  - intros root Hparse Hversion. unfold jsonrpc_parse_message. rewrite Hparse.
    destruct (cJSON_GetObjectItem root "jsonrpc") as [[| | |n dbl|v| | |]|]; try done.
    destruct (String.eqb_spec v "2.0") as [-> | Hother]; done.
Qed.

(** ** mcp_server.c and mcp_protocol.c: what is answered with an error *)

Section dispatch_errors.
Context {codec : cJSON_codec} {lua : lua_lib} {libc : libc_printf} {cfg : sdkconfig}.

(** X7. A null text is answered with the error -32600 "Null message"; a text
    that [jsonrpc_parse_message] refuses with -32700; a message that is
    itself a response or an error with -32600 "Invalid message type". In the
    three cases the statics of the device record are left as they were (the
    calls only log) and the answer carries the identifier null, whatever
    identifier the message had. *)
Theorem process_message_rejects (e : env) (d : device) :
  mcp_server_process_message e None d
  = Returns (Some (cJSON_PrintUnformatted
                     (jsonrpc_error_tree 0 JSONRPC_INVALID_REQUEST (Some "Null message"))),
             d) /\
  (forall text : string,
      (jsonrpc_parse_message text).1 <> ESP_OK ->
      mcp_server_process_message e (Some text) d
      = Returns (Some (cJSON_PrintUnformatted
                         (jsonrpc_error_tree 0 JSONRPC_PARSE_ERROR
                            (Some "Invalid JSON or JSON-RPC format"))), d)) /\
  (forall (text : string) (msg : jsonrpc_message_t),
      jsonrpc_parse_message text = (ESP_OK, msg) ->
      msg_type msg = JSONRPC_RESPONSE \/ msg_type msg = JSONRPC_ERROR ->
      mcp_server_process_message e (Some text) d
      = Returns (Some (cJSON_PrintUnformatted
                         (jsonrpc_error_tree 0 JSONRPC_INVALID_REQUEST
                            (Some "Invalid message type"))), d)) /\
  (forall (code : Z) (message : option string),
      cJSON_GetObjectItem (jsonrpc_error_tree 0 code message) "id" = Some cJSON_NULL).
Proof.
  split; [reflexivity |]. split; [| split].
  - intros text Hrefused. unfold mcp_server_process_message.
    destruct (jsonrpc_parse_message text) as [err msg]. simpl in Hrefused.
    by rewrite bool_decide_eq_true_2.
  - intros text msg Hparse Htype. unfold mcp_server_process_message.
    rewrite Hparse. rewrite bool_decide_eq_false_2 by (intros Hne; by apply Hne).
    by destruct Htype as [-> | ->].
  - reflexivity.
Qed.

(** X8. A request for a method other than the four of the method table is
    answered with the error -32601 under the request's identifier, and the
    statics of the device record are left as they were (the call only
    logs). *)
Theorem process_message_unknown_method (e : env) (d : device) (text : string)
    (msg : jsonrpc_message_t) :
  jsonrpc_parse_message text = (ESP_OK, msg) ->
  msg_type msg = JSONRPC_REQUEST ->
  msg_method msg ∉ ["initialize"; "tools/list"; "tools/call"; "ping"] ->
  mcp_server_process_message e (Some text) d
  = Returns (Some (jsonrpc_create_error (msg_id msg) JSONRPC_METHOD_NOT_FOUND
                     (Some "Method not found")), d).
Proof.
  intros Hparse Htype Hmethod. unfold mcp_server_process_message.
  rewrite Hparse. rewrite bool_decide_eq_false_2 by (intros Hne; by apply Hne).
  rewrite Htype. unfold mcp_dispatch_method, method_table, dispatch_in.
  repeat match goal with
         | |- context [String.eqb ?m (msg_method msg)] =>
             destruct (String.eqb_spec m (msg_method msg)) as [Heq | _];
             [exfalso; apply Hmethod; rewrite <- Heq; repeat constructor |]
         end.
  reflexivity.
Qed.

(** X9. [initialize] without parameters, and [tools/call] without
    parameters or without a string "name", are answered with the error
    -32602 under the request's identifier; no tool runs and the statics of
    the device record are left as they were (the call only logs). *)
Theorem process_message_invalid_params (e : env) (d : device) (text : string)
    (msg : jsonrpc_message_t) :
  jsonrpc_parse_message text = (ESP_OK, msg) ->
  msg_type msg = JSONRPC_REQUEST ->
  (msg_method msg = "initialize" /\ msg_params msg = None) \/
  (msg_method msg = "tools/call" /\
   (msg_params msg = None \/
    exists p : cJSON,
      msg_params msg = Some p /\
      forall s : string, cJSON_GetObjectItem p "name" <> Some (cJSON_String s))) ->
  mcp_server_process_message e (Some text) d
  = Returns (Some (jsonrpc_create_error (msg_id msg) JSONRPC_INVALID_PARAMS
                     (Some "Invalid parameters")), d).
Proof.
  intros Hparse Htype Hcase. unfold mcp_server_process_message.
  rewrite Hparse. rewrite bool_decide_eq_false_2 by (intros Hne; by apply Hne).
  rewrite Htype. unfold mcp_dispatch_method, method_table, dispatch_in.
  destruct Hcase as [[-> ->] | [-> Hparams]]; simpl; [reflexivity |].
  destruct Hparams as [-> | (p & -> & Hname)]; [reflexivity |].
  unfold mcp_handle_tools_call.
  destruct (cJSON_GetObjectItem p "name") as [[| | |n dbl|s| | |]|] eqn:Hitem;
    try reflexivity.
  by destruct (Hname s).
Qed.

End dispatch_errors.

Lemma process_message_unknown_method_witness :
  mcp_server_process_message (codec := RefCodec.codec) (lua := toy_lua)
    (libc := toy_printf) (cfg := default_sdkconfig) sample_env
    (Some (json_text "{'jsonrpc':'2.0','id':3,'method':'resources/list'}"))
    sample_device
  = Returns (Some (json_text
               "{'jsonrpc':'2.0','id':3,'error':{'code':-32601,'message':'Method not found'}}"),
             sample_device).
Proof.
  etransitivity.
  - eapply (process_message_unknown_method (codec := RefCodec.codec) (lua := toy_lua)
              (libc := toy_printf) (cfg := default_sdkconfig)).
    + vm_compute. reflexivity.
    + reflexivity.
    + refine (bool_decide_unpack _ _). vm_compute. exact I.
  - vm_compute. reflexivity.
Defined.

Lemma process_message_invalid_params_witness :
  mcp_server_process_message (codec := RefCodec.codec) (lua := toy_lua)
    (libc := toy_printf) (cfg := default_sdkconfig) sample_env
    (Some (json_text "{'jsonrpc':'2.0','id':4,'method':'tools/call','params':{'name':7}}"))
    sample_device
  = Returns (Some (json_text
               "{'jsonrpc':'2.0','id':4,'error':{'code':-32602,'message':'Invalid parameters'}}"),
             sample_device).
Proof.
  etransitivity.
  - eapply (process_message_invalid_params (codec := RefCodec.codec) (lua := toy_lua)
              (libc := toy_printf) (cfg := default_sdkconfig)).
    + vm_compute. reflexivity.
    + reflexivity.
    + right. split; [reflexivity |]. right.
      exists (cJSON_Object [("name", cJSON_CreateNumber_int 7)]).
      split; [reflexivity | intros s; discriminate].
  - vm_compute. reflexivity.
Defined.


(** ** mcp_protocol.c and mcp_tools.c: calling a tool *)

Section tool_calls.
Context {codec : cJSON_codec} {lua : lua_lib} {libc : libc_printf} {cfg : sdkconfig}.



Lemma mcp_tools_find_sys_reboot :
  handler <$> mcp_tools_find "sys_reboot" = Some tool_sys_reboot.
Proof. reflexivity. Qed.

Lemma mcp_tools_find_sys_ota_rollback :
  handler <$> mcp_tools_find "sys_ota_rollback" = Some tool_sys_ota_rollback.
Proof. reflexivity. Qed.

(** X12. A request that calls [sys_reboot], or [sys_ota_rollback] while
    there is an image to roll back to, restarts the device inside the call:
    [mcp_server_process_message] does not come back, whatever the request's
    identifier and arguments, so no response is produced. *)
Theorem restarting_tools_are_not_answered (e : env) (d : device) (text : string)
    (msg : jsonrpc_message_t) (p : cJSON) (tool_name : string) :
  jsonrpc_parse_message text = (ESP_OK, msg) ->
  msg_type msg = JSONRPC_REQUEST ->
  msg_method msg = "tools/call" ->
  msg_params msg = Some p ->
  cJSON_GetObjectItem p "name" = Some (cJSON_String tool_name) ->
  tool_name = "sys_reboot" \/
  (tool_name = "sys_ota_rollback" /\ env_rollback_possible e = true) ->
  mcp_server_process_message e (Some text) d = Restarts.
Proof.
  intros Hparse Htype Hmethod Hparams Hname Htool.
  unfold mcp_server_process_message.
  rewrite Hparse. rewrite bool_decide_eq_false_2 by (intros Hne; by apply Hne).
  rewrite Htype, Hmethod, Hparams.
  change (mcp_dispatch_method e "tools/call" (Some p) d)
    with (mcp_handle_tools_call e (Some p) d).
  unfold mcp_handle_tools_call. rewrite Hname. unfold mcp_tools_execute.
  destruct Htool as [-> | [-> Hrollback]].
  - pose proof mcp_tools_find_sys_reboot as Hfind.
    destruct (mcp_tools_find "sys_reboot") as [tool|]; [| done].
    injection Hfind as ->. reflexivity.
  - pose proof mcp_tools_find_sys_ota_rollback as Hfind.
    destruct (mcp_tools_find "sys_ota_rollback") as [tool|]; [| done].
    injection Hfind as ->. unfold tool_sys_ota_rollback. by rewrite Hrollback.
Qed.

End tool_calls.


Lemma restarting_tools_are_not_answered_witness :
  mcp_server_process_message (codec := RefCodec.codec) (lua := toy_lua)
    (libc := toy_printf) (cfg := default_sdkconfig) sample_env
    (Some (json_text
       "{'jsonrpc':'2.0','id':2,'method':'tools/call','params':{'name':'sys_ota_rollback'}}"))
    sample_device
  = Restarts.
Proof.
  eapply (restarting_tools_are_not_answered (codec := RefCodec.codec) (lua := toy_lua)
            (libc := toy_printf) (cfg := default_sdkconfig)).
  - vm_compute. reflexivity.
  - reflexivity.
  - reflexivity.
  - reflexivity.
  - reflexivity.
  - right. split; reflexivity.
Defined.

(** ** mcp_tools.c: the registry *)

Section registry_lookup.
Context {codec : cJSON_codec} {lua : lua_lib} {libc : libc_printf} {cfg : sdkconfig}.

Lemma tools_find_Some (registry : list mcp_tool_t) (tool_name : string)
    (tool : mcp_tool_t) :
  tools_find registry tool_name = Some tool ->
  name tool = tool_name /\ tool ∈ registry.
Proof.
  induction registry as [|first registry IH]; simpl; [done |].
  destruct (String.eqb_spec (name first) tool_name) as [Heq | Hne].
  - intros [= <-]. split; [exact Heq | apply list_elem_of_here].
  - intros [Hname Hin]%IH. split; [exact Hname | by apply list_elem_of_further].
Qed.

Lemma tools_find_NoDup (registry : list mcp_tool_t) (tool : mcp_tool_t) :
  NoDup (map name registry) -> tool ∈ registry ->
  tools_find registry (name tool) = Some tool.
Proof.
  induction registry as [|first registry IH]; simpl; intros Hnodup Hin.
  - by apply elem_of_nil in Hin.
  - apply NoDup_cons in Hnodup as [Hfirst Hnodup].
    apply elem_of_cons in Hin as [-> | Hin].
    + by rewrite String.eqb_refl.
    + destruct (String.eqb_spec (name first) (name tool)) as [Heq | _]; [| by apply IH].
      exfalso. apply Hfirst. rewrite Heq. by apply (list_elem_of_fmap_2 name).
Qed.

Lemma tool_registry_NoDup : NoDup (map name tool_registry).
Proof. refine (bool_decide_unpack _ _). vm_compute. exact I. Qed.

(** X13. The registry answers for its own names: a tool that
    [mcp_tools_find] returns has the name asked for, every registered tool is
    found under its name (no name is registered twice), and the array of
    [tools/list] has one entry per registered tool, so that a name can be
    called exactly when it is listed. *)
Theorem mcp_tools_find_agrees_with_list :
  (forall (tool_name : string) (tool : mcp_tool_t),
      mcp_tools_find tool_name = Some tool ->
      name tool = tool_name /\ tool ∈ tool_registry) /\
  (forall tool : mcp_tool_t,
      tool ∈ tool_registry -> mcp_tools_find (name tool) = Some tool) /\
  exists items : list cJSON,
    mcp_tools_get_list = cJSON_Array items /\
    length items = length tool_registry /\
    forall tool_name : string,
      is_Some (mcp_tools_find tool_name) <->
      exists entry : cJSON,
        entry ∈ items /\
        cJSON_GetObjectItem entry "name" = Some (cJSON_String tool_name).
Proof.
  split; [intros tool_name tool; apply tools_find_Some |].
  split; [intros tool; apply tools_find_NoDup, tool_registry_NoDup |].
  eexists. split; [reflexivity |]. split; [by rewrite length_map |].
  intros tool_name. split.
  - intros [tool [<- Hin]%tools_find_Some].
    eexists. split; [by apply list_elem_of_fmap_2 | reflexivity].
  - intros (entry & (tool & -> & Hin)%list_elem_of_fmap & Hname).
    injection Hname as <-. exists tool.
    by apply tools_find_NoDup; [apply tool_registry_NoDup |].
Qed.

End registry_lookup.

(** ** mcp_tools.c: the LED tool and the binding tool *)

Section tool_handlers.
Context {lua : lua_lib} {libc : libc_printf} {cfg : sdkconfig}.

(** X14. [control_led] always comes back. It answers ESP_OK exactly when the
    LED was initialised and "state" is one of the strings on, off and toggle;
    without the LED it answers ESP_ERR_INVALID_STATE whatever the arguments.
    A refused call leaves the device as it was; an accepted one changes
    nothing but the LED level, which becomes 1 for on, 0 for off and the
    opposite of the pin's reading for toggle. *)
Theorem tool_control_led_spec (e : env) (args : cJSON) (max_len : nat) (d : device) :
  exists (ret : esp_err_t) (text : string) (d' : device),
    tool_control_led e args max_len d = Returns (ret, text, d') /\
    (ret = ESP_OK <->
     dev_led_initialized d = true /\
     exists state : string,
       cJSON_GetObjectItem args "state" = Some (cJSON_String state) /\
       state ∈ ["on"; "off"; "toggle"]) /\
    (dev_led_initialized d = false -> ret = ESP_ERR_INVALID_STATE) /\
    (ret <> ESP_OK -> d' = d) /\
    d' = set_dev_led_level (dev_led_level d') d /\
    (ret = ESP_OK ->
     forall state : string,
       cJSON_GetObjectItem args "state" = Some (cJSON_String state) ->
       dev_led_level d'
       = if String.eqb state "on" then 1%Z
         else if String.eqb state "off" then 0%Z
         else if (hw_gpio_level (env_hw e) =? 0)%Z then 1%Z else 0%Z).
Proof.
  assert (Hsame : d = set_dev_led_level (dev_led_level d) d) by (by destruct d).
  unfold tool_control_led.
  destruct (dev_led_initialized d) eqn:Hled; simpl.
  2: { do 3 eexists. split; [reflexivity |].
       split; [split; [done | by intros [? _]] |]. by repeat split. }
  destruct (cJSON_GetObjectItem args "state") as [[| | |n dbl|state| | |]|] eqn:Hitem;
    try (do 3 eexists; split; [reflexivity |];
         split; [split; [done | by intros [_ (? & ? & _)]] |]; by repeat split).
  destruct (String.eqb_spec state "on") as [-> | Hon].
  { do 3 eexists. split; [reflexivity |].
    split; [split; [intros _; split; [done |]; eexists; split; [done |];
                    repeat constructor | done] |].
    repeat split; try done. by intros _ state [= <-]. }
  destruct (String.eqb_spec state "off") as [-> | Hoff].
  { do 3 eexists. split; [reflexivity |].
    split; [split; [intros _; split; [done |]; eexists; split; [done |];
                    repeat constructor | done] |].
    repeat split; try done. by intros _ state [= <-]. }
  destruct (String.eqb_spec state "toggle") as [-> | Htoggle].
  { do 3 eexists. split; [reflexivity |].
    split; [split; [intros _; split; [done |]; eexists; split; [done |];
                    repeat constructor | done] |].
    repeat split; try done. by intros _ state [= <-]. }
  do 3 eexists. split; [reflexivity |].
  split; [split; [done |] |].
  - intros [_ (state' & [= <-] & Hin)]. exfalso.
    repeat (apply elem_of_cons in Hin as [-> | Hin]; [done |]).
    by apply elem_of_nil in Hin.
  - by repeat split.
Qed.

End tool_handlers.

Lemma strbuf_append_then_out (t text : string) (f : strbuf -> option string) (b : strbuf) :
  (forall b1 : strbuf,
      1 <= sb_remaining b1 ->
      f b1 = strbuf_append text b1 ≫= fun b2 => Some (sb_out b2)) ->
  strbuf_append t b ≫= f = strbuf_append (t +:+ text) b ≫= fun b2 => Some (sb_out b2).
Proof.
  intros Hf. destruct (strbuf_append t b) as [b1|] eqn:Hfirst; simpl.
  - rewrite Hf by (by eapply strbuf_append_room). by rewrite <- strbuf_append_app, Hfirst.
  - by rewrite strbuf_append_None_app.
Qed.

Lemma strbuf_append_then_None (t : string) (f : strbuf -> option string) (b : strbuf) :
  (forall b1 : strbuf, f b1 = None) -> strbuf_append t b ≫= f = None.
Proof. intros Hf. destruct (strbuf_append t b); simpl; [apply Hf | reflexivity]. Qed.

(** [build_bindings_lua_script] succeeds exactly when the options have a Lua
    literal (none given counts as the empty table) and the whole text, with
    its terminator, fits the buffer; the buffer then holds the table that
    binds the quoted interface name to the quoted provider and the
    literal. *)
Lemma build_bindings_lua_script_text {libc : libc_printf}
    (interface_name provider : string) (opts : option cJSON) (out_len : nat) :
  build_bindings_lua_script interface_name provider opts out_len
  = match (match opts with Some o => lua_literal o | None => Some "{}" end) with
    | Some opts_literal =>
        let text := bindings_lua_text interface_name provider opts_literal in
        if (out_len <=? String.length text)%nat then None else Some text
    | None => None
    end.
Proof.
  unfold build_bindings_lua_script.
  destruct (match opts with Some o => lua_literal o | None => Some "{}" end)
    as [opts_literal|] eqn:Hliteral.
  - transitivity
      (strbuf_append (bindings_lua_text interface_name provider opts_literal)
         {| sb_out := ""; sb_remaining := out_len |} ≫= fun b2 => Some (sb_out b2));
      [| unfold strbuf_append; simpl; by destruct (out_len <=? _)%nat].
    unfold bindings_lua_text.
    apply strbuf_append_then_out. intros b1 _.
    rewrite strbuf_append_lua_string_spec.
    apply strbuf_append_then_out. intros b2 _.
    apply strbuf_append_then_out. intros b3 _.
    rewrite strbuf_append_lua_string_spec.
    apply strbuf_append_then_out. intros b4 _.
    apply strbuf_append_then_out. intros b5 _.
    assert (Hopts : match opts with
                    | Some o => serialize_cjson_to_lua o b5
                    | None => strbuf_append "{}" b5
                    end = strbuf_append opts_literal b5).
    { destruct opts as [o|]; [| by injection Hliteral as <-].
      by rewrite serialize_cjson_to_lua_spec, Hliteral. }
    rewrite Hopts.
    apply strbuf_append_then_out. intros b6 _. reflexivity.
  - destruct opts as [o|]; [| done].
    apply strbuf_append_then_None. intros b1.
    rewrite strbuf_append_lua_string_spec.
    apply strbuf_append_then_None. intros b2.
    apply strbuf_append_then_None. intros b3.
    rewrite strbuf_append_lua_string_spec.
    apply strbuf_append_then_None. intros b4.
    apply strbuf_append_then_None. intros b5.
    by rewrite serialize_cjson_to_lua_spec, Hliteral.
Qed.

(** A call that is turned down, and one that wrote the file. *)
Ltac refused_with c provider :=
  do 3 eexists; split; [reflexivity |];
  split; [first [done | by intros [? | ?]] |];
  split; [first [done | intros Hnone; by destruct (Hnone c provider)] | done].

Ltac bound_with c provider :=
  do 3 eexists; split; [reflexivity |];
  split; [by intros [? | ?] |];
  split; [intros Hnone; by destruct (Hnone c provider) |];
  intros _; do 2 eexists; split; [reflexivity |]; split; [reflexivity |];
  by repeat split.

Section bind_dependency.
Context {lua : lua_lib} {libc : libc_printf} {cfg : sdkconfig}.

(** The statuses of a restart. *)
Lemma lua_runtime_restart_status (fresh_vm : option lua_State) (ok : bool)
    (s : lua_runtime) :
  (lua_runtime_restart fresh_vm ok s).1.1 = ESP_OK \/
  (lua_runtime_restart fresh_vm ok s).1.1 = ESP_FAIL.
Proof.
  destruct s as [vm [h|] running tasks next]; rt_unfold;
    destruct fresh_vm; destruct ok; cbn; auto.
Qed.

(** X15. [lua_bind_dependency] always comes back. Without a non-empty string
    "provider" it answers ESP_ERR_INVALID_ARG; whenever it answers
    ESP_ERR_INVALID_ARG or ESP_ERR_INVALID_SIZE nothing was written and
    nothing restarted. When it answers ESP_OK, bindings.lua holds the table
    that binds the quoted interface name ("display" when none is given) to
    the quoted provider and the Lua literal of "opts", a text shorter than
    2048 bytes; no other file changed, and with "restart" false the runtime
    was not touched. *)
Theorem tool_lua_bind_dependency_spec (e : env) (args : cJSON) (max_len : nat)
    (d : device) :
  exists (ret : esp_err_t) (text : string) (d' : device),
    tool_lua_bind_dependency e args max_len d = Returns (ret, text, d') /\
    (ret = ESP_ERR_INVALID_ARG \/ ret = ESP_ERR_INVALID_SIZE -> d' = d) /\
    ((forall (c : ascii) (p : string),
         cJSON_GetObjectItem args "provider" <> Some (cJSON_String (String c p))) ->
     ret = ESP_ERR_INVALID_ARG) /\
    (ret = ESP_OK ->
     exists provider opts_literal : string,
       cJSON_GetObjectItem args "provider" = Some (cJSON_String provider) /\
       match cJSON_GetObjectItem args "opts" with
       | Some o => lua_literal o
       | None => Some "{}"
       end = Some opts_literal /\
       let script :=
         bindings_lua_text
           match cJSON_GetObjectItem args "interface" with
           | Some (cJSON_String i) => i
           | _ => "display"
           end provider opts_literal in
       dev_fs d' = <[script_path "bindings.lua" := script]> (dev_fs d) /\
       String.length script < 2048 /\
       (cJSON_GetObjectItem args "restart" = Some cJSON_False -> dev_lua d' = dev_lua d)).
Proof.
  unfold tool_lua_bind_dependency.
  assert (Hrefused : forall message : string,
             exists (ret : esp_err_t) (text : string) (d' : device),
               Returns (ESP_ERR_INVALID_ARG, snprintf max_len message, d)
               = Returns (ret, text, d') /\
               (ret = ESP_ERR_INVALID_ARG \/ ret = ESP_ERR_INVALID_SIZE -> d' = d) /\
               ((forall (c : ascii) (p : string),
                    cJSON_GetObjectItem args "provider"
                    <> Some (cJSON_String (String c p))) ->
                ret = ESP_ERR_INVALID_ARG) /\
               (ret = ESP_OK ->
                exists provider opts_literal : string,
                  cJSON_GetObjectItem args "provider" = Some (cJSON_String provider) /\
                  match cJSON_GetObjectItem args "opts" with
                  | Some o => lua_literal o
                  | None => Some "{}"
                  end = Some opts_literal /\
                  let script :=
                    bindings_lua_text
                      match cJSON_GetObjectItem args "interface" with
                      | Some (cJSON_String i) => i
                      | _ => "display"
                      end provider opts_literal in
                  dev_fs d' = <[script_path "bindings.lua" := script]> (dev_fs d) /\
                  String.length script < 2048 /\
                  (cJSON_GetObjectItem args "restart" = Some cJSON_False ->
                   dev_lua d' = dev_lua d))).
  { intros message. do 3 eexists. split; [reflexivity |]. by repeat split. }
  destruct args as [| | |n dbl|s|items|items|s]; try apply Hrefused.
  destruct (cJSON_GetObjectItem (cJSON_Object items) "provider")
    as [[| | |n dbl|[|c provider]| | |]|] eqn:Hprovider; try apply Hrefused.
  destruct (cJSON_GetObjectItem (cJSON_Object items) "interface")
    as [[| | |n dbl|[|ic iface]| | |]|] eqn:Hinterface; try apply Hrefused.
  all: destruct (cJSON_GetObjectItem (cJSON_Object items) "opts")
         as [[| | |n dbl|s|l|members|s]|] eqn:Hopts; try apply Hrefused.
  all: destruct (cJSON_GetObjectItem (cJSON_Object items) "restart")
         as [[| | |n dbl|s|l|l|s]|] eqn:Hrestart; try apply Hrefused.
  all: rewrite build_bindings_lua_script_text.
  all: try (destruct (lua_literal (cJSON_Object members)) as [opts_literal|] eqn:Hliteral);
       cbv beta iota zeta.
  all: try solve [refused_with c provider].
  all: match goal with
       | |- context [(2048 <=? ?len)%nat] =>
           destruct (Nat.leb_spec 2048 len) as [Hbig | Hfits]
       end.
  all: try solve [refused_with c provider].
  all: unfold lua_runtime_push_script; destruct (env_fopen_ok e).
  all: try solve [refused_with c provider].
  all: rewrite bool_decide_eq_false_2 by (intros Hne; by apply Hne).
  all: try solve [bound_with c provider].
  all: unfold run_rt;
       match goal with
       | |- context [lua_runtime_restart ?vm ?ok ?s] =>
           pose proof (lua_runtime_restart_status vm ok s) as Hstatus;
           destruct (lua_runtime_restart vm ok s) as [[ret2 rt2] trace2]
       end; simpl in Hstatus;
       destruct Hstatus as [-> | ->]; simpl.
  all: solve [refused_with c provider | bound_with c provider].
Qed.

End bind_dependency.

(** ** lua_runtime.c: a runtime without interpreter *)

Section without_vm.
Context {lua : lua_lib}.

(** X16. When the new interpreter cannot be created, a restart answers
    ESP_FAIL and leaves the runtime without interpreter and without task
    handle (and, from a consistent state, without any task). From then on
    [lua_runtime_exec] answers ESP_ERR_INVALID_ARG, leaves the result buffer
    as it found it and changes nothing. *)
Theorem lua_runtime_restart_without_vm (ok ok' : bool) (s : lua_runtime)
    (code : option string) (result : string) (max_len : nat) :
  exists (s' : lua_runtime) (moments : list (list context)),
    lua_runtime_restart None ok s = (ESP_FAIL, s', moments) /\
    L s' = None /\ lua_task_handle s' = None /\
    (rt_consistent s -> kernel_tasks s' = []) /\
    lua_runtime_exec ok' code result max_len s'
    = (Some (ESP_ERR_INVALID_ARG, result), s', []).
Proof.
  destruct s as [vm [h|] running tasks next]; rt_unfold; cbn.
  - do 2 eexists. split; [reflexivity |]. repeat split.
    intros [-> _]. cbn. by rewrite decide_True.
  - do 2 eexists. split; [reflexivity |]. repeat split. by intros ->.
Qed.

End without_vm.

Section exec_without_vm.
Context {lua : lua_lib} {libc : libc_printf} {cfg : sdkconfig}.

Lemma mcp_tools_find_lua_exec : handler <$> mcp_tools_find "lua_exec" = Some tool_lua_exec.
Proof. reflexivity. Qed.

(** X17. [lua_exec] on a device without interpreter answers
    ESP_ERR_INVALID_ARG without writing a result text. What the caller sees
    is therefore what its result buffer held before the call, or, when that
    happens to be empty, the generic "Tool execution failed" line; the
    device is left as it was. *)
Theorem lua_exec_without_vm_text (e : env) (d : device) (args : cJSON) (code : string)
    (max_len : nat) :
  L (dev_lua d) = None ->
  cJSON_GetObjectItem args "code" = Some (cJSON_String code) ->
  mcp_tools_execute e "lua_exec" args max_len d
  = Returns (ESP_ERR_INVALID_ARG,
             if (String.length (env_result_text e) =? 0)%nat
             then snprintf max_len "Tool execution failed: ESP_ERR_INVALID_ARG"
             else env_result_text e,
             true, d).
Proof.
  intros Hvm Hcode. unfold mcp_tools_execute.
  pose proof mcp_tools_find_lua_exec as Hfind.
  destruct (mcp_tools_find "lua_exec") as [tool|]; [| done].
  injection Hfind as ->. unfold tool_lua_exec. rewrite Hcode.
  unfold run_rt, lua_runtime_exec. rt_unfold. rewrite Hvm. simpl.
  by destruct d.
Qed.

End exec_without_vm.

Lemma lua_exec_without_vm_text_witness :
  mcp_tools_execute (libc := toy_printf) (cfg := default_sdkconfig) env_stale_buffer
    "lua_exec" (cJSON_Object [("code", cJSON_String "return 1")]) 2048 device_without_vm
  = Returns (ESP_ERR_INVALID_ARG, "left over from an earlier call", true,
             device_without_vm).
Proof.
  exact (lua_exec_without_vm_text (libc := toy_printf) (cfg := default_sdkconfig)
           env_stale_buffer device_without_vm
           (cJSON_Object [("code", cJSON_String "return 1")]) "return 1" 2048
           eq_refl eq_refl).
Defined.

(** ** mcp_ota.c: how a run of the download task ends *)

Lemma last_cons_default {A : Type} (l : list A) (x : A) :
  last (x :: l) = Some (List.last l x).
Proof.
  revert x. induction l as [|y l IH]; intros x; [reflexivity |].
  rewrite last_cons_cons, IH. destruct l as [|z l]; [reflexivity |].
  pose proof (IH x) as Hx. pose proof (IH y) as Hy.
  rewrite last_cons_cons in Hx, Hy.
  change (List.last (y :: z :: l) x) with (List.last (z :: l) x). congruence.
Qed.

Lemma ota_task_loop_states (content_length : Z) (reads : list (Z * esp_err_t)) :
  forall (total_read : Z) (cur : ota_session),
    Forall (fun s => s_ota_state s = s_ota_state cur \/ s_ota_state s = OTA_STATE_ERROR)
           (ota_task_loop content_length reads total_read cur).
Proof.
  induction reads as [|[read_len write_res] reads IH]; intros total_read cur; simpl;
    [apply List.Forall_nil |].
  destruct (read_len <? 0)%Z; [by repeat constructor |].
  destruct (read_len =? 0)%Z; [apply List.Forall_nil |].
  case_bool_decide; [by repeat constructor |].
  apply List.Forall_cons; [by left |].
  match goal with
  | |- Forall _ (ota_task_loop _ _ ?total ?next) => exact (IH total next)
  end.
Qed.

(** X18. A run of [ota_task] never leaves the session in the downloading or
    writing state: the last value of the state is OTA_STATE_ERROR, after
    which the task deletes itself, or OTA_STATE_REBOOTING with the progress
    at 100, after which the device restarts. On the way the state is never
    idle. So [tool_sys_ota_push] does not answer ESP_ERR_INVALID_STATE once a
    run has ended. *)
Theorem ota_task_ends (task_env : ota_env) (url : string) :
  exists final : ota_session,
    last (ota_task task_env url).1 = Some final /\
    (s_ota_state final = OTA_STATE_ERROR \/ s_ota_state final = OTA_STATE_REBOOTING) /\
    ((ota_task task_env url).2 = OtaDeviceRestarts <->
     s_ota_state final = OTA_STATE_REBOOTING) /\
    (s_ota_state final = OTA_STATE_REBOOTING -> s_ota_progress_pct final = 100%Z) /\
    Forall (fun s => s_ota_state s <> OTA_STATE_IDLE) (ota_task task_env url).1 /\
    forall (strdup_ok xTaskCreate_ok : bool) (args : cJSON) (max_len : nat),
      (tool_sys_ota_push strdup_ok xTaskCreate_ok args max_len final).1.1
      <> ESP_ERR_INVALID_STATE.
Proof.
  assert (Hgate : forall final : ota_session,
             s_ota_state final = OTA_STATE_ERROR \/
             s_ota_state final = OTA_STATE_REBOOTING ->
             forall (strdup_ok xTaskCreate_ok : bool) (args : cJSON) (max_len : nat),
               (tool_sys_ota_push strdup_ok xTaskCreate_ok args max_len final).1.1
               <> ESP_ERR_INVALID_STATE).
  { intros final Hfinal strdup_ok xTaskCreate_ok args max_len.
    unfold tool_sys_ota_push.
    rewrite !bool_decide_eq_false_2 by (destruct Hfinal as [-> | ->]; done). simpl.
    destruct (cJSON_GetObjectItem args "url") as [[| | |n dbl|u| | |]|]; try done.
    destruct (String.length u =? 0)%nat; [done |].
    destruct strdup_ok; [| done]. by destruct xTaskCreate_ok. }
  unfold ota_task.
  destruct (ota_client_init_ok task_env); simpl;
    [| eexists; split; [reflexivity |]; split; [by left |];
       repeat split; try done; [by repeat constructor | by apply Hgate; left]].
  case_bool_decide as Hopen;
    [eexists; split; [reflexivity |]; split; [by left |];
     repeat split; try done; [by repeat constructor | by apply Hgate; left] |].
  destruct (ota_partition_found task_env); simpl;
    [| eexists; split; [reflexivity |]; split; [by left |];
       repeat split; try done; [by repeat constructor | by apply Hgate; left]].
  case_bool_decide as Hbegin;
    [eexists; split; [reflexivity |]; split; [by left |];
     repeat split; try done; [by repeat constructor | by apply Hgate; left] |].
  match goal with
  | |- context [ota_task_loop ?len ?reads ?total ?s1] =>
      pose proof (ota_task_loop_states len reads total s1) as Hsteps;
      set (steps := ota_task_loop len reads total s1) in *;
      set (writing := s1) in *
  end.
  assert (Hnot_idle : Forall (fun s => s_ota_state s <> OTA_STATE_IDLE) steps).
  { eapply Forall_impl; [exact Hsteps |]. by intros s [-> | ->]. }
  case_bool_decide as Herror.
  { exists (List.last steps writing). cbn [fst snd].
    split; [by rewrite last_cons_cons, last_cons_default |].
    split; [by left |]. rewrite Herror.
    repeat split; try done; [by repeat (apply List.Forall_cons; [done |]) |].
    apply Hgate. by left. }
  assert (Hsnoc : forall x : ota_session,
             last (A := ota_session)
               ({| s_ota_state := OTA_STATE_DOWNLOADING; s_ota_progress_pct := 0;
                   s_ota_message := ota_set_message ("Connecting to " +:+ url) |}
                :: writing :: steps ++ [x]) = Some x).
  { intros x. by rewrite !app_comm_cons, last_snoc. }
  assert (Hall : forall x : ota_session,
             s_ota_state x <> OTA_STATE_IDLE ->
             Forall (fun s => s_ota_state s <> OTA_STATE_IDLE)
               ({| s_ota_state := OTA_STATE_DOWNLOADING; s_ota_progress_pct := 0;
                   s_ota_message := ota_set_message ("Connecting to " +:+ url) |}
                :: writing :: steps ++ [x])).
  { intros x Hx. do 2 (apply List.Forall_cons; [done |]).
    apply Forall_app. split; [exact Hnot_idle | by repeat constructor]. }
  case_bool_decide as Hend;
    [eexists; split; [apply Hsnoc |]; split; [by left |];
     repeat split; try done; [by apply Hall | by apply Hgate; left] |].
  case_bool_decide as Hboot;
    [eexists; split; [apply Hsnoc |]; split; [by left |];
     repeat split; try done; [by apply Hall | by apply Hgate; left] |].
  eexists. split; [apply Hsnoc |]. split; [by right |].
  repeat split; try done; [by apply Hall | by apply Hgate; right].
Qed.

(** ** mcp_log.c: the ring is a queue *)

Lemma rem_add_small (m h k : Z) :
  (0 <= h < m)%Z -> (0 <= k < m)%Z ->
  ((h + k) `rem` m)%Z = if (h + k <? m)%Z then (h + k)%Z else (h + k - m)%Z.
Proof.
  intros Hh Hk. rewrite Z.rem_mod_nonneg by lia.
  destruct (Z.ltb_spec (h + k) m); [apply Z.mod_small; lia |].
  symmetry. apply (Z.mod_unique _ _ 1); lia.
Qed.

Lemma rem_succ (m h : Z) :
  (0 <= h < m)%Z ->
  ((h + 1) `rem` m)%Z = if (h + 1 <? m)%Z then (h + 1)%Z else 0%Z.
Proof.
  intros Hh. destruct (Z.ltb_spec (h + 1) m); [apply Z.rem_small; lia |].
  replace (h + 1)%Z with m by lia. apply Z.rem_same. lia.
Qed.

Section log_queue.
Context {cfg : sdkconfig}.

(** X19. A line that is captured goes to the end of the sequence that
    [tool_sys_get_logs] walks, behind all earlier lines in their order; once
    the ring is full the oldest line makes room for it. The stored entry has
    the first 255 bytes of the line without its trailing line ends, the
    level read off its first character and the time of the capture. *)
Theorem log_vprintf_hook_fifo (formatted : string) (now_ms : Z) (st : log_state) :
  log_state_wf st -> log_ring_linear st -> s_log_mutex st = true ->
  strip_trailing_newlines (snprintf LOG_LINE_MAX formatted) <> EmptyString ->
  let line := strip_trailing_newlines (snprintf LOG_LINE_MAX formatted) in
  let st' := log_vprintf_hook formatted now_ms true st in
  log_walk st'
  = (if (s_log_count st <? LOG_MAX_LINES)%Z then log_walk st else tail (log_walk st))
    ++ [{| log_text := strncpy (LOG_LINE_MAX - 1) line;
           log_level := detect_level_from_prefix line;
           log_timestamp_ms := now_ms |}] /\
  log_ring_linear st'.
Proof.
  intros (Hlen & Hhead & Hcount & _) Hlinear Hmutex Hline line st'.
  subst st'. unfold log_vprintf_hook. fold line.
  rewrite bool_decide_eq_false_2 by done. rewrite Hmutex. cbn [andb].
  set (entry := {| log_text := strncpy (LOG_LINE_MAX - 1) line;
                   log_level := detect_level_from_prefix line;
                   log_timestamp_ms := now_ms |}).
  unfold log_ring_linear, log_walk, log_ring_at in *. cbn [s_log_ring s_log_head s_log_count].
  set (m := LOG_MAX_LINES) in *. clearbody m.
  destruct (Z.ltb_spec (s_log_count st) m) as [Hroom | Hfull].
  - specialize (Hlinear Hroom). rewrite Hlinear in *.
    assert (Hstart : (if (s_log_count st + 1 <? m)%Z then 0%Z
                      else ((s_log_count st + 1) `rem` m)%Z) = 0%Z).
    { destruct (Z.ltb_spec (s_log_count st + 1) m); [reflexivity |].
      replace (s_log_count st + 1)%Z with m by lia. apply Z.rem_same. lia. }
    rewrite Hstart. split.
    + replace (Z.to_nat (s_log_count st + 1)) with (S (Z.to_nat (s_log_count st))) by lia.
      rewrite seq_S, map_app. f_equal.
      * apply map_ext_in. intros i [_ Hi]%in_seq.
        rewrite Z.rem_small by lia.
        rewrite list_lookup_insert_ne by lia. reflexivity.
      * cbn [map]. rewrite Z.rem_small by lia.
        replace (Z.to_nat (0 + Z.of_nat (0 + Z.to_nat (s_log_count st))))
          with (Z.to_nat (s_log_count st)) by lia.
        rewrite list_lookup_insert_eq by lia. reflexivity.
    + intros Hroom'. rewrite Z.rem_small by lia. reflexivity.
  - assert (Hcount_m : s_log_count st = m) by lia. rewrite Hcount_m.
    rewrite (proj2 (Z.ltb_ge m m)) by lia. split; [| lia].
    assert (Hm : Z.to_nat m = S (Z.to_nat m - 1)) by lia.
    rewrite Hm at 2. cbn [seq map tail].
    rewrite Hm at 1. rewrite seq_S, map_app. f_equal.
    + rewrite <- seq_shift, map_map. apply map_ext_in. intros j [_ Hj]%in_seq.
      rewrite (rem_succ m (s_log_head st)) by lia.
      assert (Hindex : (((if (s_log_head st + 1 <? m)%Z then s_log_head st + 1
                          else 0) + Z.of_nat j) `rem` m)%Z
                       = ((s_log_head st + Z.of_nat (S j)) `rem` m)%Z).
      { rewrite (rem_add_small m (s_log_head st) (Z.of_nat (S j))) by lia.
        destruct (Z.ltb_spec (s_log_head st + 1) m);
          rewrite rem_add_small by lia;
          repeat match goal with
                 | |- context [(?a <? ?b)%Z] => destruct (Z.ltb_spec a b)
                 end; lia. }
      rewrite Hindex.
      rewrite list_lookup_insert_ne; [reflexivity |].
      rewrite (rem_add_small m (s_log_head st) (Z.of_nat (S j))) by lia.
      destruct (Z.ltb_spec (s_log_head st + Z.of_nat (S j)) m); lia.
    + cbn [map]. f_equal.
      rewrite (rem_succ m (s_log_head st)) by lia.
      assert (Hindex : (((if (s_log_head st + 1 <? m)%Z then s_log_head st + 1
                          else 0)
                         + Z.of_nat (0 + (Z.to_nat m - 1))) `rem` m)%Z
                       = s_log_head st).
      { destruct (Z.ltb_spec (s_log_head st + 1) m);
          rewrite rem_add_small by lia;
          repeat match goal with
                 | |- context [(?a <? ?b)%Z] => destruct (Z.ltb_spec a b)
                 end; lia. }
      rewrite Hindex. rewrite list_lookup_insert_eq by lia. reflexivity.
Qed.

End log_queue.

Lemma log_vprintf_hook_fifo_witness :
  log_walk (cfg := default_sdkconfig)
    (log_vprintf_hook (cfg := default_sdkconfig) ("I (300) app: up" +:+ nl) 300 true
       sample_log)
  = log_walk (cfg := default_sdkconfig) sample_log
    ++ [{| log_text := "I (300) app: up"; log_level := ESP_LOG_INFO;
           log_timestamp_ms := 300 |}].
Proof.
  destruct (log_vprintf_hook_fifo (cfg := default_sdkconfig) ("I (300) app: up" +:+ nl)
              300 sample_log sample_log_wf) as [Hwalk _].
  - intros _. reflexivity.
  - reflexivity.
  - vm_compute. discriminate.
  - exact Hwalk.
Defined.

(** X20. The stripping loop of [log_vprintf_hook] removes line ends from the
    end of the line and nothing else: the line is the stripped text followed
    by line ends only, and the stripped text does not end in a line end.
    Line ends inside the text stay. *)
Theorem strip_trailing_newlines_spec (s : string) :
  (exists tail : string,
      s = strip_trailing_newlines s +:+ tail /\ str_forall is_line_end tail = true) /\
  (forall (prefix : string) (c : ascii),
      strip_trailing_newlines s = prefix +:+ String c EmptyString ->
      is_line_end c = false).
Proof.
  induction s as [|c s [(tail & Htail & Hends) Hlast]]; simpl.
  - split; [by exists "" | by intros [|x prefix] c].
  - fold (is_line_end c).
    destruct (strip_trailing_newlines s) as [|r rest] eqn:Hstrip.
    + rewrite str_app_nil_l in Htail. subst tail.
      destruct (is_line_end c) eqn:Hc.
      * split; [exists (String c s); simpl; by rewrite Hc |].
        by intros [|x prefix] c'.
      * split; [by exists s |].
        intros [|x [|y prefix]] c'; rewrite ?str_app_cons, ?str_app_nil_l;
          intros Heq; by simplify_eq.
    + split.
      * exists tail. split; [| exact Hends].
        rewrite str_app_cons. by f_equal.
      * intros [|x prefix] c'; rewrite ?str_app_cons, ?str_app_nil_l;
          intros Heq; simplify_eq.
        by apply (Hlast prefix).
Qed.

Section log_init.
Context {cfg : sdkconfig} {elog : esp_log_lib}.

(** The statics once the semaphore exists and before any line is
    captured. *)
Lemma log_statics_ready :
  (1 <= LOG_MAX_LINES)%Z ->
  let st := {| s_log_ring := replicate (Z.to_nat LOG_MAX_LINES) log_entry_zero;
               s_log_head := 0; s_log_count := 0; s_log_mutex := true |} in
  log_state_wf st /\ log_ring_linear st /\ log_walk st = [] /\
  forall (mutex_taken : bool) (args : option cJSON) (max_len : nat),
    2 < max_len ->
    tool_sys_get_logs mutex_taken args max_len st = Some (ESP_OK, "[]").
Proof.
  intros Hlines st. subst st. split; [| split; [| split]].
  - unfold log_state_wf. cbn. rewrite length_replicate.
    split; [reflexivity |]. split; [lia |]. split; [lia |].
    apply Forall_replicate. unfold int64_range. simpl. lia.
  - by intros _.
  - reflexivity.
  - intros mutex_taken args max_len Hlen. unfold tool_sys_get_logs.
    cbn [s_log_mutex negb].
    rewrite (ob_snprintf_fits max_len "[") by (cbn; lia).
    rewrite option_bind_Some.
    assert (Hemit : forall (min_level : esp_log_level_t) (filter : option string)
                      (skip : Z) (b : outbuf),
               get_logs_emit max_len min_level filter
                 (log_walk {| s_log_ring := replicate (Z.to_nat LOG_MAX_LINES)
                                              log_entry_zero;
                              s_log_head := 0; s_log_count := 0;
                              s_log_mutex := true |})
                 skip true b = Some b) by reflexivity.
    assert (Hclose : (b1 ← Some (ob_push "[" {| ob_text := ""; ob_written := 0 |});
                      b2 ← ob_snprintf max_len "]" b1;
                      Some (ESP_OK, str_take (max_len - 1) (ob_text b2)))
                     = Some (ESP_OK, "[]")).
    { rewrite option_bind_Some.
      rewrite (ob_snprintf_fits max_len "]") by (cbn; lia).
      rewrite option_bind_Some. cbn [ob_push ob_text].
      change (("" +:+ "[") +:+ "]") with "[]".
      rewrite str_take_all by (cbn; lia). reflexivity. }
    destruct mutex_taken; [rewrite Hemit |]; exact Hclose.
Qed.

(** The statics once the first line has been captured. *)
Lemma log_statics_first_line (entry : log_entry_t) :
  (1 <= LOG_MAX_LINES)%Z ->
  int64_range (log_timestamp_ms entry) ->
  let st := {| s_log_ring := <[Z.to_nat 0 := entry]>
                               (replicate (Z.to_nat LOG_MAX_LINES) log_entry_zero);
               s_log_head := ((0 + 1) `rem` LOG_MAX_LINES)%Z;
               s_log_count := if (0 <? LOG_MAX_LINES)%Z then (0 + 1)%Z else 0%Z;
               s_log_mutex := true |} in
  log_state_wf st /\ log_ring_linear st /\ log_walk st = [entry].
Proof.
  intros Hlines Hstamp st. subst st.
  assert (Hpos : (0 <? LOG_MAX_LINES)%Z = true) by (apply Z.ltb_lt; lia).
  rewrite Hpos. split; [| split].
  - unfold log_state_wf. cbn [s_log_ring s_log_head s_log_count].
    rewrite length_insert, length_replicate.
    split; [reflexivity |].
    split; [pose proof (Z.rem_bound_pos (0 + 1) LOG_MAX_LINES); lia |].
    split; [lia |].
    apply Forall_insert; [| exact Hstamp].
    apply Forall_replicate. unfold int64_range. simpl. lia.
  - unfold log_ring_linear. cbn [s_log_head s_log_count]. intros Hroom.
    apply Z.rem_small. lia.
  - unfold log_walk. cbn [s_log_head s_log_count s_log_ring].
    change (Z.to_nat (0 + 1)) with 1. cbn [seq map].
    assert (Hidx : forall start : Z,
               (start = 0 \/ start = (0 + 1) `rem` LOG_MAX_LINES /\ LOG_MAX_LINES = 1)%Z ->
               ((start + Z.of_nat 0) `rem` LOG_MAX_LINES = 0)%Z).
    { intros start [-> | [-> Hone]].
      - apply Z.rem_small. lia.
      - rewrite Hone. reflexivity. }
    rewrite Hidx.
    + unfold log_ring_at. cbn [s_log_ring].
      rewrite list_lookup_insert_eq; [reflexivity |].
      rewrite length_replicate. lia.
    + destruct (Z.ltb_spec (0 + 1) LOG_MAX_LINES); [by left | right].
      split; [reflexivity | lia].
Qed.

(** X21. From the statics as loaded, [mcp_log_init] with its semaphore
    installs the hook and logs its own message through it. The state it
    leaves is well formed, and the ring holds that one line (its first 255
    bytes without trailing line ends, the level read off its first
    character, the time of the capture) when the logging library passes the
    line on and the semaphore is taken; otherwise the ring holds no line
    and the first listing is the empty array. Without the semaphore the
    function answers ESP_ERR_NO_MEM and leaves the statics as loaded; the
    capture function stores nothing in that state, whatever is logged, and
    every listing answers ESP_ERR_INVALID_STATE. *)
Theorem mcp_log_init_spec (now_ms : Z) (mutex_taken : bool) :
  (1 <= LOG_MAX_LINES)%Z ->
  int64_range now_ms ->
  let line := match ESP_LOGI "mcp_log" log_init_message with
              | Some formatted => strip_trailing_newlines (snprintf LOG_LINE_MAX formatted)
              | None => EmptyString
              end in
  (let '(ret, st) := mcp_log_init true now_ms mutex_taken log_statics_zero in
   ret = ESP_OK /\ s_log_mutex st = true /\ log_state_wf st /\ log_ring_linear st /\
   (line <> EmptyString -> mutex_taken = true ->
    log_walk st = [{| log_text := strncpy (LOG_LINE_MAX - 1) line;
                      log_level := detect_level_from_prefix line;
                      log_timestamp_ms := now_ms |}]) /\
   (line = EmptyString \/ mutex_taken = false ->
    log_walk st = [] /\
    forall (taken : bool) (args : option cJSON) (max_len : nat),
      2 < max_len ->
      tool_sys_get_logs taken args max_len st = Some (ESP_OK, "[]"))) /\
  (let '(ret, st) := mcp_log_init false now_ms mutex_taken log_statics_zero in
   ret = ESP_ERR_NO_MEM /\
   st = log_statics_zero /\
   (forall (formatted : string) (now_ms' : Z) (taken : bool),
       log_vprintf_hook formatted now_ms' taken st = st) /\
   forall (taken : bool) (args : option cJSON) (max_len : nat),
     tool_sys_get_logs taken args max_len st
     = Some (ESP_ERR_INVALID_STATE, snprintf max_len "Log system not initialized")).
Proof.
  intros Hlines Hnow line.
  pose proof (log_statics_ready Hlines) as (Hwf0 & Hlinear0 & Hwalk0 & Hlist0).
  split.
  - unfold mcp_log_init.
    cbn [log_statics_zero s_log_ring s_log_head s_log_count s_log_mutex].
    split; [reflexivity |]. subst line.
    destruct (ESP_LOGI "mcp_log" log_init_message) as [formatted|].
    2:{ split; [reflexivity |]. split; [exact Hwf0 |]. split; [exact Hlinear0 |].
        split; [done |]. intros _. by split. }
    unfold log_vprintf_hook.
    set (line := strip_trailing_newlines (snprintf LOG_LINE_MAX formatted)).
    cbn [s_log_ring s_log_head s_log_count s_log_mutex andb].
    case_bool_decide as Hline.
    { split; [reflexivity |]. split; [exact Hwf0 |]. split; [exact Hlinear0 |].
      split; [done |]. intros _. by split. }
    destruct mutex_taken.
    2:{ split; [reflexivity |]. split; [exact Hwf0 |]. split; [exact Hlinear0 |].
        split; [done |]. intros _. by split. }
    pose proof (log_statics_first_line
                  {| log_text := strncpy (LOG_LINE_MAX - 1) line;
                     log_level := detect_level_from_prefix line;
                     log_timestamp_ms := now_ms |} Hlines Hnow)
      as (Hwf1 & Hlinear1 & Hwalk1).
    split; [reflexivity |]. split; [exact Hwf1 |]. split; [exact Hlinear1 |].
    split; [by intros _ _ |]. by intros [Hempty | Hno].
  - unfold mcp_log_init.
    cbn [log_statics_zero s_log_ring s_log_head s_log_count s_log_mutex].
    split; [reflexivity |]. split; [reflexivity |]. split.
    + intros formatted now_ms' taken. unfold log_vprintf_hook. cbn.
      by case_bool_decide.
    + reflexivity.
Qed.

End log_init.

Lemma mcp_log_init_spec_witness :
  log_walk (cfg := default_sdkconfig)
    (mcp_log_init (cfg := default_sdkconfig) (elog := toy_esp_log) true 12 true
       (log_statics_zero (cfg := default_sdkconfig))).2
  = [{| log_text := "I (0) mcp_log: Log capture initialized (ring buffer: 64 entries)";
        log_level := ESP_LOG_INFO; log_timestamp_ms := 12 |}].
Proof.
  destruct (mcp_log_init_spec (cfg := default_sdkconfig) (elog := toy_esp_log) 12 true)
    as [Hok _]; [by vm_compute | by vm_compute |].
  destruct (mcp_log_init (cfg := default_sdkconfig) (elog := toy_esp_log) true 12 true
              (log_statics_zero (cfg := default_sdkconfig))) as [ret st].
  destruct Hok as (_ & _ & _ & _ & Hline & _). cbn [snd].
  rewrite Hline; [by vm_compute | by vm_compute | reflexivity].
Defined.

(** ** lua_runtime.c: the script store *)

Lemma script_path_take (script : string) :
  script_path script = "/spiffs/" +:+ str_take 271 script.
Proof.
  unfold script_path, snprintf, SPIFFS_BASE_PATH.
  rewrite <- (str_app_assoc "/spiffs" "/" script).
  change ("/spiffs" +:+ "/") with "/spiffs/".
  rewrite (str_take_app_r (280 - 1) "/spiffs/" script) by (cbn; lia).
  reflexivity.
Qed.

Lemma str_app_inv_head (a b c : string) : a +:+ b = a +:+ c -> b = c.
Proof.
  induction a as [|x a IH]; [done |]. rewrite !str_app_cons. intros [= Heq]. by apply IH.
Qed.

(** X22. Writing a script leaves every script stored under another path as
    it was, and a write that fails leaves the whole store as it was. The
    path of a script is "/spiffs/" followed by the first 271 bytes of its
    name: two names that agree on these bytes share one file, and two
    different names of at most 271 bytes never do. *)
Theorem script_store_other_scripts (fopen_ok : bool) (fs : gmap string string)
    (script other content : string) (append : bool) (max_len : nat) :
  (script_path other <> script_path script ->
   lua_runtime_get_script (lua_runtime_push_script fopen_ok fs script content append).2
     other max_len
   = lua_runtime_get_script fs other max_len) /\
  ((lua_runtime_push_script fopen_ok fs script content append).1 <> ESP_OK ->
   (lua_runtime_push_script fopen_ok fs script content append).2 = fs) /\
  (script_path other = script_path script <-> str_take 271 other = str_take 271 script) /\
  (String.length script <= 271 -> String.length other <= 271 ->
   other <> script -> script_path other <> script_path script).
Proof.
  assert (Hpath : script_path other = script_path script <->
                  str_take 271 other = str_take 271 script).
  { rewrite !script_path_take. split; [apply str_app_inv_head | by intros ->]. }
  split; [| split; [| split; [exact Hpath |]]].
  - intros Hother. unfold lua_runtime_push_script, lua_runtime_get_script.
    destruct fopen_ok; [| reflexivity]. cbn [snd].
    by rewrite lookup_insert_ne.
  - unfold lua_runtime_push_script. by destruct fopen_ok.
  - intros Hscript Hname Hne Heq. apply Hpath in Heq.
    rewrite !str_take_all in Heq by lia. done.
Qed.

(** X23. The listing of the scripts has, for every file of the store in
    directory order, the line "name (size bytes)", as long as all lines fit
    the buffer; an empty store is reported as "(no scripts)". When the
    directory cannot be opened the call answers ESP_FAIL. *)
Theorem lua_runtime_list_scripts_all (fs : gmap string string) (max_len : nat) :
  (Z.of_nat max_len <= INT_MAX)%Z ->
  String.length (list_scripts_text (map_to_list fs)) < max_len ->
  lua_runtime_list_scripts true fs max_len
  = Some (ESP_OK,
          if decide (fs = ∅) then snprintf max_len "(no scripts)"
          else list_scripts_text (map_to_list fs)) /\
  lua_runtime_list_scripts false fs max_len
  = Some (ESP_FAIL, snprintf max_len "Failed to open SPIFFS directory").
Proof.
  intros Hmax Hfits. split; [| reflexivity].
  assert (Hline : forall entry : string * string, 1 <= String.length (list_scripts_line entry)).
  { intros entry. unfold list_scripts_line. rewrite !str_length_app. cbn. lia. }
  assert (Hloop : forall (entries : list (string * string)) (b : outbuf),
             ob_good b ->
             (ob_written b + Z.of_nat (String.length (list_scripts_text entries))
              < Z.of_nat max_len)%Z ->
             list_scripts_loop max_len entries b
             = Some (ob_push (list_scripts_text entries) b)).
  { induction entries as [|entry entries IH]; intros b Hgood Hroom.
    - cbn. by rewrite ob_push_nil.
    - cbn [list_scripts_loop list_scripts_text foldr] in *.
      fold (list_scripts_text entries) in *.
      rewrite str_length_app in Hroom. pose proof (Hline entry) as Hentry.
      replace (wrap32 (Z.of_nat max_len)) with (Z.of_nat max_len)
        by (unfold wrap32, INT_MAX in *; rewrite Z.mod_small; lia).
      destruct (Z.ltb_spec (ob_written b) (Z.of_nat max_len - 1)); [| lia].
      rewrite ob_snprintf_fits by lia. rewrite option_bind_Some.
      rewrite IH; [by rewrite ob_push_push | by apply ob_push_good |].
      unfold ob_push. cbn [ob_written]. lia. }
  unfold lua_runtime_list_scripts.
  rewrite Hloop; [| reflexivity | cbn; lia]. rewrite option_bind_Some.
  f_equal. f_equal. unfold ob_push. cbn [ob_written ob_text].
  destruct (decide (fs = ∅)) as [-> | Hne].
  - by rewrite map_to_list_empty.
  - destruct (map_to_list fs) as [|entry entries] eqn:Hentries.
    + by apply map_to_list_empty_iff in Hentries.
    + cbn [list_scripts_text foldr]. pose proof (Hline entry).
      rewrite str_length_app.
      destruct (Z.eqb_spec (0 + Z.of_nat (String.length (list_scripts_line entry)
                                         + String.length (foldr
                                             (fun entry rest =>
                                                list_scripts_line entry +:+ rest)
                                             "" entries))) 0); [lia |].
      reflexivity.
Qed.

Lemma lua_runtime_list_scripts_all_witness :
  lua_runtime_list_scripts true {["/spiffs/main.lua" := "return 1"]} 2048
  = Some (ESP_OK, "main.lua (8 bytes)" +:+ nl).
Proof.
  destruct (lua_runtime_list_scripts_all {["/spiffs/main.lua" := "return 1"]} 2048)
    as [Hlist _].
  - unfold INT_MAX. lia.
  - rewrite map_to_list_singleton. vm_compute. lia.
  - rewrite Hlist. rewrite decide_False by apply insert_non_empty.
    rewrite map_to_list_singleton. reflexivity.
Defined.

(** ** lua_runtime.c: a snippet that does not return, and a task that ends *)

Section exec_hangs.
Context {lua : lua_lib}.

(** X24. When the snippet never returns, [lua_runtime_exec] never returns
    either, and at that point the background task has already been deleted:
    the handle is cleared, the running flag is off and no task is left, so
    main.lua is not resumed. *)
Theorem lua_runtime_exec_hangs (ok : bool) (s : lua_runtime) (vm : lua_State)
    (code result : string) (max_len : nat) :
  rt_consistent s -> L s = Some vm -> luaL_dostring vm code = None ->
  exists (s' : lua_runtime) (moments : list (list context)),
    lua_runtime_exec ok (Some code) result max_len s = (None, s', moments) /\
    L s' = Some vm /\ lua_task_handle s' = None /\ kernel_tasks s' = [] /\
    (is_Some (lua_task_handle s) -> lua_task_running s' = false) /\
    Forall (fun inside => length inside <= 1) moments.
Proof.
  intros Hconsistent Hvm Hhangs. unfold rt_consistent in Hconsistent.
  destruct s as [vm0 [h|] running tasks next]; cbn in *; subst vm0.
  - destruct Hconsistent as [-> _]. rt_unfold. cbn. rewrite Hhangs. cbn.
    rewrite decide_True by done. cbn.
    do 2 eexists. split; [reflexivity |]. repeat split.
    repeat (apply List.Forall_cons; [vm_compute; lia |]). apply List.Forall_nil.
  - subst tasks. rt_unfold. cbn. rewrite Hhangs. cbn.
    do 2 eexists. split; [reflexivity |]. repeat split; [by intros [? ?] |].
    repeat (apply List.Forall_cons; [vm_compute; lia |]). apply List.Forall_nil.
Qed.

(** X25. When main.lua returns, [lua_task] clears the handle and the running
    flag and deletes itself, which leaves a consistent runtime without task;
    [lua_runtime_start] then succeeds and creates exactly one task, under a
    handle that was not in use. *)
Theorem lua_task_finished_then_start (s : lua_runtime) (h : TaskHandle_t) :
  rt_consistent s -> lua_task_handle s = Some h ->
  exists (s1 s2 : lua_runtime) (moments : list (list context)),
    (lua_task_finished h s).1 = (tt, s1) /\
    lua_task_handle s1 = None /\ lua_task_running s1 = false /\ kernel_tasks s1 = [] /\
    L s1 = L s /\
    lua_runtime_start true s1 = (ESP_OK, s2, moments) /\
    rt_consistent s2 /\ lua_task_handle s2 <> Some h /\ length (kernel_tasks s2) = 1.
Proof.
  intros Hconsistent Hhandle. unfold rt_consistent in Hconsistent.
  destruct s as [vm handle running tasks next]. cbn in *. subst handle.
  destruct Hconsistent as [-> Hnext]. rt_unfold. cbn.
  rewrite bool_decide_eq_false_2 by (intros Hne; by apply Hne). cbn.
  do 3 eexists. split; [reflexivity |]. repeat split; cbn; try lia.
  intros [= Heq]. lia.
Qed.

End exec_hangs.

Lemma lua_runtime_exec_hangs_witness :
  exists (s' : lua_runtime) (moments : list (list context)),
    lua_runtime_exec (lua := toy_lua) true (Some "while true do end") "" 2048 sample_runtime
    = (None, s', moments) /\
    lua_task_handle s' = None /\ kernel_tasks s' = [].
Proof.
  destruct (lua_runtime_exec_hangs (lua := toy_lua) true sample_runtime (toy_state [])
              "while true do end" "" 2048)
    as (s' & moments & Hrun & _ & Hhandle & Htasks & _).
  - split; [reflexivity | cbn; lia].
  - reflexivity.
  - reflexivity.
  - by exists s', moments.
Defined.

Lemma lua_task_finished_then_start_witness :
  exists (s2 : lua_runtime) (moments : list (list context)),
    lua_runtime_start (lua := toy_lua) true (lua_task_finished 1 sample_runtime).1.2
    = (ESP_OK, s2, moments) /\
    length (kernel_tasks s2) = 1.
Proof.
  destruct (lua_task_finished_then_start (lua := toy_lua) sample_runtime 1)
    as (s1 & s2 & moments & Hfinished & _ & _ & _ & _ & Hstart & _ & _ & Hone).
  - split; [reflexivity | cbn; lia].
  - reflexivity.
  - exists s2, moments. rewrite Hfinished. by split.
Defined.

(** ** lua_runtime.c: the default scripts at start-up *)

Lemma adds_defaults_only_refl (fs : gmap string string) : adds_defaults_only fs fs.
Proof. split; [done |]. intros path -> [? ?]. done. Qed.

Lemma write_script_if_missing_step (fopen_ok : string -> bool)
    (fs fs1 : gmap string string) (name content : string) :
  (name, content) ∈ default_scripts ->
  adds_defaults_only fs fs1 ->
  adds_defaults_only fs (write_script_if_missing fopen_ok fs1 name content).2 /\
  ((write_script_if_missing fopen_ok fs1 name content).1 = ESP_OK ->
   is_Some ((write_script_if_missing fopen_ok fs1 name content).2 !! script_path name)) /\
  ((write_script_if_missing fopen_ok fs1 name content).1 = ESP_OK \/
   (write_script_if_missing fopen_ok fs1 name content).1 = ESP_FAIL).
Proof.
  intros Hdefault [Hkeeps Hadds]. unfold write_script_if_missing, script_exists.
  case_bool_decide as Hexists; cbn [fst snd].
  { split; [by split |]. split; [done | by left]. }
  destruct (fopen_ok (script_path name)); cbn [fst snd].
  2: { split; [by split |]. split; [done | by right]. }
  assert (Hmissing : fs1 !! script_path name = None)
    by (by apply eq_None_not_Some).
  split; [| split; [intros _; by rewrite lookup_insert_eq | by left]]. split.
  - intros path text Hpath.
    destruct (decide (path = script_path name)) as [-> | Hne].
    + apply Hkeeps in Hpath. congruence.
    + rewrite lookup_insert_ne by done. by apply Hkeeps.
  - intros path Hpath Hnew.
    destruct (decide (path = script_path name)) as [-> | Hne].
    + exists name, content. by rewrite lookup_insert_eq.
    + rewrite lookup_insert_ne in Hnew |- * by done. by apply Hadds.
Qed.

Lemma write_script_if_missing_exists (fopen_ok : string -> bool)
    (fs : gmap string string) (name content : string) :
  is_Some (fs !! script_path name) ->
  write_script_if_missing fopen_ok fs name content = (ESP_OK, fs).
Proof.
  intros Hexists. unfold write_script_if_missing, script_exists.
  by rewrite bool_decide_eq_true_2.
Qed.

(** What [write_default_script] does to the store. *)
Lemma write_default_script_files (fopen_ok : string -> bool) (fs : gmap string string) :
  adds_defaults_only fs (write_default_script fopen_ok fs).2 /\
  ((write_default_script fopen_ok fs).1 = ESP_OK ->
   (forall name content : string,
       (name, content) ∈ default_scripts ->
       is_Some ((write_default_script fopen_ok fs).2 !! script_path name)) /\
   forall fopen_ok' : string -> bool,
     write_default_script fopen_ok' (write_default_script fopen_ok fs).2
     = (ESP_OK, (write_default_script fopen_ok fs).2)) /\
  ((write_default_script fopen_ok fs).1 = ESP_OK \/
   (write_default_script fopen_ok fs).1 = ESP_FAIL).
Proof.
  unfold write_default_script.
  destruct (write_script_if_missing_step fopen_ok fs fs "di_container.lua"
              default_di_container_lua) as (Hadds1 & Hexists1 & Hstatus1);
    [repeat constructor | apply adds_defaults_only_refl |].
  destruct (write_script_if_missing fopen_ok fs "di_container.lua"
              default_di_container_lua) as [ret1 fs1]. cbn [fst snd] in *.
  case_bool_decide as Hret1; cbn [fst snd];
    [split; [done |]; split; [intros ?; congruence | exact Hstatus1] |].
  destruct (write_script_if_missing_step fopen_ok fs fs1 "provider_ssd1306.lua"
              default_provider_ssd1306_lua) as (Hadds2 & Hexists2 & Hstatus2);
    [repeat constructor | done |].
  pose proof (write_script_if_missing_step fopen_ok fs1 fs1 "provider_ssd1306.lua"
                default_provider_ssd1306_lua ltac:(repeat constructor)
                (adds_defaults_only_refl fs1)) as ([Hkeeps2 _] & _).
  destruct (write_script_if_missing fopen_ok fs1 "provider_ssd1306.lua"
              default_provider_ssd1306_lua) as [ret2 fs2]. cbn [fst snd] in *.
  case_bool_decide as Hret2; cbn [fst snd];
    [split; [done |]; split; [intros ?; congruence | exact Hstatus2] |].
  destruct (write_script_if_missing_step fopen_ok fs fs2 "bindings.lua"
              default_bindings_lua) as (Hadds3 & Hexists3 & Hstatus3);
    [repeat constructor | done |].
  pose proof (write_script_if_missing_step fopen_ok fs2 fs2 "bindings.lua"
                default_bindings_lua ltac:(repeat constructor)
                (adds_defaults_only_refl fs2)) as ([Hkeeps3 _] & _).
  destruct (write_script_if_missing fopen_ok fs2 "bindings.lua"
              default_bindings_lua) as [ret3 fs3]. cbn [fst snd] in *.
  case_bool_decide as Hret3; cbn [fst snd];
    [split; [done |]; split; [intros ?; congruence | exact Hstatus3] |].
  destruct (write_script_if_missing_step fopen_ok fs fs3 "main.lua"
              default_main_lua) as (Hadds4 & Hexists4 & Hstatus4);
    [repeat constructor | done |].
  pose proof (write_script_if_missing_step fopen_ok fs3 fs3 "main.lua"
                default_main_lua ltac:(repeat constructor)
                (adds_defaults_only_refl fs3)) as ([Hkeeps4 _] & _).
  destruct (write_script_if_missing fopen_ok fs3 "main.lua" default_main_lua)
    as [ret4 fs4]. cbn [fst snd] in *.
  split; [done |]. split; [| done].
  intros Hret4.
  assert (Hret1' : ret1 = ESP_OK) by (by destruct (decide (ret1 = ESP_OK))).
  assert (Hret2' : ret2 = ESP_OK) by (by destruct (decide (ret2 = ESP_OK))).
  assert (Hret3' : ret3 = ESP_OK) by (by destruct (decide (ret3 = ESP_OK))).
  assert (Hkept : forall path : string,
             is_Some (fs1 !! path) \/ is_Some (fs2 !! path) \/ is_Some (fs3 !! path) \/
             is_Some (fs4 !! path) -> is_Some (fs4 !! path)).
  { intros path [[text H1] | [[text H2] | [[text H3] | H4]]]; [| | | done].
    - eexists. by apply Hkeeps4, Hkeeps3, Hkeeps2.
    - eexists. by apply Hkeeps4, Hkeeps3.
    - eexists. by apply Hkeeps4. }
  assert (Hall : forall name content : string,
             (name, content) ∈ default_scripts -> is_Some (fs4 !! script_path name)).
  { intros name content Hin. apply Hkept. unfold default_scripts in Hin.
    repeat (apply elem_of_cons in Hin as [[= -> ->] | Hin]; [by auto |]).
    by apply elem_of_nil in Hin. }
  split; [exact Hall |]. intros fopen_ok'.
  rewrite write_script_if_missing_exists
    by (apply (Hall _ default_di_container_lua); repeat constructor).
  rewrite bool_decide_eq_false_2 by (intros Hne; by apply Hne).
  rewrite write_script_if_missing_exists
    by (apply (Hall _ default_provider_ssd1306_lua); repeat constructor).
  rewrite bool_decide_eq_false_2 by (intros Hne; by apply Hne).
  rewrite write_script_if_missing_exists
    by (apply (Hall _ default_bindings_lua); repeat constructor).
  rewrite bool_decide_eq_false_2 by (intros Hne; by apply Hne).
  apply write_script_if_missing_exists.
  apply (Hall _ default_main_lua). repeat constructor.
Qed.

(** X26. [write_default_script] never changes or removes a file that is
    already stored, so scripts that were pushed survive a restart of the
    device; what it adds are default scripts with their default texts. When
    it answers ESP_OK the four default scripts exist, and running it again
    then changes nothing. It answers ESP_OK or ESP_FAIL. *)
Theorem write_default_script_spec (fopen_ok : string -> bool) (fs : gmap string string) :
  adds_defaults_only fs (write_default_script fopen_ok fs).2 /\
  ((write_default_script fopen_ok fs).1 = ESP_OK ->
   (forall name content : string,
       (name, content) ∈ default_scripts ->
       is_Some ((write_default_script fopen_ok fs).2 !! script_path name)) /\
   forall fopen_ok' : string -> bool,
     write_default_script fopen_ok' (write_default_script fopen_ok fs).2
     = (ESP_OK, (write_default_script fopen_ok fs).2)) /\
  ((write_default_script fopen_ok fs).1 = ESP_OK \/
   (write_default_script fopen_ok fs).1 = ESP_FAIL).
Proof. apply write_default_script_files. Qed.

(** The two invariants on a state that has been computed. *)
Ltac rt_finish :=
  cbn;
  split;
  [ first [reflexivity | split; [reflexivity | lia]]
  | first [by intros _; eexists | done | intros Hne; by destruct Hne] ].

Section start_up.
Context {lua : lua_lib}.

(** Start-up once a file system with the files [fs0] is registered. *)
Lemma app_main_lua_registered (drv : spiffs_driver) (fopen_ok : string -> bool)
    (fresh_vm : option lua_State) (xTaskCreate_ok : bool) (part : spiffs_partition)
    (fs0 : gmap string string) :
  spiffs_init drv part = (ESP_OK, Some fs0) ->
  let part' := (app_main_lua drv fopen_ok fresh_vm xTaskCreate_ok part
                  lua_statics_zero).1 in
  let s := (app_main_lua drv fopen_ok fresh_vm xTaskCreate_ok part
              lua_statics_zero).2 in
  rt_consistent s /\
  (is_Some (lua_task_handle s) <->
   (write_default_script fopen_ok fs0).1 = ESP_OK /\
   is_Some fresh_vm /\ xTaskCreate_ok = true) /\
  (is_Some (lua_task_handle s) -> is_Some (L s)) /\
  part' = Some (write_default_script fopen_ok fs0).2.
Proof.
  intros Hinit. unfold app_main_lua, lua_runtime_init. rewrite Hinit.
  rewrite bool_decide_eq_false_2 by (by intros Hne; destruct Hne).
  destruct (write_default_script fopen_ok fs0) as [ret fs1]. cbn [fst snd].
  case_bool_decide as Hret.
  { rewrite bool_decide_eq_false_2 by done. cbn.
    split; [reflexivity |]. split; [split; [by intros [? ?] | by intros (? & _)] |].
    split; [by intros [? ?] | reflexivity]. }
  assert (Hwritten : ret = ESP_OK) by (by destruct (decide (ret = ESP_OK))).
  destruct fresh_vm as [vm|].
  2: { rewrite bool_decide_eq_false_2 by done. cbn.
       split; [reflexivity |].
       split; [split; [by intros [? ?] | by intros (_ & [? ?] & _)] |].
       split; [by intros [? ?] | reflexivity]. }
  rewrite bool_decide_eq_true_2 by done. rt_unfold. cbn.
  destruct xTaskCreate_ok; cbn.
  - split; [split; [reflexivity | lia] |].
    split; [split; [done | by intros _; eexists] |].
    split; [by intros _; eexists | reflexivity].
  - split; [reflexivity |].
    split; [split; [by intros [? ?] | by intros (_ & _ & ?)] |].
    split; [by intros [? ?] | reflexivity].
Qed.

(** Start-up when the registration fails. *)
Lemma app_main_lua_unregistered (drv : spiffs_driver) (fopen_ok : string -> bool)
    (fresh_vm : option lua_State) (xTaskCreate_ok : bool) (part : spiffs_partition) :
  (spiffs_init drv part).1 <> ESP_OK ->
  app_main_lua drv fopen_ok fresh_vm xTaskCreate_ok part lua_statics_zero
  = ((spiffs_init drv part).2, lua_statics_zero).
Proof.
  intros Hinit. unfold app_main_lua, lua_runtime_init.
  destruct (spiffs_init drv part) as [ret part1]. cbn [fst snd] in *.
  rewrite bool_decide_eq_true_2 by done.
  by rewrite bool_decide_eq_false_2.
Qed.

(** X27. Start-up registers the store with formatting allowed: a partition
    that mounts keeps its files, a partition that does not mount is
    formatted and starts out empty, and a registration that is refused
    leaves the partition alone. The scripting task is created exactly when
    the registration succeeded, the default scripts are in place, the
    interpreter was created and the kernel had room for the task. The task
    then has an interpreter and finds main.lua and the other default
    scripts on the store. In every case the runtime is left consistent, and
    the files that a mounted partition held are untouched. *)
Theorem app_main_lua_spec (drv : spiffs_driver) (fopen_ok : string -> bool)
    (fresh_vm : option lua_State) (xTaskCreate_ok : bool) (part : spiffs_partition) :
  let part' := (app_main_lua drv fopen_ok fresh_vm xTaskCreate_ok part
                  lua_statics_zero).1 in
  let s := (app_main_lua drv fopen_ok fresh_vm xTaskCreate_ok part
              lua_statics_zero).2 in
  rt_consistent s /\
  ((spiffs_init drv part).1 = ESP_OK <->
   spiffs_refuses drv = None /\
   (is_Some part \/ spiffs_format_ok drv = true /\ spiffs_remount_ok drv = true)) /\
  (is_Some (lua_task_handle s) <->
   exists fs0 : gmap string string,
     spiffs_init drv part = (ESP_OK, Some fs0) /\
     (write_default_script fopen_ok fs0).1 = ESP_OK /\
     is_Some fresh_vm /\ xTaskCreate_ok = true) /\
  (is_Some (lua_task_handle s) ->
   is_Some (L s) /\
   exists fs' : gmap string string,
     part' = Some fs' /\
     forall name content : string,
       (name, content) ∈ default_scripts -> is_Some (fs' !! script_path name)) /\
  (forall fs : gmap string string,
      part = Some fs ->
      exists fs' : gmap string string, part' = Some fs' /\ adds_defaults_only fs fs') /\
  (part = None -> spiffs_refuses drv = None ->
   if spiffs_format_ok drv
   then exists fs' : gmap string string, part' = Some fs' /\ adds_defaults_only ∅ fs'
   else part' = None) /\
  (forall r : spiffs_refusal,
      spiffs_refuses drv = Some r ->
      part' = part /\ L s = None /\ lua_task_handle s = None) /\
  ((spiffs_init drv part).1 <> ESP_OK -> L s = None /\ lua_task_handle s = None).
Proof.
  intros part' s.
  assert (Hreg : forall fs0 : gmap string string,
             spiffs_init drv part = (ESP_OK, Some fs0) ->
             rt_consistent s /\
             (is_Some (lua_task_handle s) <->
              exists fs1 : gmap string string,
                spiffs_init drv part = (ESP_OK, Some fs1) /\
                (write_default_script fopen_ok fs1).1 = ESP_OK /\
                is_Some fresh_vm /\ xTaskCreate_ok = true) /\
             (is_Some (lua_task_handle s) ->
              is_Some (L s) /\
              exists fs' : gmap string string,
                part' = Some fs' /\
                forall name content : string,
                  (name, content) ∈ default_scripts ->
                  is_Some (fs' !! script_path name)) /\
             part' = Some (write_default_script fopen_ok fs0).2 /\
             adds_defaults_only fs0 (write_default_script fopen_ok fs0).2).
  { intros fs0 Hinit.
    pose proof (app_main_lua_registered drv fopen_ok fresh_vm xTaskCreate_ok part fs0
                  Hinit) as (Hcons & Htask & Hvm & Hpart).
    pose proof (write_default_script_files fopen_ok fs0) as (Hadds & Hok & _).
    fold s in Hcons, Htask, Hvm. fold part' in Hpart.
    split; [exact Hcons |]. split.
    { rewrite Htask. split.
      - intros Hall. by exists fs0.
      - intros (fs1 & Hinit1 & Hall). rewrite Hinit in Hinit1.
        by injection Hinit1 as <-. }
    split; [| by split].
    intros Hhandle. split; [by apply Hvm |].
    exists (write_default_script fopen_ok fs0).2. split; [exact Hpart |].
    apply Hok. by apply Htask. }
  assert (Hunreg : (spiffs_init drv part).1 <> ESP_OK ->
                   part' = (spiffs_init drv part).2 /\ s = lua_statics_zero).
  { intros Hinit. subst part' s.
    by rewrite (app_main_lua_unregistered drv fopen_ok fresh_vm xTaskCreate_ok part Hinit). }
  destruct drv as [[r|] format_ok remount_ok]; [| destruct part as [fs|]].
  - (* refused *)
    destruct Hunreg as [Hpart Hs]; [by destruct r |].
    cbn in Hpart. rewrite Hs, Hpart.
    split; [reflexivity |].
    split; [split; [by destruct r | by intros [? _]] |].
    split; [split; [by intros [? ?] | by intros (fs0 & Hinit & _); destruct r] |].
    split; [by intros [? ?] |].
    split; [intros fs ->; exists fs; split; [reflexivity | apply adds_defaults_only_refl] |].
    split; [done |]. split; [done | done].
  - (* the partition mounts *)
    destruct (Hreg fs eq_refl) as (Hcons & Htask & Hfiles & Hpart & Hadds).
    split; [exact Hcons |].
    split; [split; [intros _; split; [reflexivity | by left; eexists] | done] |].
    split; [exact Htask |]. split; [exact Hfiles |].
    split; [intros fs1 [= <-]; by eexists |].
    split; [done |]. split; [done |]. intros Hne. by destruct Hne.
  - (* the partition does not mount *)
    destruct format_ok; [destruct remount_ok |].
    + destruct (Hreg ∅ eq_refl) as (Hcons & Htask & Hfiles & Hpart & Hadds).
      split; [exact Hcons |].
      split; [split; [intros _; split; [reflexivity | by right] | done] |].
      split; [exact Htask |]. split; [exact Hfiles |].
      split; [done |]. split; [intros _ _; by eexists |].
      split; [done |]. intros Hne. by destruct Hne.
    + destruct Hunreg as [Hpart Hs]; [done |].
      cbn in Hpart. rewrite Hs, Hpart.
      split; [reflexivity |].
      split; [split; [done | by intros (_ & [[? ?] | [_ ?]])] |].
      split; [split; [by intros [? ?] | by intros (fs0 & Hinit & _)] |].
      split; [by intros [? ?] |]. split; [done |].
      split; [intros _ _; exists ∅; split; [reflexivity | apply adds_defaults_only_refl] |].
      split; [done | done].
    + destruct Hunreg as [Hpart Hs]; [done |].
      cbn in Hpart. rewrite Hs, Hpart.
      split; [reflexivity |].
      split; [split; [done | by intros (_ & [[? ?] | [? _]])] |].
      split; [split; [by intros [? ?] | by intros (fs0 & Hinit & _)] |].
      split; [by intros [? ?] |]. split; [done |].
      split; [done |]. split; [done | done].
Qed.

(** X28. [lua_runtime_start] does not look at the interpreter, but the two
    operations that call it keep a task from existing without one: after
    [lua_runtime_restart] and after [lua_runtime_exec], whatever the
    allocations answer, every task that exists has an interpreter to run
    on, and the runtime is consistent. *)
Theorem lifecycle_keeps_vm_for_task (fresh_vm : option lua_State) (ok : bool)
    (code : option string) (result : string) (max_len : nat) (s : lua_runtime) :
  rt_consistent s -> rt_task_has_vm s ->
  (rt_consistent (lua_runtime_restart fresh_vm ok s).1.2 /\
   rt_task_has_vm (lua_runtime_restart fresh_vm ok s).1.2) /\
  (rt_consistent (lua_runtime_exec ok code result max_len s).1.2 /\
   rt_task_has_vm (lua_runtime_exec ok code result max_len s).1.2).
Proof.
  unfold rt_consistent, rt_task_has_vm.
  destruct s as [vm [h|] running tasks next]; cbn; intros Hconsistent Hvm.
  - destruct Hconsistent as [-> Hnext]. split.
    + rt_unfold. cbn. rewrite decide_True by done. cbn.
      destruct fresh_vm, ok; rt_finish.
    + destruct vm as [vm|]; [| by destruct (Hvm ltac:(done))].
      destruct code as [code|]; rt_unfold; cbn; [| rt_finish].
      rewrite decide_True by done. cbn.
      destruct (luaL_dostring vm code) as [[ret vm1]|]; cbn; [| rt_finish].
      case_bool_decide; cbn.
      * destruct ok; rt_finish.
      * destruct (lua_gettop vm1 >? 0)%Z; [destruct (luaL_tolstring vm1 (-1))|]; cbn;
          destruct ok; rt_finish.
  - subst tasks. split.
    + rt_unfold. cbn. destruct fresh_vm, ok; rt_finish.
    + destruct vm as [vm|]; [| rt_unfold; rt_finish].
      destruct code as [code|]; rt_unfold; cbn; [| rt_finish].
      destruct (luaL_dostring vm code) as [[ret vm1]|]; cbn; [| rt_finish].
      case_bool_decide; cbn; [rt_finish |].
      destruct (lua_gettop vm1 >? 0)%Z; [destruct (luaL_tolstring vm1 (-1))|]; rt_finish.
Qed.

End start_up.

Lemma lifecycle_keeps_vm_for_task_witness :
  rt_consistent (lua_runtime_restart (lua := toy_lua) None true sample_runtime).1.2 /\
  rt_task_has_vm (lua_runtime_restart (lua := toy_lua) None true sample_runtime).1.2.
Proof.
  destruct (lifecycle_keeps_vm_for_task (lua := toy_lua) None true None "" 0 sample_runtime)
    as [Hrestart _].
  - split; [reflexivity | cbn; lia].
  - intros _. by eexists.
  - exact Hrestart.
Defined.

(** ** lua_runtime.c: the I2C device cache *)

Lemma i2c_cache_find_None (cache : list (Z * i2c_master_dev_handle_t)) (addr : Z) :
  i2c_cache_find cache addr = None <-> addr ∉ map fst cache.
Proof.
  induction cache as [|[a handle] cache IH]; cbn.
  - split; [intros _; apply not_elem_of_nil | done].
  - destruct (Z.eqb_spec a addr) as [-> | Hne].
    + split; [done | intros Hnot; exfalso; apply Hnot, list_elem_of_here].
    + rewrite IH, not_elem_of_cons.
      split; [intros ?; split; [congruence | done] | by intros [_ ?]].
Qed.

Lemma i2c_cache_find_app (cache : list (Z * i2c_master_dev_handle_t))
    (a : Z) (dev : i2c_master_dev_handle_t) (addr : Z) :
  i2c_cache_find (cache ++ [(a, dev)]) addr
  = match i2c_cache_find cache addr with
    | Some handle => Some handle
    | None => if (a =? addr)%Z then Some dev else None
    end.
Proof.
  induction cache as [|[a' handle] cache IH]; cbn; [reflexivity |].
  by destruct (a' =? addr)%Z.
Qed.

(** X29. The device cache stays within its four elements, without an
    address twice and without devices when there is no bus. A cached
    address is answered from the cache, without asking the driver; a device
    that was obtained is cached, so that asking again gives the same handle
    and changes nothing; other cached handles are never displaced; with
    four devices cached a fifth address is refused. A call that gives no
    device changes nothing. [i2c.setup] gives every cached handle back to
    the driver and leaves the cache empty. *)
Theorem i2c_device_cache_spec (add_device : option i2c_master_dev_handle_t) (addr : Z)
    (new_bus : i2c_master_bus_handle_t + esp_err_t) (sda scl freq : Z)
    (st : i2c_state) :
  i2c_cache_wf st ->
  let dev := (i2c_get_device add_device addr st).1 in
  let st' := (i2c_get_device add_device addr st).2 in
  let st_setup := (l_i2c_setup new_bus sda scl freq st).1.2 in
  i2c_cache_wf st' /\
  (forall handle : i2c_master_dev_handle_t,
      i2c_cache_find (i2c_dev_cache st) addr = Some handle ->
      dev = Some handle /\ st' = st) /\
  (dev = None -> st' = st) /\
  (forall handle : i2c_master_dev_handle_t,
      dev = Some handle ->
      forall add_device' : option i2c_master_dev_handle_t,
        i2c_get_device add_device' addr st' = (Some handle, st')) /\
  (forall (other : Z) (handle : i2c_master_dev_handle_t),
      i2c_cache_find (i2c_dev_cache st) other = Some handle ->
      i2c_cache_find (i2c_dev_cache st') other = Some handle) /\
  (i2c_cache_find (i2c_dev_cache st) addr = None ->
   i2c_dev_count st = I2C_MAX_DEVICES -> dev = None) /\
  i2c_cache_wf st_setup /\ i2c_dev_cache st_setup = [] /\
  (l_i2c_setup new_bus sda scl freq st).2 = map snd (i2c_dev_cache st) /\
  (is_Some (i2c_bus_handle st_setup) <-> exists bus, new_bus = inl bus).
Proof.
  intros Hwf. pose proof Hwf as (Hcount & Hnodup & Hbus). cbn zeta.
  assert (Hget :
    i2c_cache_wf (i2c_get_device add_device addr st).2 /\
    (forall handle : i2c_master_dev_handle_t,
        i2c_cache_find (i2c_dev_cache st) addr = Some handle ->
        (i2c_get_device add_device addr st).1 = Some handle /\
        (i2c_get_device add_device addr st).2 = st) /\
    ((i2c_get_device add_device addr st).1 = None ->
     (i2c_get_device add_device addr st).2 = st) /\
    (forall handle : i2c_master_dev_handle_t,
        (i2c_get_device add_device addr st).1 = Some handle ->
        forall add_device' : option i2c_master_dev_handle_t,
          i2c_get_device add_device' addr (i2c_get_device add_device addr st).2
          = (Some handle, (i2c_get_device add_device addr st).2)) /\
    (forall (other : Z) (handle : i2c_master_dev_handle_t),
        i2c_cache_find (i2c_dev_cache st) other = Some handle ->
        i2c_cache_find (i2c_dev_cache (i2c_get_device add_device addr st).2) other
        = Some handle) /\
    (i2c_cache_find (i2c_dev_cache st) addr = None ->
     i2c_dev_count st = I2C_MAX_DEVICES ->
     (i2c_get_device add_device addr st).1 = None)).
  { unfold i2c_get_device.
    destruct (i2c_cache_find (i2c_dev_cache st) addr) as [cached|] eqn:Hfind; cbn [fst snd].
    { split; [exact Hwf |]. split; [by intros handle [= <-] |]. split; [done |].
      split; [| by split].
      intros handle [= <-] add_device'. by rewrite Hfind. }
    destruct (i2c_bus_handle st) as [bus|] eqn:Hhandle.
    2: { rewrite bool_decide_eq_true_2 by done. cbn.
         split; [exact Hwf |]. repeat split; done. }
    rewrite bool_decide_eq_false_2 by done. cbn [orb].
    unfold i2c_dev_count, I2C_MAX_DEVICES in *.
    destruct (Nat.leb_spec 4 (length (i2c_dev_cache st))) as [Hfull | Hroom]; cbn [fst snd].
    { split; [exact Hwf |]. repeat split; done. }
    destruct add_device as [dev|]; cbn [fst snd].
    2: { split; [exact Hwf |]. repeat split; done. }
    split; [| split; [done |]; split; [done |]; split; [| split]].
    - unfold i2c_cache_wf, i2c_dev_count, I2C_MAX_DEVICES. cbn.
      rewrite length_app, map_app. cbn. split; [lia |]. split; [| done].
      apply NoDup_app. split; [exact Hnodup |]. split; [| apply NoDup_singleton].
      intros x Hx [-> | []%elem_of_nil]%elem_of_cons.
      by apply i2c_cache_find_None in Hfind.
    - intros handle [= <-] add_device'. cbn.
      by rewrite i2c_cache_find_app, Hfind, Z.eqb_refl.
    - intros other handle Hother. cbn. by rewrite i2c_cache_find_app, Hother.
    - intros _ ?. lia. }
  split; [apply Hget |]. split; [apply Hget |]. split; [apply Hget |].
  split; [apply Hget |]. split; [apply Hget |]. split; [apply Hget |].
  unfold l_i2c_setup, i2c_cache_wf, i2c_dev_count, I2C_MAX_DEVICES.
  destruct (i2c_bus_handle st) as [bus|] eqn:Hhandle; destruct new_bus as [bus'|ret];
    cbn [fst snd i2c_dev_cache i2c_bus_handle]; rewrite ?Hbus by done; cbn [length map].
  all: split; [split; [lia |]; split; [apply NoDup_nil_2 | done] |].
  all: split; [reflexivity |]. all: split; [reflexivity |].
  all: split; [ intros [created Hcreated] | intros [created Hcreated] ].
  all: first [ discriminate Hcreated | by eexists ].
Qed.

Lemma sample_i2c_wf : i2c_cache_wf sample_i2c.
Proof.
  split; [cbn; unfold I2C_MAX_DEVICES; lia |].
  split; [apply NoDup_singleton | done].
Qed.

Lemma i2c_device_cache_spec_witness :
  i2c_get_device None 60 sample_i2c = (Some 7, sample_i2c) /\
  i2c_dev_cache (i2c_get_device (Some 8) 61 sample_i2c).2 = [(60%Z, 7); (61%Z, 8)].
Proof.
  destruct (i2c_device_cache_spec None 60 (inl 2) 5 6 400000 sample_i2c sample_i2c_wf)
    as (_ & Hhit & _).
  destruct (Hhit 7 eq_refl) as [Hdev Hstate].
  split; [| reflexivity].
  rewrite (surjective_pairing (i2c_get_device None 60 sample_i2c)).
  by rewrite Hdev, Hstate.
Defined.

(** ** lua_runtime.c: the buffer of [i2c.write] *)

Lemma take_take_app {A : Type} (n : nat) (l r : list A) :
  take n (take n l ++ r) = take n (l ++ r).
Proof.
  destruct (Nat.le_gt_cases (length l) n) as [Hshort | Hlong].
  - by rewrite (take_ge l n).
  - rewrite (take_app_le l r n) by lia.
    rewrite take_app_le by (rewrite length_take; lia).
    by rewrite take_take, Nat.min_id.
Qed.

Lemma i2c_buf_store_take (bytes buf : list Z) :
  length buf <= I2C_WRITE_BUF_SZ ->
  i2c_buf_store bytes buf = take I2C_WRITE_BUF_SZ (buf ++ map uint8_of_int bytes).
Proof.
  revert buf. induction bytes as [|byte bytes IH]; intros buf Hlen;
    cbn [i2c_buf_store map].
  - by rewrite app_nil_r, take_ge.
  - destruct (Nat.ltb_spec (length buf) I2C_WRITE_BUF_SZ) as [Hroom | Hfull].
    + rewrite IH by (rewrite length_app; cbn; lia).
      by rewrite <- app_assoc.
    + rewrite take_app_le by lia. by rewrite take_ge.
Qed.

Lemma i2c_write_collect_take (args : list lua_value) (buf : list Z) :
  length buf <= I2C_WRITE_BUF_SZ ->
  i2c_write_collect args buf
  = take I2C_WRITE_BUF_SZ (buf ++ concat (map lua_value_bytes args)).
Proof.
  revert buf. induction args as [|arg args IH]; intros buf Hlen;
    cbn [i2c_write_collect map concat].
  - by rewrite app_nil_r, take_ge.
  - destruct (Nat.ltb_spec (length buf) I2C_WRITE_BUF_SZ) as [Hroom | Hfull].
    2: { rewrite take_app_le by lia. by rewrite take_ge. }
    assert (Hstep :
      match arg with
      | LuaInteger i => buf ++ [uint8_of_int i]
      | LuaString bytes => i2c_buf_store bytes buf
      | LuaTable elements => i2c_buf_store elements buf
      | LuaOther => buf
      end = take I2C_WRITE_BUF_SZ (buf ++ lua_value_bytes arg)).
    { destruct arg as [i | bytes | elements |]; cbn.
      - rewrite take_ge; [done |].
        rewrite length_app. unfold I2C_WRITE_BUF_SZ in *. cbn. lia.
      - by apply i2c_buf_store_take.
      - by apply i2c_buf_store_take.
      - by rewrite app_nil_r, take_ge. }
    rewrite Hstep, IH by (rewrite length_take; lia).
    by rewrite take_take_app, <- app_assoc.
Qed.

Lemma lua_value_bytes_range (arg : lua_value) :
  Forall (fun byte => 0 <= byte < 256)%Z (lua_value_bytes arg).
Proof.
  assert (Hbyte : forall z : Z, (0 <= uint8_of_int z < 256)%Z).
  { intros z. unfold uint8_of_int. apply Z.mod_pos_bound. lia. }
  destruct arg as [i | bytes | elements |]; cbn.
  - constructor; [apply Hbyte | constructor].
  - apply Forall_fmap, Forall_true. intros z. apply Hbyte.
  - apply Forall_fmap, Forall_true. intros z. apply Hbyte.
  - constructor.
Qed.

(** X30. [i2c.write] sends the bytes of its arguments in order: an integer
    as one byte, a string or a table element by element, every value
    reduced modulo 256, anything else skipped; what goes beyond 256 bytes
    is dropped without an error. With no byte to send the call succeeds
    without asking for the device and without a transfer. Otherwise the
    device comes from the cache of [i2c_get_device]; without a device the
    call raises and nothing is sent, with one the collected bytes are handed
    to the driver, and the call succeeds exactly when the driver does. *)
Theorem l_i2c_write_spec (add_device : option i2c_master_dev_handle_t)
    (transmit : esp_err_t) (addr : Z) (args : list lua_value) (st : i2c_state) :
  let data := take I2C_WRITE_BUF_SZ (concat (map lua_value_bytes args)) in
  let call := (l_i2c_write add_device transmit addr args st).1.1 in
  let st' := (l_i2c_write add_device transmit addr args st).1.2 in
  let transfer := (l_i2c_write add_device transmit addr args st).2 in
  let device := i2c_get_device add_device (uint16_of_int addr) st in
  length data <= I2C_WRITE_BUF_SZ /\
  Forall (fun byte => 0 <= byte < 256)%Z data /\
  (data = [] -> call = LuaReturns 0 /\ st' = st /\ transfer = None) /\
  (data <> [] ->
   st' = device.2 /\
   match device.1 with
   | None =>
       transfer = None /\
       call = LuaRaises "i2c: cannot get device 0x%02X" [inl addr]
   | Some dev =>
       transfer = Some (dev, data) /\
       (call = LuaReturns 0 <-> transmit = ESP_OK) /\
       (transmit <> ESP_OK ->
        call = LuaRaises "i2c.write failed: %s" [inr (esp_err_to_name transmit)])
   end).
Proof.
  cbn zeta. unfold l_i2c_write.
  rewrite (i2c_write_collect_take args []) by (cbn; lia).
  rewrite app_nil_l.
  set (data := take I2C_WRITE_BUF_SZ (concat (map lua_value_bytes args))).
  split; [subst data; rewrite length_take; lia |].
  split.
  { subst data. apply Forall_take, Forall_concat, Forall_fmap, Forall_true.
    intros arg. apply lua_value_bytes_range. }
  destruct data as [|byte data'] eqn:Hdata; cbn [length Nat.eqb].
  { split; [done |]. by intros []. }
  split; [done |]. intros _.
  destruct (i2c_get_device add_device (uint16_of_int addr) st) as [[dev|] st''];
    cbn [fst snd]; [| done].
  case_bool_decide as Hret; cbn [fst snd].
  - repeat split; done.
  - repeat split; done.
Qed.

(** ** mcp_log.c: what the escaping loop leaves as it is *)

(** X4. While more than twenty bytes of the buffer remain, the escaping loop
    of [tool_sys_get_logs] copies every byte other than the quote, the
    backslash and the line feed as it is: a message without these three is
    written unchanged, whatever control characters it holds. *)
Theorem get_logs_escape_plain (max_len : nat) (text : string) (b : outbuf) :
  (20 <= Z.of_nat max_len <= INT_MAX)%Z ->
  ob_good b ->
  (ob_written b + Z.of_nat (String.length text) <= Z.of_nat max_len - 20)%Z ->
  Forall (fun c : ascii => c <> dquote /\ c <> "\"%char /\ c <> "010"%char)
    (list_ascii_of_string text) ->
  get_logs_escape max_len text b = Some (ob_push text b).
Proof.
  intros Hmax. revert b.
  induction text as [|c text IH]; intros b Hgood Hroom Hplain.
  - by rewrite ob_push_nil.
  - simpl get_logs_escape.
    rewrite int_of_size_t_small by lia.
    apply Forall_cons in Hplain as [(Hquote & Hback & Hnl) Hplain].
    simpl String.length in Hroom.
    destruct (Z.ltb_spec (ob_written b) (Z.of_nat max_len - 20)) as [Hlt | Hge]; [| lia].
    apply Ascii.eqb_neq in Hquote, Hback, Hnl. rewrite Hquote, Hback, Hnl.
    rewrite ob_putc_fits by (done || lia). simpl.
    rewrite IH; [| by apply ob_push_good | | done].
    + by rewrite ob_push_push, str_app_cons, str_app_nil_l.
    + unfold ob_push. simpl. lia.
Qed.

Lemma get_logs_escape_plain_witness :
  get_logs_escape 2048 (String "a" (String "009" "b")) {| ob_text := ""; ob_written := 0 |}
  = Some {| ob_text := String "a" (String "009" "b"); ob_written := 3 |}.
Proof.
  apply (get_logs_escape_plain 2048 (String "a" (String "009" "b"))
           {| ob_text := ""; ob_written := 0 |}).
  - vm_compute. split; discriminate.
  - reflexivity.
  - vm_compute. discriminate.
  - repeat constructor; discriminate.
Defined.
